(** * FINOVA: the persistent store, the financial aggregator, the rule-based
    advice dispatcher and the remote assistant adapter

    A shallow embedding of [storage.ts], [aiService.ts] and
    [aiServiceHuggingFace.ts] (bundled in [src/pages/Settings.tsx]) and of the
    sign-in handler of the authentication page, followed by the properties
    proved about them. The handlers of the pages and cards that call the
    three services are embedded as well: sign-up and sign-out, the
    transactions card, the insights card, the chat panel and the settings
    page.

    Conventions of the embedding.
    - A JavaScript string is a [string]: one [ascii] per character for ASCII
      text. Text outside ASCII is kept as the bytes of the source file, so on
      such text [length] counts bytes, and [toLowerCase], [trim] and the
      regular-expression classes act on the ASCII range only.
    - A JavaScript number is a binary64 [float]; [-], [/], [*], [<] are the
      IEEE operations of [PrimFloat].
    - What the host defines and the program only calls (locale formatting,
      the shortest-digits number printer, [parseFloat], [Math.random], the
      network) is a field of [Host] or an argument, left uninterpreted.
    - [localStorage] is the text under the session key together with a
      finite map from the other keys to texts; a text that is a JSON
      document is represented by the value it encodes.
    - Subscribers of the store only read it, so [notifyChange] does not
      change [localStorage]. *)

From Stdlib Require Import ZArith List String Ascii Bool Lia Floats DecimalString.
From stdpp Require Import base option list gmap strings.

Set Warnings "-inexact-float,-register-all".

(* ===================================================================== *)
(** ** JavaScript primitives used by the program                          *)
(* ===================================================================== *)

Module JS.

Local Open Scope string_scope.

(** *** Strings *)

Definition nl : string := String (ascii_of_nat 10) EmptyString.
Definition dq : string := String (ascii_of_nat 34) EmptyString.

Definition is_upper (c : ascii) : bool :=
  let n := nat_of_ascii c in (65 <=? n)%nat && (n <=? 90)%nat.

Definition is_lower (c : ascii) : bool :=
  let n := nat_of_ascii c in (97 <=? n)%nat && (n <=? 122)%nat.

Definition lower_char (c : ascii) : ascii :=
  if is_upper c then ascii_of_nat (nat_of_ascii c + 32) else c.

(** [String.prototype.toLowerCase] *)
Fixpoint toLowerCase (s : string) : string :=
  match s with
  | EmptyString => EmptyString
  | String c s' => String (lower_char c) (toLowerCase s')
  end.

(** White space and line terminators: TAB, LF, VT, FF, CR, SP. *)
Definition is_space (c : ascii) : bool :=
  let n := nat_of_ascii c in
  ((9 <=? n)%nat && (n <=? 13)%nat) || (n =? 32)%nat.

Fixpoint trimStart (s : string) : string :=
  match s with
  | EmptyString => EmptyString
  | String c s' => if is_space c then trimStart s' else s
  end.

Fixpoint trimEnd (s : string) : string :=
  match s with
  | EmptyString => EmptyString
  | String c s' =>
      match trimEnd s' with
      | EmptyString => if is_space c then EmptyString else String c EmptyString
      | t => String c t
      end
  end.

(** [String.prototype.trim] *)
Definition trim (s : string) : string := trimEnd (trimStart s).

Definition startsWith (s p : string) : bool := String.prefix p s.

(** [String.prototype.includes] *)
Fixpoint includes (s sub : string) : bool :=
  startsWith s sub ||
  match s with
  | EmptyString => false
  | String _ s' => includes s' sub
  end.

Definition str_eqb (a b : string) : bool := String.eqb a b.

Fixpoint rev_string (acc s : string) : string :=
  match s with
  | EmptyString => acc
  | String c s' => rev_string (String c acc) s'
  end.

(** [s.split(sep)] for a non-empty separator. [skip] counts the characters
    of a separator found earlier that are still to be passed over, [cur]
    holds the current piece in reverse. *)
Fixpoint split_from (sep s : string) (skip : nat) (cur : string) : list string :=
  match s with
  | EmptyString => [rev_string EmptyString cur]
  | String c s' =>
      match skip with
      | S k => split_from sep s' k cur
      | O =>
          if startsWith s sep
          then rev_string EmptyString cur
                 :: split_from sep s' (String.length sep - 1) EmptyString
          else split_from sep s' 0 (String c cur)
      end
  end.

Definition split (s sep : string) : list string := split_from sep s 0 EmptyString.

Fixpoint join (sep : string) (l : list string) : string :=
  match l with
  | [] => EmptyString
  | [x] => x
  | x :: l' => x ++ sep ++ join sep l'
  end.

(** [s.replace(/tok/g, '')] for a literal, non-empty token: every
    occurrence found by a left-to-right scan is dropped. *)
Definition remove_all (tok s : string) : string := join EmptyString (split s tok).

(** Truthiness of a string. *)
Definition truthy_str (s : string) : bool := negb (str_eqb s EmptyString).

(** [Array.prototype.push] *)
Definition push {A} (l : list A) (x : A) : list A := (l ++ [x])%list.

(** [Array.prototype.slice(-n)] *)
Definition slice_last {A} (n : nat) (l : list A) : list A :=
  skipn (List.length l - n) l.

(** [Array.prototype.slice(-a, -b)] for [b <= a] *)
Definition slice_neg {A} (a b : nat) (l : list A) : list A :=
  let len := List.length l in
  firstn ((len - b) - (len - a)) (skipn (len - a) l).

(** *** Numbers *)

Local Open Scope float_scope.

Abbreviation number := float.

(** [a > b] and [a >= b] *)
Definition gtb (a b : number) : bool := b <? a.
Definition geb (a b : number) : bool := b <=? a.

(** Truthiness of a number: neither [0], [-0] nor [NaN]. *)
Definition truthy_num (x : number) : bool := negb (is_nan x || is_zero x).

Definition digits_of_N (n : N) : string := NilZero.string_of_uint (N.to_uint n).

(** The integer [n] for which [n / 10^f - m * 2^e] is closest to zero, the
    larger one of two (step 10.a of [Number.prototype.toFixed]). *)
Definition scaled_round (f : nat) (m : positive) (e : Z) : N :=
  let p := (Z.pos m * 10 ^ Z.of_nat f)%Z in
  Z.to_N (if (0 <=? e)%Z then p * 2 ^ e
          else (2 * p + 2 ^ (- e)) / 2 ^ (1 - e))%Z.

Fixpoint zeros (k : nat) : string :=
  match k with O => EmptyString | S k' => String "0" (zeros k') end.

(** Steps 10.b-10.c: pad with zeros to [f + 1] digits and put the point
    before the last [f] digits. *)
Definition place_point (f : nat) (digits : string) : string :=
  let k := String.length digits in
  let m := if (k <=? f)%nat then zeros (f + 1 - k) ++ digits else digits in
  match f with
  | O => m
  | _ =>
      let k := String.length m in
      substring 0 (k - f) m ++ "." ++ substring (k - f) f m
  end.

(** Host functions: defined by the environment, not by the program. *)
Record Host := {
  (** [Number.prototype.toLocaleString()] *)
  toLocaleString : number -> string;
  (** [Number::toString] on a positive finite number (the shortest digits
      that identify it) *)
  numberToString : number -> string;
  (** the global [parseFloat] *)
  parseFloat : string -> number;
  (** the value returned by the call of [Math.random()] *)
  random : number
}.

(** [Number::toString] *)
Definition ToString (host : Host) (x : number) : string :=
  match Prim2SF x with
  | S754_nan => "NaN"
  | S754_infinity false => "Infinity"
  | S754_infinity true => "-Infinity"
  | S754_zero _ => "0"
  | S754_finite s _ _ => (if s then "-" else "") ++ numberToString host (abs x)
  end.

(** [Number.prototype.toFixed(f)] for [0 <= f <= 100] *)
Definition toFixed (host : Host) (f : nat) (x : number) : string :=
  match Prim2SF x with
  | S754_nan => "NaN"
  | S754_infinity false => "Infinity"
  | S754_infinity true => "-Infinity"
  | S754_zero _ => place_point f "0"
  | S754_finite s m e =>
      let sign := if s then "-" else "" in
      if 1e21 <=? abs x then sign ++ numberToString host (abs x)
      else sign ++ place_point f (digits_of_N (scaled_round f m e))
  end.

(** [Math.floor(x)] as an array index: [None] when [x] is negative,
    infinite or [NaN], in which case indexing gives [undefined]. *)
Definition floor_index (x : number) : option nat :=
  match Prim2SF x with
  | S754_zero _ => Some O
  | S754_finite false m e =>
      Some (Z.to_nat (if (0 <=? e)%Z then Z.pos m * 2 ^ e
                      else Z.pos m / 2 ^ (- e))%Z)
  | _ => None
  end.

(** *** Plain objects used as dictionaries

    An object such as [{} as Record<string, number>] is kept as the list of
    its own properties in creation order. Names inherited from
    [Object.prototype] are not modelled: keys are taken to be ordinary
    category names. *)

Definition dict (A : Type) := list (string * A).

Fixpoint dict_get {A} (d : dict A) (k : string) : option A :=
  match d with
  | [] => None
  | (k', v) :: d' => if str_eqb k' k then Some v else dict_get d' k
  end.

(** [d[k] = v]: an existing property keeps its place, a new one is added
    last. *)
Fixpoint dict_set {A} (d : dict A) (k : string) (v : A) : dict A :=
  match d with
  | [] => [(k, v)]
  | (k', v') :: d' =>
      if str_eqb k' k then (k', v) :: d' else (k', v') :: dict_set d' k v
  end.

Definition is_digit (c : ascii) : bool :=
  let n := nat_of_ascii c in (48 <=? n)%nat && (n <=? 57)%nat.

Fixpoint digits_value (acc : N) (s : string) : option N :=
  match s with
  | EmptyString => Some acc
  | String c s' =>
      if is_digit c
      then digits_value (acc * 10 + N.of_nat (nat_of_ascii c - 48))%N s'
      else None
  end.

(** An array index: the canonical decimal text of an integer below
    [2^32 - 1]. Such keys are enumerated first, in ascending order. *)
Definition array_index (k : string) : option N :=
  match k with
  | EmptyString => None
  | String c rest =>
      if (c =? "0")%char && negb (str_eqb rest EmptyString) then None
      else match digits_value 0%N k with
           | Some n => if (n <? 4294967295)%N then Some n else None
           | None => None
           end
  end.

Fixpoint insert_index {A} (n : N) (kv : string * A) (l : list (N * (string * A)))
  : list (N * (string * A)) :=
  match l with
  | [] => [(n, kv)]
  | (n', kv') :: l' =>
      if (n <? n')%N then (n, kv) :: l else (n', kv') :: insert_index n kv l'
  end.

Definition index_entries {A} (d : dict A) : list (N * (string * A)) :=
  fold_left (fun acc kv =>
               match array_index (fst kv) with
               | Some n => insert_index n kv acc
               | None => acc
               end) d [].

(** [Object.entries(d)] *)
Definition entries {A} (d : dict A) : list (string * A) :=
  (map snd (index_entries d)
    ++ List.filter (fun kv => match array_index (fst kv) with
                         | Some _ => false
                         | None => true
                         end) d)%list.

(** [Array.prototype.sort(cmp)], stable: [gt a b] says that [cmp(a, b) > 0],
    so that [a] is placed after [b]. *)
Fixpoint sort_insert {A} (gt : A -> A -> bool) (x : A) (l : list A) : list A :=
  match l with
  | [] => [x]
  | y :: l' => if gt x y then y :: sort_insert gt x l' else x :: l
  end.

Definition sort {A} (gt : A -> A -> bool) (l : list A) : list A :=
  fold_right (sort_insert gt) [] l.

End JS.

(* ===================================================================== *)
(** ** Data model ([storage.ts])                                          *)
(* ===================================================================== *)

Module Demographic.
Inductive kind := student | professional | retiree | entrepreneur.
Record t := {
  type : kind;
  age : option JS.number;
  location : option string;
  occupation : option string
}.
End Demographic.

Module User.
Record t := {
  id : string;
  email : string;
  fullName : string;
  password : option string;
  demographic : option Demographic.t;
  financialGoals : option (list string);
  createdAt : string
}.
End User.

(** An entry of [expenseBreakdown]. *)
Module Expense.
Record t := { category : string; amount : JS.number; date : string }.
End Expense.

(** An entry of [incomeHistory]. *)
Module Income.
Record t := { date : string; amount : JS.number }.
End Income.

(** An entry of [expenseHistory]. *)
Module Spent.
Record t := { date : string; amount : JS.number; category : string }.
End Spent.

Module FinancialData.
Record t := {
  totalBalance : JS.number;
  monthlyIncome : JS.number;
  monthlyExpenses : JS.number;
  expenseBreakdown : list Expense.t;
  incomeHistory : list Income.t;
  expenseHistory : list Spent.t
}.
End FinancialData.

Module SavingsGoal.
Record t := {
  id : string;
  name : string;
  target_amount : JS.number;
  current_amount : JS.number;
  deadline : option string;
  createdAt : string
}.
End SavingsGoal.

Module Role.
Inductive t := user | assistant.
End Role.

(** [ChatMessage & { userId?: string }] *)
Module ChatMessage.
Record t := {
  id : string;
  role : Role.t;
  content : string;
  created_at : string;
  userId : option string
}.
End ChatMessage.

(** The tone and the complexity derived from the demographic type. *)
Inductive Tone := casual | professional | formal | friendly.
Inductive Complexity := simple | moderate | detailed.

(** The object built by [generateBudgetSummary]. *)
Module BudgetSummary.
Record t := {
  monthlyIncome : JS.number;
  monthlyExpenses : JS.number;
  monthlySavings : JS.number;
  savingsRate : string;
  categoryBreakdown : JS.dict JS.number;
  totalBalance : JS.number
}.
End BudgetSummary.

(** The object built by [generateSpendingInsights]. *)
Module Insights.
Record t := {
  trends : list string;
  anomalies : list string;
  recommendations : list string
}.
End Insights.

Module AIResponse.
Record t := {
  content : string;
  suggestions : option (list string);
  budgetSummary : option BudgetSummary.t;
  insights : option Insights.t
}.
End AIResponse.

(** What [getUserContext] reads from the store: the current user, if any,
    and the financial data of the active user. *)
Record UserContext := {
  user : option User.t;
  financialData : FinancialData.t
}.

(** [{} as FinancialData]: every field is [undefined]. The callees that
    receive it only do arithmetic and comparisons on the numeric fields,
    where [undefined] behaves as [NaN]. *)
Definition emptyObject : FinancialData.t :=
  {| FinancialData.totalBalance := nan;
     FinancialData.monthlyIncome := nan;
     FinancialData.monthlyExpenses := nan;
     FinancialData.expenseBreakdown := [];
     FinancialData.incomeHistory := [];
     FinancialData.expenseHistory := [] |}.

(** [getDemographicTone], the same in both services. The [default] branch of
    the [switch] cannot be reached with a typed demographic. *)
Definition getDemographicTone (user : option User.t) : Tone * Complexity :=
  match user with
  | None => (friendly, moderate)
  | Some u =>
      match User.demographic u with
      | None => (friendly, moderate)
      | Some d =>
          match Demographic.type d with
          | Demographic.student => (casual, simple)
          | Demographic.professional => (professional, detailed)
          | Demographic.retiree => (formal, simple)
          | Demographic.entrepreneur => (professional, detailed)
          end
      end
  end.

(* ===================================================================== *)
(** ** Rule-based service ([aiService.ts])                                *)
(* ===================================================================== *)

(** The callback of the [reduce] that groups [expenseBreakdown] by
    category; the three copies of the aggregation in the sources use it
    verbatim. *)
Definition sumByCategory (acc : JS.dict JS.number) (expense : Expense.t)
  : JS.dict JS.number :=
  let c := Expense.category expense in
  let acc :=
    match JS.dict_get acc c with
    | Some v => if JS.truthy_num v then acc else JS.dict_set acc c 0%float
    | None => JS.dict_set acc c 0%float
    end in
  match JS.dict_get acc c with
  | Some v => JS.dict_set acc c (v + Expense.amount expense)%float
  | None => acc
  end.

Module AIService.
Import JS.
Local Open Scope string_scope.
Local Open Scope float_scope.

Section WithHost.
Context (host : Host).

Definition generateBudgetSummary (financialData : FinancialData.t)
  : BudgetSummary.t :=
  let savingsRate :=
    ((FinancialData.monthlyIncome financialData
        - FinancialData.monthlyExpenses financialData)
       / FinancialData.monthlyIncome financialData) * 100 in
  let monthlySavings :=
    FinancialData.monthlyIncome financialData
      - FinancialData.monthlyExpenses financialData in
  let categoryBreakdown :=
    fold_left sumByCategory (FinancialData.expenseBreakdown financialData) [] in
  {| BudgetSummary.monthlyIncome := FinancialData.monthlyIncome financialData;
     BudgetSummary.monthlyExpenses := FinancialData.monthlyExpenses financialData;
     BudgetSummary.monthlySavings := monthlySavings;
     BudgetSummary.savingsRate := toFixed host 1 savingsRate;
     BudgetSummary.categoryBreakdown := categoryBreakdown;
     BudgetSummary.totalBalance := FinancialData.totalBalance financialData |}.

Definition sumAmounts (l : list Spent.t) : number :=
  fold_left (fun sum e => sum + Spent.amount e) l 0.

Definition generateSpendingInsights (financialData : FinancialData.t)
  : Insights.t :=
  let trends := [] in
  let anomalies := [] in
  let recommendations := [] in
  let savingsRate :=
    ((FinancialData.monthlyIncome financialData
        - FinancialData.monthlyExpenses financialData)
       / FinancialData.monthlyIncome financialData) * 100 in
  (* Analyze expense trends *)
  let '(trends, recommendations) :=
    if (1 <? List.length (FinancialData.expenseHistory financialData))%nat then
      let recentExpenses :=
        sumAmounts (slice_last 3 (FinancialData.expenseHistory financialData)) / 3 in
      let olderExpenses :=
        sumAmounts (slice_neg 6 3 (FinancialData.expenseHistory financialData)) / 3 in
      if gtb recentExpenses (olderExpenses * 1.1) then
        (push trends
           ("Your spending has increased by over 10% in recent months."),
         push recommendations
           ("Review your recent expenses to identify areas where you can cut back."))
      else if recentExpenses <? olderExpenses * 0.9 then
        (push trends
           ("Great job! Your spending has decreased recently."),
         recommendations)
      else (trends, recommendations)
    else (trends, recommendations) in
  (* Savings rate analysis *)
  let '(trends, recommendations) :=
    if savingsRate <? 10 then
      (trends,
       push recommendations
           ("Consider increasing your savings rate to at least 10% of your income."))
    else if geb savingsRate 20 then
      (push trends
           ("Excellent savings rate! You're saving 20% or more of your income."),
       recommendations)
    else (trends, recommendations) in
  (* Category analysis *)
  let categoryBreakdown :=
    fold_left sumByCategory (FinancialData.expenseBreakdown financialData) [] in
  let maxCategory :=
    head (sort (fun a b => gtb (snd b - snd a) 0) (entries categoryBreakdown)) in
  let recommendations :=
    match maxCategory with
    | Some (name, value) =>
        if gtb value (FinancialData.monthlyExpenses financialData * 0.4) then
          push recommendations
           (name ++ " is your largest expense category. Consider reviewing it for optimization opportunities.")
        else recommendations
    | None => recommendations
    end in
  (* Balance check *)
  let '(anomalies, recommendations) :=
    if FinancialData.totalBalance financialData
         <? FinancialData.monthlyExpenses financialData * 3 then
      (push anomalies
           ("Your emergency fund is below 3 months of expenses. Consider building it up."),
       push recommendations
           ("Aim to have 3-6 months of expenses saved as an emergency fund."))
    else (anomalies, recommendations) in
  {| Insights.trends := trends;
     Insights.anomalies := anomalies;
     Insights.recommendations := recommendations |}.


Definition Tone_eqb (a b : Tone) : bool :=
  match a, b with
  | casual, casual | professional, professional
  | formal, formal | friendly, friendly => true
  | _, _ => false
  end.

Definition Complexity_eqb (a b : Complexity) : bool :=
  match a, b with
  | simple, simple | moderate, moderate | detailed, detailed => true
  | _, _ => false
  end.

Definition generateBudgetResponse (summary : BudgetSummary.t)
           (tone : Tone) (complexity : Complexity) : string :=
  let greeting :=
    if Tone_eqb tone casual then "Here is your budget summary:"
    else if Tone_eqb tone professional then "Here is your budget summary:"
    else "Your budget overview:" in
  let response := greeting ++ nl ++ nl in
  let response := response ++ "üí∞ Monthly Income: $" ++ toLocaleString host (BudgetSummary.monthlyIncome summary) ++ nl in
  let response := response ++ "üí∏ Monthly Expenses: $" ++ toLocaleString host (BudgetSummary.monthlyExpenses summary) ++ nl in
  let response := response ++ "üíµ Monthly Savings: $" ++ toLocaleString host (BudgetSummary.monthlySavings summary) ++ nl in
  let response := response ++ "üìä Savings Rate: " ++ BudgetSummary.savingsRate summary ++ "%" ++ nl ++ nl in
  let response :=
    if Complexity_eqb complexity detailed then
      let response := response ++ "Current Balance: $" ++ toLocaleString host (BudgetSummary.totalBalance summary) ++ nl in
      if (0 <? List.length (entries (BudgetSummary.categoryBreakdown summary)))%nat then
        let response := response ++ nl ++ "Expense Categories:" ++ nl in
        fold_left
          (fun response '(cat, amount) =>
             let percentage :=
               toFixed host 1 ((amount / BudgetSummary.monthlyExpenses summary) * 100) in
             response ++ "  ‚Ä¢ " ++ cat ++ ": $" ++ toLocaleString host amount ++ " (" ++ percentage ++ "%)" ++ nl)
          (entries (BudgetSummary.categoryBreakdown summary)) response
      else response
    else response in
  let response :=
    if parseFloat host (BudgetSummary.savingsRate summary) <? 10 then
      response ++ nl ++ "üí° Tip: Try to save at least 10% of your income each month for better financial health."
    else response in
  response.

Definition generateInsightsResponse (insights : Insights.t)
           (tone : Tone) (complexity : Complexity) : string :=
  let response :=
    if Tone_eqb tone casual
    then "Here are your spending insights! üìä" ++ nl ++ nl
    else "Spending Analysis:" ++ nl ++ nl in
  let response :=
    if (0 <? List.length (Insights.trends insights))%nat then
      let response := response ++ "üìà Trends:" ++ nl in
      let response :=
        fold_left (fun response trend => response ++ "  ‚Ä¢ " ++ trend ++ nl)
          (Insights.trends insights) response in
      response ++ nl
    else response in
  let response :=
    if (0 <? List.length (Insights.anomalies insights))%nat then
      let response := response ++ "‚ö†Ô∏è Items to Review:" ++ nl in
      let response :=
        fold_left (fun response anomaly => response ++ "  ‚Ä¢ " ++ anomaly ++ nl)
          (Insights.anomalies insights) response in
      response ++ nl
    else response in
  let response :=
    if (0 <? List.length (Insights.recommendations insights))%nat then
      let response := response ++ "üí° Recommendations:" ++ nl in
      fold_left (fun response rec => response ++ "  ‚Ä¢ " ++ rec ++ nl)
        (Insights.recommendations insights) response
    else response in
  response.

Definition generateSavingsAdvice (user : option User.t)
           (financialData : FinancialData.t)
           (tone : Tone) (complexity : Complexity) : string :=
  let savingsRate :=
    ((FinancialData.monthlyIncome financialData
        - FinancialData.monthlyExpenses financialData)
       / FinancialData.monthlyIncome financialData) * 100 in
  let monthlySavings :=
    FinancialData.monthlyIncome financialData
      - FinancialData.monthlyExpenses financialData in
  let response :=
    if Tone_eqb tone casual
    then "Here is some savings advice! üí∞" ++ nl ++ nl
    else "Savings Recommendations:" ++ nl ++ nl in
  let response :=
    if savingsRate <? 10 then
      response ++ "Your current savings rate is " ++ toFixed host 1 savingsRate ++ "%. The general recommendation is to save at least 10-20% of your income."
    else if savingsRate <? 20 then
      response ++ "Good job! You are saving " ++ toFixed host 1 savingsRate ++ "% of your income. Consider increasing it to 20% for better financial security."
    else
      response ++ "Excellent! You are saving " ++ toFixed host 1 savingsRate ++ "% of your income. Keep up the great work!" in
  let response := response ++ nl ++ nl ++ "You are currently saving $" ++ toLocaleString host monthlySavings ++ " per month." in
  let response :=
    if Complexity_eqb complexity detailed then
      let response := response ++ nl ++ nl ++ "Here are some strategies to boost your savings:" ++ nl in
      let response := response ++ "1. Automate your savings transfers" ++ nl in
      let response := response ++ "2. Review and reduce unnecessary expenses" ++ nl in
      let response := response ++ "3. Create a separate savings account for goals" ++ nl in
      response ++ "4. Track your spending to identify opportunities"
    else response in
  response.

Definition generateInvestmentAdvice (user : option User.t)
           (financialData : FinancialData.t)
           (tone : Tone) (complexity : Complexity) : string :=
  let response :=
    if Tone_eqb tone casual
    then "Investment advice! üìà" ++ nl ++ nl
    else "Investment Recommendations:" ++ nl ++ nl in
  let response := response ++ "Before investing, ensure you have:" ++ nl in
  let response := response ++ "1. An emergency fund (3-6 months of expenses)" ++ nl in
  let response := response ++ "2. High-interest debt paid off" ++ nl in
  let response := response ++ "3. A stable income source" ++ nl ++ nl in
  let response :=
    if FinancialData.totalBalance financialData
         <? FinancialData.monthlyExpenses financialData * 6 then
      response ++ "I recommend building your emergency fund first before investing."
    else
      let response := response ++ "Consider starting with:" ++ nl in
      let response := response ++ "‚Ä¢ Index funds or ETFs for diversification" ++ nl in
      let response := response ++ "‚Ä¢ 401(k) or similar retirement accounts if available" ++ nl in
      let response := response ++ "‚Ä¢ Dollar-cost averaging strategy" ++ nl ++ nl in
      if Complexity_eqb complexity detailed then
        response ++ "Remember: All investments carry risk. Consider your risk tolerance and time horizon."
      else response in
  response.

(** [user?.demographic?.type] *)
Definition demographicType (user : option User.t) : option Demographic.kind :=
  match user with
  | Some u =>
      match User.demographic u with
      | Some d => Some (Demographic.type d)
      | None => None
      end
  | None => None
  end.

Definition generateTaxAdvice (user : option User.t)
           (financialData : FinancialData.t)
           (tone : Tone) (complexity : Complexity) : string :=
  let response :=
    if Tone_eqb tone casual
    then "Tax tips! üìã" ++ nl ++ nl
    else "Tax Planning Advice:" ++ nl ++ nl in
  let response := response ++ "General tax-saving strategies:" ++ nl ++ nl in
  let response := response ++ "1. Maximize retirement contributions (401(k), IRA)" ++ nl in
  let response := response ++ "2. Keep receipts for deductible expenses" ++ nl in
  let response := response ++ "3. Consider tax-loss harvesting for investments" ++ nl in
  let response := response ++ "4. Take advantage of tax credits and deductions" ++ nl ++ nl in
  let response :=
    match demographicType user with
    | Some Demographic.student =>
        response ++ "As a student, you may qualify for education credits and deductions. Keep track of tuition and education expenses."
    | Some Demographic.professional =>
        response ++ "As a professional, consider contributing to retirement accounts and keeping track of work-related expenses."
    | _ => response
    end in
  let response := response ++ nl ++ nl ++ "Note: I am providing general advice. Consult a tax professional for personalized guidance." in
  response.

Definition generateGoalsAdvice (user : option User.t)
           (tone : Tone) (complexity : Complexity) : string :=
  let response :=
    if Tone_eqb tone casual
    then "Let us talk about goals! üéØ" ++ nl ++ nl
    else "Financial Goal Planning:" ++ nl ++ nl in
  let response := response ++ "Setting and achieving financial goals:" ++ nl ++ nl in
  let response := response ++ "1. Make goals SMART (Specific, Measurable, Achievable, Relevant, Time-bound)" ++ nl in
  let response := response ++ "2. Break large goals into smaller milestones" ++ nl in
  let response := response ++ "3. Track progress regularly" ++ nl in
  let response := response ++ "4. Adjust goals as your situation changes" ++ nl ++ nl in
  let financialGoals :=
    match user with
    | Some u => User.financialGoals u
    | None => None
    end in
  let response :=
    match financialGoals with
    | Some (g :: gs) =>
        let response := response ++ "Your current goals:" ++ nl in
        fst (fold_left
               (fun '(response, index) goal =>
                  (response ++ digits_of_N (N.of_nat (index + 1)%nat) ++ ". " ++ goal ++ nl, S index))
               (g :: gs) (response, O))
    | _ =>
        response ++ "You have not set any financial goals yet. Would you like help creating some?"
    end in
  response.

Definition generateDebtAdvice (user : option User.t)
           (financialData : FinancialData.t)
           (tone : Tone) (complexity : Complexity) : string :=
  let response :=
    if Tone_eqb tone casual
    then "Let us talk about debt management!" ++ nl ++ nl
    else "Debt Management Advice:" ++ nl ++ nl in
  let response := response ++ "Effective debt management strategies:" ++ nl ++ nl in
  let response := response ++ "1. List all your debts with interest rates" ++ nl in
  let response := response ++ "2. Prioritize high-interest debt (debt avalanche method)" ++ nl in
  let response := response ++ "3. Or pay off smallest debts first (debt snowball method)" ++ nl in
  let response := response ++ "4. Consider debt consolidation if applicable" ++ nl in
  let response := response ++ "5. Make minimum payments on all debts" ++ nl in
  let response := response ++ "6. Allocate extra funds to priority debt" ++ nl ++ nl in
  let response :=
    if gtb (FinancialData.monthlyExpenses financialData)
           (FinancialData.monthlyIncome financialData * 0.5) then
      response ++ "Based on your current expenses, you may want to review your spending to free up money for debt repayment."
    else
      let available :=
        FinancialData.monthlyIncome financialData
          - FinancialData.monthlyExpenses financialData in
      response ++ "You have about $" ++ toLocaleString host available ++ " available monthly that could go toward debt repayment." in
  response.

Definition generateRetirementAdvice (user : option User.t)
           (financialData : FinancialData.t)
           (tone : Tone) (complexity : Complexity) : string :=
  let response :=
    if Tone_eqb tone casual
    then "Retirement planning! Let us get you set up." ++ nl ++ nl
    else "Retirement Planning Advice:" ++ nl ++ nl in
  let response := response ++ "Key retirement planning steps:" ++ nl ++ nl in
  let response := response ++ "1. Start saving early - time is your biggest advantage" ++ nl in
  let response := response ++ "2. Contribute to employer-sponsored plans (401k, 403b) with matching" ++ nl in
  let response := response ++ "3. Open an IRA (Traditional or Roth)" ++ nl in
  let response := response ++ "4. Aim to save 10-15% of your income for retirement" ++ nl in
  let response := response ++ "5. Diversify your investments" ++ nl in
  let response := response ++ "6. Consider your retirement timeline" ++ nl ++ nl in
  let response :=
    match demographicType user with
    | Some Demographic.student =>
        response ++ "As a student, starting early gives you a huge advantage. Even small amounts now compound significantly over time."
    | Some Demographic.professional =>
        let monthlySavings :=
          FinancialData.monthlyIncome financialData
            - FinancialData.monthlyExpenses financialData in
        response ++ "With your current savings rate, you are setting a good foundation. Consider increasing contributions to retirement accounts."
    | _ => response
    end in
  response.

Definition answerSpecificQuestion (userMessage : string) (user : option User.t)
           (financialData : FinancialData.t)
           (tone : Tone) (complexity : Complexity) : string :=
  let message := toLowerCase userMessage in
  if includes message "how much" && includes message "spend" then
    "You are currently spending $" ++ toLocaleString host (FinancialData.monthlyExpenses financialData) ++ " per month."
  else if includes message "how much"
          && (includes message "earn" || includes message "income") then
    "Your monthly income is $" ++ toLocaleString host (FinancialData.monthlyIncome financialData) ++ "."
  else if includes message "how much"
          && (includes message "save" || includes message "left") then
    let savings :=
      FinancialData.monthlyIncome financialData
        - FinancialData.monthlyExpenses financialData in
    "You are saving $" ++ toLocaleString host savings ++ " per month, which is " ++ toFixed host 1 ((savings / FinancialData.monthlyIncome financialData) * 100) ++ "% of your income."
  else if includes message "what is my" && includes message "balance" then
    "Your current balance is $" ++ toLocaleString host (FinancialData.totalBalance financialData) ++ "."
  else if includes message "what is my" && includes message "savings rate" then
    let rate :=
      ((FinancialData.monthlyIncome financialData
          - FinancialData.monthlyExpenses financialData)
         / FinancialData.monthlyIncome financialData) * 100 in
    let response := "Your savings rate is " ++ toFixed host 1 rate ++ "%. " in
    if rate <? 10 then
      response ++ "Consider aiming for at least 10-20% for better financial health."
    else if rate <? 20 then
      response ++ "That is good! Consider increasing to 20% for optimal savings."
    else
      response ++ "Excellent! You are saving at an optimal rate."
  else
    let response := "I understand you are asking about your finances. Could you be more specific? For example:" ++ nl in
    let response := response ++ "‚Ä¢ " ++ dq ++ "How much am I spending?" ++ dq ++ nl in
    let response := response ++ "‚Ä¢ " ++ dq ++ "What is my savings rate?" ++ dq ++ nl in
    let response := response ++ "‚Ä¢ " ++ dq ++ "How much do I earn?" ++ dq in
    response.

Definition explainSIP (tone : Tone) (complexity : Complexity) : string :=
  let response :=
    if Tone_eqb tone casual
    then "SIP stands for Systematic Investment Plan!" ++ nl ++ nl
    else "SIP (Systematic Investment Plan):" ++ nl ++ nl in
  let response := response ++ "SIP is a method of investing in mutual funds where you invest a fixed amount regularly (monthly, quarterly, etc.) instead of a lump sum." ++ nl ++ nl in
  let response := response ++ "Key Benefits:" ++ nl in
  let response := response ++ "‚Ä¢ Rupee Cost Averaging - You buy more units when prices are low and fewer when prices are high" ++ nl in
  let response := response ++ "‚Ä¢ Disciplined Investing - Regular investments build the habit of saving" ++ nl in
  let response := response ++ "‚Ä¢ Small Amounts - You can start with as little as $500-1000 per month" ++ nl in
  let response := response ++ "‚Ä¢ Flexibility - You can increase, decrease, pause, or stop anytime" ++ nl in
  let response := response ++ "‚Ä¢ Power of Compounding - Your money grows over time through reinvestment" ++ nl ++ nl in
  let response :=
    if Complexity_eqb complexity detailed then
      let response := response ++ "How it works:" ++ nl in
      let response := response ++ "1. Choose a mutual fund scheme" ++ nl in
      let response := response ++ "2. Decide the amount and frequency (usually monthly)" ++ nl in
      let response := response ++ "3. Set up auto-debit from your bank account" ++ nl in
      let response := response ++ "4. The fund house automatically invests the amount on a fixed date" ++ nl in
      let response := response ++ "5. You accumulate units in the fund over time" ++ nl ++ nl in
      response ++ "SIP is ideal for long-term goals like retirement, children's education, or buying a house."
    else
      response ++ "SIP is perfect for long-term goals like retirement, education, or buying a house. Start small and invest regularly!" in
  response.

(* Investment Terms *)
Definition explainMutualFund (tone : Tone) (complexity : Complexity) : string :=
  let response :=
    if Tone_eqb tone casual
    then "Mutual funds are a great investment option!" ++ nl ++ nl
    else "Mutual Funds:" ++ nl ++ nl in
  let response := response ++ "A mutual fund pools money from many investors to buy a diversified portfolio of stocks, bonds, or other securities." ++ nl ++ nl in
  let response := response ++ "Benefits: Professional management, diversification, liquidity, and low minimum investment." ++ nl in
  let response := response ++ "Types: Equity funds (stocks), Debt funds (bonds), Hybrid funds (mix), and Index funds." ++ nl in
  response.

Definition explainEquity (tone : Tone) (complexity : Complexity) : string :=
  let response := "Equity represents ownership in a company. When you buy stocks, you own a portion of that company." ++ nl ++ nl in
  let response := response ++ "Equity investments can offer higher returns but come with higher risk. Suitable for long-term goals." ++ nl in
  response.

Definition explainStocks (tone : Tone) (complexity : Complexity) : string :=
  let response := "Stocks (or shares) represent ownership in a company. Buying stocks makes you a shareholder." ++ nl ++ nl in
  let response := response ++ "Stock prices fluctuate based on company performance and market conditions. Research before investing." ++ nl in
  response.

Definition explainStockMarket (tone : Tone) (complexity : Complexity) : string :=
  let response := "The stock market is where buyers and sellers trade stocks of publicly listed companies." ++ nl ++ nl in
  let response := response ++ "Major indices track market performance. Investing in stocks requires understanding market trends and company fundamentals." ++ nl in
  response.

Definition explainPortfolio (tone : Tone) (complexity : Complexity) : string :=
  let response := "A portfolio is your collection of investments (stocks, bonds, mutual funds, etc.)." ++ nl ++ nl in
  let response := response ++ "A well-diversified portfolio spreads risk across different asset classes and sectors." ++ nl in
  response.

Definition explainDiversification (tone : Tone) (complexity : Complexity) : string :=
  let response := "Diversification means spreading investments across different assets to reduce risk." ++ nl ++ nl in
  let response := response ++ "Don't put all eggs in one basket. Invest in stocks, bonds, real estate, and other assets." ++ nl in
  response.

Definition explainETF (tone : Tone) (complexity : Complexity) : string :=
  let response := "ETF (Exchange Traded Fund) is a basket of securities that trades on stock exchanges like a stock." ++ nl ++ nl in
  let response := response ++ "ETFs combine benefits of mutual funds (diversification) with stocks (trading flexibility). Lower fees than mutual funds." ++ nl in
  response.

Definition explainIndexFund (tone : Tone) (complexity : Complexity) : string :=
  let response := "An index fund tracks a market index (like S&P 500) by holding the same securities in the same proportions." ++ nl ++ nl in
  let response := response ++ "Low fees, passive management, and broad market exposure. Great for beginners." ++ nl in
  response.

Definition explainBond (tone : Tone) (complexity : Complexity) : string :=
  let response := "A bond is a loan you give to a company or government. They pay you interest and return the principal." ++ nl ++ nl in
  let response := response ++ "Bonds are generally safer than stocks but offer lower returns. Good for conservative investors." ++ nl in
  response.

Definition explainFixedDeposit (tone : Tone) (complexity : Complexity) : string :=
  let response := "Fixed Deposit (FD) is a bank deposit with fixed interest rate and maturity date." ++ nl ++ nl in
  let response := response ++ "Safe, guaranteed returns, but lower than market investments. Good for short-term goals." ++ nl in
  response.

Definition explainRD (tone : Tone) (complexity : Complexity) : string :=
  let response := "Recurring Deposit (RD) lets you invest a fixed amount monthly for a fixed period." ++ nl ++ nl in
  let response := response ++ "Disciplined savings with guaranteed returns. Similar to FD but with monthly contributions." ++ nl in
  response.

Definition explainPPF (tone : Tone) (complexity : Complexity) : string :=
  let response := "PPF (Public Provident Fund) is a long-term savings scheme with tax benefits." ++ nl ++ nl in
  let response := response ++ "15-year lock-in, tax deductions under Section 80C, and tax-free interest. Great for retirement planning." ++ nl in
  response.

Definition explainNSC (tone : Tone) (complexity : Complexity) : string :=
  let response := "NSC (National Savings Certificate) is a fixed-income investment scheme." ++ nl ++ nl in
  let response := response ++ "5-year maturity, tax benefits under Section 80C, and guaranteed returns backed by government." ++ nl in
  response.

Definition explainCreditScore (tone : Tone) (complexity : Complexity) : string :=
  let response := "Credit score (300-850) reflects your creditworthiness based on payment history and debt." ++ nl ++ nl in
  let response := response ++ "Higher scores (700+) get better loan rates. Pay bills on time, keep debt low, and check your report regularly." ++ nl in
  response.

Definition explainCreditCard (tone : Tone) (complexity : Complexity) : string :=
  let response := "Credit cards let you borrow money up to a limit. Pay full balance monthly to avoid interest." ++ nl ++ nl in
  let response := response ++ "Use responsibly: pay on time, avoid minimum payments, and use rewards wisely." ++ nl in
  response.

Definition explainEMI (tone : Tone) (complexity : Complexity) : string :=
  let response := "EMI (Equated Monthly Installment) is the fixed monthly payment for loans." ++ nl ++ nl in
  let response := response ++ "Includes principal and interest. Lower EMI = longer tenure = more total interest. Find the right balance." ++ nl in
  response.

Definition explainInterestRate (tone : Tone) (complexity : Complexity) : string :=
  let response := "Interest rate is the cost of borrowing money or return on savings." ++ nl ++ nl in
  let response := response ++ "APR (Annual Percentage Rate) shows true borrowing cost. Compare rates before taking loans." ++ nl in
  response.

Definition explainCompoundInterest (tone : Tone) (complexity : Complexity) : string :=
  let response := "Compound interest earns interest on interest, making money grow faster over time." ++ nl ++ nl in
  let response := response ++ "The longer you invest, the more compounding benefits you get. Start early for maximum growth!" ++ nl in
  response.

Definition explainSimpleInterest (tone : Tone) (complexity : Complexity) : string :=
  let response := "Simple interest is calculated only on the principal amount." ++ nl ++ nl in
  let response := response ++ "Unlike compound interest, it doesn't earn interest on previous interest. Used for short-term loans." ++ nl in
  response.

Definition explainCredit (tone : Tone) (complexity : Complexity) : string :=
  let response := "Credit is the ability to borrow money or access goods/services before payment." ++ nl ++ nl in
  let response := response ++ "Use credit wisely: build good credit history, pay on time, and avoid excessive debt." ++ nl in
  response.

Definition explainDebit (tone : Tone) (complexity : Complexity) : string :=
  let response := "Debit means money is taken out of your account immediately." ++ nl ++ nl in
  let response := response ++ "Debit cards use your own money, unlike credit cards which borrow money." ++ nl in
  response.

Definition explainInsurance (tone : Tone) (complexity : Complexity) : string :=
  let response := "Insurance protects you financially from unexpected events in exchange for premiums." ++ nl ++ nl in
  let response := response ++ "Types: Life, health, auto, home insurance. Choose coverage based on your needs and risk." ++ nl in
  response.

Definition explainLifeInsurance (tone : Tone) (complexity : Complexity) : string :=
  let response := "Life insurance provides financial protection to your family if you pass away." ++ nl ++ nl in
  let response := response ++ "Term insurance is pure protection, while whole life combines insurance with savings." ++ nl in
  response.

Definition explainHealthInsurance (tone : Tone) (complexity : Complexity) : string :=
  let response := "Health insurance covers medical expenses. Essential for protection against high healthcare costs." ++ nl ++ nl in
  let response := response ++ "Compare plans, check coverage, deductibles, and network hospitals before choosing." ++ nl in
  response.

Definition explainTermInsurance (tone : Tone) (complexity : Complexity) : string :=
  let response := "Term insurance provides pure life coverage for a fixed period at low premiums." ++ nl ++ nl in
  let response := response ++ "No savings component, just protection. Best for those who need maximum coverage at minimum cost." ++ nl in
  response.

Definition explainPremium (tone : Tone) (complexity : Complexity) : string :=
  let response := "Premium is the amount you pay regularly (monthly/annually) for insurance coverage." ++ nl ++ nl in
  let response := response ++ "Higher premiums often mean better coverage. Compare premiums and benefits before choosing." ++ nl in
  response.

Definition explainTax (tone : Tone) (complexity : Complexity) : string :=
  generateTaxAdvice None emptyObject tone complexity.

Definition explainIncomeTax (tone : Tone) (complexity : Complexity) : string :=
  let response := "Income tax is a tax on your earnings. Rates vary by income level and country." ++ nl ++ nl in
  let response := response ++ "Use deductions and exemptions to reduce taxable income legally." ++ nl in
  response.

Definition explainGST (tone : Tone) (complexity : Complexity) : string :=
  let response := "GST (Goods and Services Tax) is a consumption tax on goods and services." ++ nl ++ nl in
  let response := response ++ "Paid by consumers but collected by businesses. Different rates for different product categories." ++ nl in
  response.

Definition explainDeduction (tone : Tone) (complexity : Complexity) : string :=
  let response := "Tax deductions reduce your taxable income, lowering your tax bill." ++ nl ++ nl in
  let response := response ++ "Common deductions: Section 80C (investments), medical expenses, home loan interest, education expenses." ++ nl in
  response.

Definition explain80C (tone : Tone) (complexity : Complexity) : string :=
  let response := "Section 80C allows tax deduction up to $1,500 (or equivalent) per year on eligible investments." ++ nl ++ nl in
  let response := response ++ "Eligible: PPF, ELSS, NSC, life insurance premiums, home loan principal, children's tuition fees." ++ nl in
  response.

Definition explainITR (tone : Tone) (complexity : Complexity) : string :=
  let response := "ITR (Income Tax Return) is a form declaring your income and taxes paid for the year." ++ nl ++ nl in
  let response := response ++ "File before deadline to avoid penalties. Keep documents ready and use e-filing for convenience." ++ nl in
  response.

Definition explainRetirement (tone : Tone) (complexity : Complexity) : string :=
  generateRetirementAdvice None emptyObject tone complexity.

Definition explain401k (tone : Tone) (complexity : Complexity) : string :=
  let response := "401(k) is a US employer-sponsored retirement plan. Contributions are pre-tax." ++ nl ++ nl in
  let response := response ++ "Many employers match contributions - take full advantage! Maximum contribution limits apply." ++ nl in
  response.

Definition explainIRA (tone : Tone) (complexity : Complexity) : string :=
  let response := "IRA (Individual Retirement Account) is a personal retirement savings account." ++ nl ++ nl in
  let response := response ++ "Traditional IRA: tax-deferred. Roth IRA: post-tax contributions, tax-free withdrawals. Choose based on your situation." ++ nl in
  response.

Definition explainPension (tone : Tone) (complexity : Complexity) : string :=
  let response := "Pension is a regular payment after retirement, typically from employer or government." ++ nl ++ nl in
  let response := response ++ "Plan early for retirement. Consider pension plans, 401(k), IRA, and other retirement accounts." ++ nl in
  response.

Definition explainEPF (tone : Tone) (complexity : Complexity) : string :=
  let response := "EPF (Employee Provident Fund) is a retirement savings scheme for employees." ++ nl ++ nl in
  let response := response ++ "Both employer and employee contribute. Long-term savings with tax benefits and guaranteed returns." ++ nl in
  response.

Definition explainHomeLoan (tone : Tone) (complexity : Complexity) : string :=
  let response := "Home loan helps you buy property by borrowing money from a bank." ++ nl ++ nl in
  let response := response ++ "Compare interest rates, processing fees, and tenure. Use EMI calculators to plan payments." ++ nl in
  response.

Definition explainMortgage (tone : Tone) (complexity : Complexity) : string :=
  explainHomeLoan tone complexity.

Definition explainRealEstate (tone : Tone) (complexity : Complexity) : string :=
  let response := "Real estate includes land and buildings. Can be residential, commercial, or land." ++ nl ++ nl in
  let response := response ++ "Real estate can appreciate but requires maintenance. Consider location, market trends, and your goals." ++ nl in
  response.

Definition explainProperty (tone : Tone) (complexity : Complexity) : string :=
  explainRealEstate tone complexity.

Definition explainEmergencyFund (tone : Tone) (complexity : Complexity) : string :=
  let response := "Emergency fund is 3-6 months of expenses saved for unexpected situations." ++ nl ++ nl in
  let response := response ++ "Keep it in a separate, easily accessible account. Don't use it for investments or expenses." ++ nl in
  response.

Definition explainSavingsAccount (tone : Tone) (complexity : Complexity) : string :=
  let response := "Savings account earns interest on your deposits while keeping money accessible." ++ nl ++ nl in
  let response := response ++ "Low interest rates but liquid. Good for emergency funds and short-term savings." ++ nl in
  response.

Definition explainCurrentAccount (tone : Tone) (complexity : Complexity) : string :=
  let response := "Current account is for business transactions with no interest but unlimited transactions." ++ nl ++ nl in
  let response := response ++ "Used by businesses for daily operations. Different from savings accounts." ++ nl in
  response.

Definition explainFinancialGoal (tone : Tone) (complexity : Complexity) : string :=
  generateGoalsAdvice None tone complexity.

Definition explainDebt (tone : Tone) (complexity : Complexity) : string :=
  generateDebtAdvice None emptyObject tone complexity.

Definition explainLoan (tone : Tone) (complexity : Complexity) : string :=
  let response := "A loan is borrowed money that must be repaid with interest over time." ++ nl ++ nl in
  let response := response ++ "Types: Personal, home, car, education loans. Compare rates, tenure, and terms before borrowing." ++ nl in
  response.

Definition explainPersonalLoan (tone : Tone) (complexity : Complexity) : string :=
  let response := "Personal loan is unsecured credit for personal needs without collateral." ++ nl ++ nl in
  let response := response ++ "Higher interest rates than secured loans. Use only for essential needs and pay off quickly." ++ nl in
  response.

Definition explainEducationLoan (tone : Tone) (complexity : Complexity) : string :=
  let response := "Education loan helps finance education expenses. Often has tax benefits." ++ nl ++ nl in
  let response := response ++ "Lower interest rates, longer repayment periods. Research scholarships and grants first." ++ nl in
  response.

Definition explainFinancialPlanning (tone : Tone) (complexity : Complexity) : string :=
  let response := "Financial planning is managing money to achieve life goals through budgeting, saving, and investing." ++ nl ++ nl in
  let response := response ++ "Steps: Set goals, create budget, build emergency fund, invest for growth, protect with insurance, plan retirement." ++ nl in
  response.

Definition explainAssetAllocation (tone : Tone) (complexity : Complexity) : string :=
  let response := "Asset allocation is dividing investments among different asset classes (stocks, bonds, cash)." ++ nl ++ nl in
  let response := response ++ "Balance risk and return based on age, goals, and risk tolerance. Rebalance periodically." ++ nl in
  response.

Definition explainRisk (tone : Tone) (complexity : Complexity) : string :=
  let response := "Investment risk is the possibility of losing money. Higher risk = higher potential returns." ++ nl ++ nl in
  let response := response ++ "Assess your risk tolerance: Conservative (bonds, FDs), Moderate (balanced funds), Aggressive (stocks, equity)." ++ nl in
  response.

Definition explainInflation (tone : Tone) (complexity : Complexity) : string :=
  let response := "Inflation is the increase in prices over time, reducing purchasing power." ++ nl ++ nl in
  let response := response ++ "Your money loses value if returns don't beat inflation. Invest in growth assets to beat inflation." ++ nl in
  response.


(** *** Topic extraction

    The four patterns of [extractTopic] have the shape
    [/PREFIX (?:a |an |the )?([a-z\s]+?)(?:\?|$|\.)/i], the last two without
    the optional article. The lazy group can only stop where the run of
    letters and spaces ends, so it captures that whole run. *)

Fixpoint drop (n : nat) (s : string) : string :=
  match n, s with
  | S n', String _ s' => drop n' s'
  | _, _ => s
  end.

(** The text after the literal [p] when [s] starts with it, ignoring case. *)
Definition after (p s : string) : option string :=
  if startsWith (toLowerCase s) p then Some (drop (String.length p) s) else None.

Definition is_topic_char (c : ascii) : bool :=
  is_lower c || is_upper c || is_space c.

Fixpoint span (f : ascii -> bool) (s : string) : string * string :=
  match s with
  | EmptyString => (EmptyString, EmptyString)
  | String c s' =>
      if f c then let '(run, rest) := span f s' in (String c run, rest)
      else (EmptyString, s)
  end.

(** [([a-z\s]+?)(?:\?|$|\.)] at the start of [s] *)
Definition capture (s : string) : option string :=
  let '(run, rest) := span is_topic_char s in
  let stops :=
    match rest with
    | EmptyString => true
    | String c _ => (c =? "?")%char || (c =? ".")%char
    end in
  if truthy_str run && stops then Some run else None.

Fixpoint first_some {A B} (f : A -> option B) (l : list A) : option B :=
  match l with
  | [] => None
  | x :: l' => match f x with Some y => Some y | None => first_some f l' end
  end.

(** The pattern tried at the start of [s]: the article alternatives in
    order, then the pattern without an article. *)
Definition match_here (prefix : string) (articles : list string) (s : string)
  : option string :=
  match after prefix s with
  | None => None
  | Some rest =>
      match first_some (fun a => match after a rest with
                                 | Some r => capture r
                                 | None => None
                                 end) articles with
      | Some c => Some c
      | None => capture rest
      end
  end.

(** [s.match(pattern)]: the leftmost position where the pattern matches;
    the result is the captured group. *)
Fixpoint match_first (prefix : string) (articles : list string) (s : string)
  : option string :=
  match match_here prefix articles s with
  | Some c => Some c
  | None =>
      match s with
      | EmptyString => None
      | String _ s' => match_first prefix articles s'
      end
  end.

Definition extractTopic (message : string) : string :=
  let patterns :=
    [ ("what is ", ["a "; "an "; "the "]);
      ("what are ", ["a "; "an "; "the "]);
      ("explain ", []);
      ("tell me about ", []) ] in
  match first_some (fun '(prefix, articles) => match_first prefix articles message)
                   patterns with
  | Some group => toLowerCase (trim group)
  | None => ""
  end.

Definition financialKeywords : list string :=
  [ "finance"; "financial"; "money"; "investment"; "saving"; "spending";
    "budget"; "income"; "expense"; "wealth"; "capital"; "asset"; "liability";
    "revenue"; "profit"; "loss"; "return"; "yield"; "dividend"; "interest";
    "loan"; "credit"; "debt"; "equity"; "stock"; "share"; "bond"; "security";
    "fund"; "portfolio"; "market"; "trading"; "broker"; "account"; "bank";
    "insurance"; "tax"; "retirement"; "pension"; "annuity"; "estate";
    "mortgage"; "refinance"; "liquidity"; "volatility"; "leverage"; "margin" ].

Definition generateFinancialExplanation (userMessage message : string)
           (tone : Tone) (complexity : Complexity) : string :=
  let topic := extractTopic message in
  if negb (truthy_str topic) then ""
  else
    let isFinancialQuestion :=
      existsb (fun keyword => includes message keyword || includes topic keyword)
              financialKeywords in
    if negb isFinancialQuestion then ""
    else
      let response :=
        if Tone_eqb tone casual
        then "Let me help you understand " ++ topic ++ "!" ++ nl ++ nl
        else "Regarding " ++ topic ++ ":" ++ nl ++ nl in
      let response := response ++ "I want to provide you with accurate information. " ++ topic ++ " is a financial term, and the specifics can vary based on context and location." ++ nl ++ nl in
      if includes topic "investment" || includes topic "invest"
         || includes topic "fund" || includes topic "stock"
         || includes topic "equity" then
        let response := response ++ "This appears to be related to investing. Here are some general principles:" ++ nl in
        let response := response ++ "‚Ä¢ Research before investing" ++ nl in
        let response := response ++ "‚Ä¢ Diversify your portfolio" ++ nl in
        let response := response ++ "‚Ä¢ Understand your risk tolerance" ++ nl in
        let response := response ++ "‚Ä¢ Consider your time horizon" ++ nl in
        let response := response ++ "‚Ä¢ Start with low-cost index funds if you're a beginner" ++ nl ++ nl in
        let response := response ++ "Would you like me to explain a specific investment term like SIP, mutual funds, or stocks?" in
        response
      else if includes topic "loan" || includes topic "debt"
              || includes topic "credit" || includes topic "borrow" then
        let response := response ++ "This seems related to borrowing or credit. Key points:" ++ nl in
        let response := response ++ "‚Ä¢ Compare interest rates before borrowing" ++ nl in
        let response := response ++ "‚Ä¢ Understand all terms and fees" ++ nl in
        let response := response ++ "‚Ä¢ Only borrow what you can afford to repay" ++ nl in
        let response := response ++ "‚Ä¢ Maintain a good credit score" ++ nl in
        let response := response ++ "‚Ä¢ Pay off high-interest debt first" ++ nl ++ nl in
        let response := response ++ "Would you like to know about specific loan types like personal loans, home loans, or how to manage debt?" in
        response
      else if includes topic "tax" || includes topic "deduction"
              || includes topic "income tax" then
        let response := response ++ "This appears to be a tax-related question. Important points:" ++ nl in
        let response := response ++ "‚Ä¢ Tax laws vary by country and change frequently" ++ nl in
        let response := response ++ "‚Ä¢ Use tax deductions and exemptions legally" ++ nl in
        let response := response ++ "‚Ä¢ Keep records of all financial transactions" ++ nl in
        let response := response ++ "‚Ä¢ Consider consulting a tax professional for specific advice" ++ nl ++ nl in
        let response := response ++ "Would you like to know about tax deductions, Section 80C, or filing tax returns?" in
        response
      else if includes topic "insurance" || includes topic "premium"
              || includes topic "coverage" then
        let response := response ++ "This seems related to insurance. Key considerations:" ++ nl in
        let response := response ++ "‚Ä¢ Choose coverage based on your needs and risk" ++ nl in
        let response := response ++ "‚Ä¢ Compare premiums and benefits" ++ nl in
        let response := response ++ "‚Ä¢ Understand deductibles and coverage limits" ++ nl in
        let response := response ++ "‚Ä¢ Review and update policies regularly" ++ nl ++ nl in
        let response := response ++ "Would you like to know about life insurance, health insurance, or term insurance?" in
        response
      else if includes topic "saving" || includes topic "emergency"
              || includes topic "fund" then
        let response := response ++ "This appears related to savings. Important points:" ++ nl in
        let response := response ++ "‚Ä¢ Build an emergency fund (3-6 months of expenses)" ++ nl in
        let response := response ++ "‚Ä¢ Automate your savings" ++ nl in
        let response := response ++ "‚Ä¢ Aim to save at least 10-20% of your income" ++ nl in
        let response := response ++ "‚Ä¢ Save for specific goals separately" ++ nl ++ nl in
        let response := response ++ "Would you like to know about emergency funds, savings strategies, or setting financial goals?" in
        response
      else if includes topic "retirement" || includes topic "pension"
              || includes topic "401k" || includes topic "ira" then
        let response := response ++ "This seems related to retirement planning. Key steps:" ++ nl in
        let response := response ++ "‚Ä¢ Start saving early for retirement" ++ nl in
        let response := response ++ "‚Ä¢ Contribute to employer-sponsored plans (401k, 403b)" ++ nl in
        let response := response ++ "‚Ä¢ Consider IRAs (Traditional or Roth)" ++ nl in
        let response := response ++ "‚Ä¢ Aim to save 10-15% of income for retirement" ++ nl in
        let response := response ++ "‚Ä¢ Diversify your retirement investments" ++ nl ++ nl in
        let response := response ++ "Would you like to know about 401(k), IRA, or general retirement planning?" in
        response
      else
        let response := response ++ "Here are some general financial principles that might help:" ++ nl in
        let response := response ++ "‚Ä¢ Create and stick to a budget" ++ nl in
        let response := response ++ "‚Ä¢ Build an emergency fund" ++ nl in
        let response := response ++ "‚Ä¢ Pay off high-interest debt" ++ nl in
        let response := response ++ "‚Ä¢ Invest for long-term goals" ++ nl in
        let response := response ++ "‚Ä¢ Protect yourself with insurance" ++ nl in
        let response := response ++ "‚Ä¢ Plan for retirement early" ++ nl ++ nl in
        let response := response ++ "Could you be more specific about what aspect of " ++ topic ++ " you'd like to understand?" in
        response.

(** *** The knowledge base

    [financialTerms] is the object literal of [answerFinancialQuestion], its
    properties in the order of the source text (no key is written twice). A
    handler is called with the tone, the complexity, the user and the
    financial data; every handler ignores its second argument and uses the
    [complexity] of the enclosing call. In the [budget] handler [d || {}] is
    [d], the financial data the handler is always given. *)

Definition Handler : Type :=
  Tone -> Complexity -> option User.t -> FinancialData.t -> string.

Definition financialTerms (complexity : Complexity) : list (string * Handler) :=
  [
    ("sip", fun t _ _ _ => explainSIP t complexity);
    ("systematic investment plan", fun t _ _ _ => explainSIP t complexity);
    ("mutual fund", fun t _ _ _ => explainMutualFund t complexity);
    ("mutual funds", fun t _ _ _ => explainMutualFund t complexity);
    ("equity", fun t _ _ _ => explainEquity t complexity);
    ("stocks", fun t _ _ _ => explainStocks t complexity);
    ("stock market", fun t _ _ _ => explainStockMarket t complexity);
    ("portfolio", fun t _ _ _ => explainPortfolio t complexity);
    ("diversification", fun t _ _ _ => explainDiversification t complexity);
    ("diversify", fun t _ _ _ => explainDiversification t complexity);
    ("etf", fun t _ _ _ => explainETF t complexity);
    ("exchange traded fund", fun t _ _ _ => explainETF t complexity);
    ("index fund", fun t _ _ _ => explainIndexFund t complexity);
    ("bond", fun t _ _ _ => explainBond t complexity);
    ("bonds", fun t _ _ _ => explainBond t complexity);
    ("fixed deposit", fun t _ _ _ => explainFixedDeposit t complexity);
    ("fd", fun t _ _ _ => explainFixedDeposit t complexity);
    ("recurring deposit", fun t _ _ _ => explainRD t complexity);
    ("rd", fun t _ _ _ => explainRD t complexity);
    ("ppf", fun t _ _ _ => explainPPF t complexity);
    ("public provident fund", fun t _ _ _ => explainPPF t complexity);
    ("nsc", fun t _ _ _ => explainNSC t complexity);
    ("national savings certificate", fun t _ _ _ => explainNSC t complexity);
    (* Banking & Credit *)
    ("credit score", fun t _ _ _ => explainCreditScore t complexity);
    ("credit card", fun t _ _ _ => explainCreditCard t complexity);
    ("emi", fun t _ _ _ => explainEMI t complexity);
    ("equated monthly installment", fun t _ _ _ => explainEMI t complexity);
    ("interest rate", fun t _ _ _ => explainInterestRate t complexity);
    ("compound interest", fun t _ _ _ => explainCompoundInterest t complexity);
    ("simple interest", fun t _ _ _ => explainSimpleInterest t complexity);
    ("credit", fun t _ _ _ => explainCredit t complexity);
    ("debit", fun t _ _ _ => explainDebit t complexity);
    (* Insurance *)
    ("insurance", fun t _ _ _ => explainInsurance t complexity);
    ("life insurance", fun t _ _ _ => explainLifeInsurance t complexity);
    ("health insurance", fun t _ _ _ => explainHealthInsurance t complexity);
    ("term insurance", fun t _ _ _ => explainTermInsurance t complexity);
    ("premium", fun t _ _ _ => explainPremium t complexity);
    (* Tax *)
    ("tax", fun t _ _ _ => explainTax t complexity);
    ("income tax", fun t _ _ _ => explainIncomeTax t complexity);
    ("gst", fun t _ _ _ => explainGST t complexity);
    ("deduction", fun t _ _ _ => explainDeduction t complexity);
    ("tax deduction", fun t _ _ _ => explainDeduction t complexity);
    ("80c", fun t _ _ _ => explain80C t complexity);
    ("section 80c", fun t _ _ _ => explain80C t complexity);
    ("itr", fun t _ _ _ => explainITR t complexity);
    ("income tax return", fun t _ _ _ => explainITR t complexity);
    (* Retirement *)
    ("retirement", fun t _ _ _ => explainRetirement t complexity);
    ("401k", fun t _ _ _ => explain401k t complexity);
    ("ira", fun t _ _ _ => explainIRA t complexity);
    ("pension", fun t _ _ _ => explainPension t complexity);
    ("epf", fun t _ _ _ => explainEPF t complexity);
    ("employee provident fund", fun t _ _ _ => explainEPF t complexity);
    (* Real Estate *)
    ("home loan", fun t _ _ _ => explainHomeLoan t complexity);
    ("mortgage", fun t _ _ _ => explainMortgage t complexity);
    ("real estate", fun t _ _ _ => explainRealEstate t complexity);
    ("property", fun t _ _ _ => explainProperty t complexity);
    (* Savings & Goals *)
    ("emergency fund", fun t _ _ _ => explainEmergencyFund t complexity);
    ("savings account", fun t _ _ _ => explainSavingsAccount t complexity);
    ("current account", fun t _ _ _ => explainCurrentAccount t complexity);
    ("financial goal", fun t _ _ _ => explainFinancialGoal t complexity);
    (* Debt *)
    ("debt", fun t _ _ _ => explainDebt t complexity);
    ("loan", fun t _ _ _ => explainLoan t complexity);
    ("personal loan", fun t _ _ _ => explainPersonalLoan t complexity);
    ("education loan", fun t _ _ _ => explainEducationLoan t complexity);
    (* Financial Planning *)
    ("budget", fun t _ u d =>
       let summary := generateBudgetSummary d in
       generateBudgetResponse summary t complexity);
    ("financial planning", fun t _ _ _ => explainFinancialPlanning t complexity);
    ("asset allocation", fun t _ _ _ => explainAssetAllocation t complexity);
    ("risk", fun t _ _ _ => explainRisk t complexity);
    ("inflation", fun t _ _ _ => explainInflation t complexity)
  ].


Definition answerFinancialQuestion (userMessage message : string)
           (user : option User.t) (financialData : FinancialData.t)
           (tone : Tone) (complexity : Complexity) (fullContext : string)
  : string :=
  let financialTerms := financialTerms complexity in
  (* Check for specific terms in the message *)
  match List.find (fun '(term, _) => includes message term) (entries financialTerms) with
  | Some (_, handler) => handler tone complexity user financialData
  | None =>
  (* Check for question patterns *)
  let byTopic :=
    if includes message "what is" || includes message "what are"
       || includes message "explain" || includes message "tell me about" then
      let topic := extractTopic message in
      if truthy_str topic then
        List.find (fun '(term, _) => includes topic term || includes term topic)
                  (entries financialTerms)
      else None
    else None in
  match byTopic with
  | Some (_, handler) => handler tone complexity user financialData
  | None =>
  (* Investment strategy questions *)
  if includes message "where should i invest" || includes message "where to invest"
     || includes message "how to invest" then
    generateInvestmentAdvice user financialData tone complexity
  (* Savings questions *)
  else if includes message "how to save" || includes message "how can i save"
          || includes message "save more" then
    generateSavingsAdvice user financialData tone complexity
  (* Budget questions *)
  else if includes message "show my budget" || includes message "my budget"
          || includes message "budget summary" then
    let summary := generateBudgetSummary financialData in
    generateBudgetResponse summary tone complexity
  (* Spending questions *)
  else if includes message "spending" || includes message "where does my money go"
          || includes message "spending insights" then
    let insights := generateSpendingInsights financialData in
    generateInsightsResponse insights tone complexity
  (* A "what is" or "explain" question about finance *)
  else if includes message "what is" || includes message "what are"
          || includes message "explain" || includes message "tell me about" then
    generateFinancialExplanation userMessage message tone complexity
  (* Default: fall back to the general response *)
  else ""
  end
  end.

(** [user?.fullName ? `, ${user.fullName.split(' ')[0]}` : ''] *)
Definition userName (user : option User.t) : string :=
  match user with
  | Some u =>
      if truthy_str (User.fullName u)
      then ", " ++ hd "" (split (User.fullName u) " ")
      else ""
  | None => ""
  end.

Definition generateGeneralResponse (userMessage : string) (user : option User.t)
           (financialData : FinancialData.t)
           (tone : Tone) (complexity : Complexity)
           (conversationHistory : list ChatMessage.t) : string :=
  let greetings :=
    if Tone_eqb tone casual
    then ["Hey!"; "Hi there!"; "What is up?"]
    else ["Hello!"; "Greetings!"; "Good day!"] in
  (* an index outside the array gives [undefined] *)
  let greeting :=
    match floor_index (random host * 3) with
    | Some i => nth i greetings "undefined"
    | None => "undefined"
    end in
  (* Check if this is a continuation of a conversation *)
  let isContinuation := (0 <? List.length conversationHistory)%nat in
  let recentTopics :=
    join " " (map (fun m => toLowerCase (ChatMessage.content m))
                  (slice_last 3 conversationHistory)) in
  let message := toLowerCase userMessage in
  (* Greeting responses *)
  if includes message "hello" || includes message "hi" || includes message "hey"
     || str_eqb message "hi" || str_eqb message "hello" then
    let userName := userName user in
    let response := greeting ++ userName ++ "! I am FINOVA, your personal financial assistant." ++ nl ++ nl in
    let response := response ++ "I can help you with:" ++ nl in
    let response := response ++ "‚Ä¢ Budget planning and summaries" ++ nl in
    let response := response ++ "‚Ä¢ Savings strategies and goals" ++ nl in
    let response := response ++ "‚Ä¢ Investment advice" ++ nl in
    let response := response ++ "‚Ä¢ Tax planning" ++ nl in
    let response := response ++ "‚Ä¢ Spending insights and analysis" ++ nl in
    let response := response ++ "‚Ä¢ Debt management" ++ nl in
    let response := response ++ "‚Ä¢ Retirement planning" ++ nl ++ nl in
    let response := response ++ "What would you like to know about your finances today?" in
    response
  (* Thank you responses *)
  else if includes message "thank" || includes message "thanks" then
    "You are welcome! I am here anytime you need financial advice. Is there anything else I can help you with?"
  (* Help requests *)
  else if includes message "help" || str_eqb message "help" then
    let response := "I can help you with various financial topics!" ++ nl ++ nl in
    let response := response ++ "Try asking me:" ++ nl in
    let response := response ++ "‚Ä¢ " ++ dq ++ "Show me my budget summary" ++ dq ++ nl in
    let response := response ++ "‚Ä¢ " ++ dq ++ "How much am I spending?" ++ dq ++ nl in
    let response := response ++ "‚Ä¢ " ++ dq ++ "How can I save more money?" ++ dq ++ nl in
    let response := response ++ "‚Ä¢ " ++ dq ++ "What should I invest in?" ++ dq ++ nl in
    let response := response ++ "‚Ä¢ " ++ dq ++ "Give me spending insights" ++ dq ++ nl in
    let response := response ++ "‚Ä¢ " ++ dq ++ "How is my financial health?" ++ dq ++ nl ++ nl in
    let response := response ++ "Or ask me any specific financial question!" in
    response
  (* Continuation responses *)
  else if isContinuation && truthy_str recentTopics then
    let response := greeting ++ " " in
    let response :=
      if includes recentTopics "budget" || includes recentTopics "summary" then
        response ++ "Continuing on your budget discussion. "
      else if includes recentTopics "save" || includes recentTopics "saving" then
        response ++ "Regarding savings, "
      else if includes recentTopics "invest" || includes recentTopics "investment" then
        response ++ "About investments, "
      else if includes recentTopics "spending" || includes recentTopics "expense" then
        response ++ "On spending, "
      else response in
    let response := response ++ "I can help you with various financial topics. Could you be more specific? For example:" ++ nl in
    let response := response ++ "‚Ä¢ " ++ dq ++ "Show my budget" ++ dq ++ nl in
    let response := response ++ "‚Ä¢ " ++ dq ++ "How can I save more?" ++ dq ++ nl in
    let response := response ++ "‚Ä¢ " ++ dq ++ "Investment advice" ++ dq ++ nl in
    let response := response ++ "‚Ä¢ " ++ dq ++ "Spending analysis" ++ dq in
    response
  (* Default response with helpful suggestions *)
  else
    let response := greeting ++ " I am here to help with your financial questions!" ++ nl ++ nl in
    let response := response ++ "I want to make sure I give you the best answer. Could you be more specific? For example:" ++ nl ++ nl in
    let response := response ++ "‚Ä¢ Ask about your budget: " ++ dq ++ "Show my budget summary" ++ dq ++ " or " ++ dq ++ "How much am I spending?" ++ dq ++ nl in
    let response := response ++ "‚Ä¢ Get savings advice: " ++ dq ++ "How can I save more money?" ++ dq ++ " or " ++ dq ++ "What is a good savings rate?" ++ dq ++ nl in
    let response := response ++ "‚Ä¢ Investment help: " ++ dq ++ "Where should I invest?" ++ dq ++ " or " ++ dq ++ "Investment advice for beginners" ++ dq ++ nl in
    let response := response ++ "‚Ä¢ Spending analysis: " ++ dq ++ "Show my spending insights" ++ dq ++ " or " ++ dq ++ "Where does my money go?" ++ dq ++ nl in
    let response := response ++ "‚Ä¢ Financial health: " ++ dq ++ "How am I doing financially?" ++ dq ++ " or " ++ dq ++ "Am I on track?" ++ dq ++ nl ++ nl in
    let response := response ++ "What specific financial topic can I help you with?" in
    response.

(** [generateResponse]. The 800 ms delay that precedes the computation is
    not modelled; [ctx] is the result of [getUserContext()]. *)
Definition generateResponse (ctx : UserContext) (userMessage : string)
           (conversationHistory : list ChatMessage.t) : AIResponse.t :=
  let user := user ctx in
  let financialData := financialData ctx in
  let '(tone, complexity) := getDemographicTone user in
  let message := trim (toLowerCase userMessage) in
  (* Extract context from conversation history *)
  let recentContext :=
    toLowerCase (join " " (map ChatMessage.content (slice_last 5 conversationHistory))) in
  let fullContext := recentContext ++ " " ++ message in
  let suggestions : list string := [] in
  let budgetSummary : option BudgetSummary.t := None in
  let insights : option Insights.t := None in
  (* Check for question words to understand intent better *)
  let isQuestion :=
    includes message "?" || includes message "how" || includes message "what"
    || includes message "why" || includes message "when" || includes message "where"
    || includes message "which" || includes message "can i"
    || includes message "should i" || includes message "do i"
    || includes message "explain" || includes message "tell me about" in
  (* First, try to answer specific questions about user's data *)
  let dataAnswer :=
    if isQuestion && (includes message "how much" || includes message "what is my"
                      || includes message "my") then
      let dataAnswer :=
        answerSpecificQuestion userMessage user financialData tone complexity in
      if truthy_str dataAnswer
         && negb (includes dataAnswer "Could you be more specific")
      then Some dataAnswer else None
    else None in
  match dataAnswer with
  | Some dataAnswer =>
      {| AIResponse.content := dataAnswer;
         AIResponse.suggestions := Some suggestions;
         AIResponse.budgetSummary := budgetSummary;
         AIResponse.insights := insights |}
  | None =>
  (* Comprehensive financial knowledge base *)
  let response :=
    answerFinancialQuestion userMessage message user financialData
                            tone complexity fullContext in
  (* If we got a good response, use it *)
  if truthy_str response
     && negb (includes response "Could you be more specific")
     && negb (includes response "I want to make sure") then
    let budgetSummary :=
      if includes message "budget" || includes message "summary"
         || includes message "overview"
      then Some (generateBudgetSummary financialData) else budgetSummary in
    let insights :=
      if includes message "spending" || includes message "expense"
         || includes message "insight"
      then Some (generateSpendingInsights financialData) else insights in
    {| AIResponse.content := response;
       AIResponse.suggestions := Some suggestions;
       AIResponse.budgetSummary := budgetSummary;
       AIResponse.insights := insights |}
  else
  (* Fallback to general response *)
  let response :=
    generateGeneralResponse userMessage user financialData tone complexity
                            conversationHistory in
  {| AIResponse.content := response;
     AIResponse.suggestions := Some suggestions;
     AIResponse.budgetSummary := budgetSummary;
     AIResponse.insights := insights |}
  end.

End WithHost.
End AIService.

(* ===================================================================== *)
(** ** JSON values and texts                                              *)
(* ===================================================================== *)

Module JSON.
Import JS.

(** A value that [JSON.parse] can return or [JSON.stringify] can be given.
    A property that is [undefined] is a property that is absent. An object
    is the list of its own properties, each name occurring once. *)
Inductive value :=
| Null
| Bool (b : bool)
| Num (x : number)
| Str (s : string)
| Arr (items : list value)
| Obj (props : list (string * value)).

Definition truthy (v : value) : bool :=
  match v with
  | Null => false
  | Bool b => b
  | Num x => truthy_num x
  | Str s => truthy_str s
  | Arr _ | Obj _ => true
  end.

(** [v.k] for a property name [k] that no prototype defines: [None] is
    [undefined]. ([null.k] throws; the callers below test for [Null]
    where it matters.) *)
Definition prop (v : value) (k : string) : option value :=
  match v with
  | Obj props => dict_get props k
  | _ => None
  end.

(** What [JSON.parse (JSON.stringify v)] is: a number that is not finite
    becomes [null], [-0] becomes [0]; a finite number is read back as
    itself (Number::toString prints digits that identify it). *)
Fixpoint normalise (v : value) : value :=
  match v with
  | Num x =>
      if is_finite x then (if is_zero x then Num 0%float else Num x) else Null
  | Arr items => Arr (map normalise items)
  | Obj props => Obj (map (fun kv => (fst kv, normalise (snd kv))) props)
  | _ => v
  end.

(** A text held by [localStorage]. A text that is a JSON document is
    represented by the value it parses to, any other text by its
    characters. *)
Inductive text :=
| Raw (chars : string)
| Doc (v : value).

Definition stringify (v : value) : text := Doc (normalise v).

(** [JSON.parse]: [None] stands for the [SyntaxError]. *)
Definition parse (t : text) : option value :=
  match t with
  | Doc v => Some v
  | Raw _ => None
  end.

(** Truthiness of a text: only the empty text is falsy. *)
Definition nonempty (t : text) : bool :=
  match t with
  | Raw chars => truthy_str chars
  | Doc _ => true
  end.

(** The JavaScript object of each record of the data model. *)

Definition opt_prop {A} (k : string) (f : A -> value) (o : option A)
  : list (string * value) :=
  match o with
  | Some a => [(k, f a)]
  | None => []
  end.

Definition of_kind (k : Demographic.kind) : value :=
  Str match k with
      | Demographic.student => "student"
      | Demographic.professional => "professional"
      | Demographic.retiree => "retiree"
      | Demographic.entrepreneur => "entrepreneur"
      end.

Definition of_Demographic (d : Demographic.t) : value :=
  Obj ([("type", of_kind (Demographic.type d))]
         ++ opt_prop "age" Num (Demographic.age d)
         ++ opt_prop "location" Str (Demographic.location d)
         ++ opt_prop "occupation" Str (Demographic.occupation d)).

Definition of_User (u : User.t) : value :=
  Obj ([("id", Str (User.id u));
        ("email", Str (User.email u));
        ("fullName", Str (User.fullName u))]
         ++ opt_prop "password" Str (User.password u)
         ++ opt_prop "demographic" of_Demographic (User.demographic u)
         ++ opt_prop "financialGoals" (fun l => Arr (map Str l)) (User.financialGoals u)
         ++ [("createdAt", Str (User.createdAt u))]).

Definition of_Expense (e : Expense.t) : value :=
  Obj [("category", Str (Expense.category e));
       ("amount", Num (Expense.amount e));
       ("date", Str (Expense.date e))].

Definition of_Income (e : Income.t) : value :=
  Obj [("date", Str (Income.date e)); ("amount", Num (Income.amount e))].

Definition of_Spent (e : Spent.t) : value :=
  Obj [("date", Str (Spent.date e));
       ("amount", Num (Spent.amount e));
       ("category", Str (Spent.category e))].

Definition of_FinancialData (d : FinancialData.t) : value :=
  Obj [("totalBalance", Num (FinancialData.totalBalance d));
       ("monthlyIncome", Num (FinancialData.monthlyIncome d));
       ("monthlyExpenses", Num (FinancialData.monthlyExpenses d));
       ("expenseBreakdown", Arr (map of_Expense (FinancialData.expenseBreakdown d)));
       ("incomeHistory", Arr (map of_Income (FinancialData.incomeHistory d)));
       ("expenseHistory", Arr (map of_Spent (FinancialData.expenseHistory d)))].

Definition of_SavingsGoal (g : SavingsGoal.t) : value :=
  Obj [("id", Str (SavingsGoal.id g));
       ("name", Str (SavingsGoal.name g));
       ("target_amount", Num (SavingsGoal.target_amount g));
       ("current_amount", Num (SavingsGoal.current_amount g));
       ("deadline", match SavingsGoal.deadline g with
                    | Some d => Str d
                    | None => Null
                    end);
       ("createdAt", Str (SavingsGoal.createdAt g))].

Definition of_Role (r : Role.t) : value :=
  Str match r with Role.user => "user" | Role.assistant => "assistant" end.

Definition of_ChatMessage (m : ChatMessage.t) : value :=
  Obj ([("id", Str (ChatMessage.id m));
        ("role", of_Role (ChatMessage.role m));
        ("content", Str (ChatMessage.content m));
        ("created_at", Str (ChatMessage.created_at m))]
         ++ opt_prop "userId" Str (ChatMessage.userId m)).

(** Reading a parsed value at the type the program declares for it. *)

Definition as_num (o : option value) : option number :=
  match o with Some (Num x) => Some x | _ => None end.

Definition as_str (o : option value) : option string :=
  match o with Some (Str s) => Some s | _ => None end.

Definition as_arr {A} (f : value -> option A) (o : option value)
  : option (list A) :=
  match o with Some (Arr items) => mapM f items | _ => None end.

Definition to_Expense (v : value) : option Expense.t :=
  c ← as_str (prop v "category");
  a ← as_num (prop v "amount");
  d ← as_str (prop v "date");
  Some {| Expense.category := c; Expense.amount := a; Expense.date := d |}.

Definition to_Income (v : value) : option Income.t :=
  d ← as_str (prop v "date");
  a ← as_num (prop v "amount");
  Some {| Income.date := d; Income.amount := a |}.

Definition to_Spent (v : value) : option Spent.t :=
  d ← as_str (prop v "date");
  a ← as_num (prop v "amount");
  c ← as_str (prop v "category");
  Some {| Spent.date := d; Spent.amount := a; Spent.category := c |}.

Definition to_FinancialData (v : value) : option FinancialData.t :=
  b ← as_num (prop v "totalBalance");
  i ← as_num (prop v "monthlyIncome");
  e ← as_num (prop v "monthlyExpenses");
  eb ← as_arr to_Expense (prop v "expenseBreakdown");
  ih ← as_arr to_Income (prop v "incomeHistory");
  eh ← as_arr to_Spent (prop v "expenseHistory");
  Some {| FinancialData.totalBalance := b;
          FinancialData.monthlyIncome := i;
          FinancialData.monthlyExpenses := e;
          FinancialData.expenseBreakdown := eb;
          FinancialData.incomeHistory := ih;
          FinancialData.expenseHistory := eh |}.

(** *** Object spread *)

Fixpoint indexed {A} (f : A -> value) (i : N) (l : list A)
  : list (string * value) :=
  match l with
  | [] => []
  | x :: l' => (digits_of_N i, f x) :: indexed f (N.succ i) l'
  end.

(** The own enumerable properties of a value, which [{...v}] copies: the
    properties of an object, the elements of an array under their indices,
    the characters of a string under theirs; a number, a boolean and [null]
    have none. *)
Definition own_props (v : value) : list (string * value) :=
  match v with
  | Obj props => props
  | Arr items => indexed (fun x => x) 0 items
  | Str s => indexed (fun c => Str (String c EmptyString)) 0 (list_ascii_of_string s)
  | _ => []
  end.

(** [o[k] = v] on an object under construction; [None] is [undefined]. *)
Definition assign (props : dict (option value)) (kv : string * option value)
  : dict (option value) :=
  dict_set props (fst kv) (snd kv).

(** [{ ...target, ...updates }], its properties in enumeration order. A
    property of [updates] may hold [undefined]. *)
Definition spread (target : list (string * value))
           (updates : list (string * option value)) : dict (option value) :=
  entries (fold_left assign
                     (map (fun kv => (fst kv, Some (snd kv))) target ++ updates)%list
                     []).

(** The properties that [JSON.stringify] writes: [undefined] is left out. *)
Definition defined (props : dict (option value)) : list (string * value) :=
  omap (fun kv => option_map (pair (fst kv)) (snd kv)) props.

(** [{ userId, ...msg }]: the own properties but [k]. *)
Definition rest_without (k : string) (v : value) : list (string * value) :=
  List.filter (fun kv => negb (str_eqb (fst kv) k)) (own_props v).

Definition is_null (v : value) : bool :=
  match v with Null => true | _ => false end.


End JSON.

(* ===================================================================== *)
(** ** Persistent store ([storage.ts])                                    *)
(* ===================================================================== *)

Module StorageService.
Import JS JSON.
Local Open Scope string_scope.

Definition USERS_KEY : string := "finova_users".
Definition SESSION_KEY : string := "finova_session_user".
Definition FINANCIAL_DATA_KEY : string := "finova_financial_data".
Definition SAVINGS_GOALS_KEY : string := "finova_savings_goals".
Definition CHAT_MESSAGES_KEY : string := "finova_chat_messages".

(** The state of [localStorage]. The text under [SESSION_KEY] is only read
    and written as a plain string, the texts under every other key only
    through JSON, and no key built by [getUserScopedKey] is [SESSION_KEY];
    the session text is therefore kept apart from the map of the other
    keys. *)
Record Storage := {
  session : option string;
  items : gmap string text
}.

Definition setItem (key : string) (t : text) (s : Storage) : Storage :=
  {| session := session s; items := <[key := t]> (items s) |}.

Definition removeItem (key : string) (s : Storage) : Storage :=
  {| session := session s; items := delete key (items s) |}.

(** [notifyChange] calls the subscribed listeners and swallows what they
    throw. The listeners of the application only read the store, so the
    call leaves [localStorage] as it is. *)
Definition notifyChange (s : Storage) : Storage := s.

(** *** User management *)

Definition getAllUsers (s : Storage) : value :=
  match items s !! USERS_KEY with
  | Some usersStr =>
      if negb (nonempty usersStr) then Arr []
      else match parse usersStr with
           | Some users => users
           | None => Arr []
           end
  | None => Arr []
  end.

Definition saveAllUsers (users : value) (s : Storage) : Storage :=
  notifyChange (setItem USERS_KEY (stringify users) s).

Definition getActiveUserId (s : Storage) : option string := session s.

(** [users.find((u) => u.k === x) || null]: the outer [None] is the
    [TypeError] of reading a property of [null]; an element that has the
    property is an object, hence truthy. *)
Fixpoint find_by (k x : string) (users : list value) : option (option value) :=
  match users with
  | [] => Some None
  | u :: rest =>
      match u with
      | Null => None
      | _ =>
          match prop u k with
          | Some (Str y) => if str_eqb y x then Some (Some u) else find_by k x rest
          | _ => find_by k x rest
          end
      end
  end.

(** A method of [Array.prototype] called on a parsed value that is not an
    array is a [TypeError]: [None]. *)
Definition as_array (v : value) : option (list value) :=
  match v with
  | Arr l => Some l
  | _ => None
  end.

Definition getCurrentUser (s : Storage) : option (option value) :=
  match getActiveUserId s with
  | Some activeUserId =>
      if negb (truthy_str activeUserId) then Some None
      else users ← as_array (getAllUsers s); find_by "id" activeUserId users
  | None => Some None
  end.

Definition getUserByEmail (email : string) (s : Storage) : option (option value) :=
  users ← as_array (getAllUsers s); find_by "email" email users.

Definition addUser (user : User.t) (s : Storage) : option Storage :=
  users ← as_array (getAllUsers s);
  let users := push users (of_User user) in
  Some (saveAllUsers (Arr users) s).

(** *** Session management *)

Definition hasSession (s : Storage) : bool :=
  match getActiveUserId s with
  | Some userId => truthy_str userId
  | None => false
  end.

Definition setActiveUser (userId : option string) (s : Storage) : Storage :=
  notifyChange
    match userId with
    | Some id =>
        if truthy_str id then {| session := Some id; items := items s |}
        else {| session := None; items := items s |}
    | None => {| session := None; items := items s |}
    end.

Definition getUserScopedKey (baseKey : string) (s : Storage) : string :=
  match getActiveUserId s with
  | Some userId =>
      if truthy_str userId then baseKey ++ "_" ++ userId else baseKey
  | None => baseKey
  end.

(** *** Financial data *)

Definition defaultFinancialData : FinancialData.t :=
  {| FinancialData.totalBalance := 10000;
     FinancialData.monthlyIncome := 2000;
     FinancialData.monthlyExpenses := 500;
     FinancialData.expenseBreakdown := [];
     FinancialData.incomeHistory := [];
     FinancialData.expenseHistory := [] |}.

Definition getFinancialData (s : Storage) : value :=
  let key := getUserScopedKey FINANCIAL_DATA_KEY s in
  let default := of_FinancialData defaultFinancialData in
  match items s !! key with
  | Some dataStr =>
      if nonempty dataStr then
        match parse dataStr with
        | Some data => data
        | None => default
        end
      else default
  | None => default
  end.

Definition saveFinancialData (data : FinancialData.t) (s : Storage) : Storage :=
  let key := getUserScopedKey FINANCIAL_DATA_KEY s in
  notifyChange (setItem key (stringify (of_FinancialData data)) s).

(** *** Savings goals *)

Definition getSavingsGoals (s : Storage) : value :=
  let key := getUserScopedKey SAVINGS_GOALS_KEY s in
  match items s !! key with
  | Some goalsStr =>
      if nonempty goalsStr then
        match parse goalsStr with
        | Some goals => goals
        | None => Arr []
        end
      else Arr []
  | None => Arr []
  end.

Definition saveSavingsGoals (goals : list SavingsGoal.t) (s : Storage) : Storage :=
  let key := getUserScopedKey SAVINGS_GOALS_KEY s in
  notifyChange (setItem key (stringify (Arr (map of_SavingsGoal goals))) s).

(** *** Chat messages *)

(** [allMessages.filter((m) => m.userId === userId)]; [None] when the
    call throws. *)
Definition filter_userId (keep : bool) (userId : string) (allMessages : value)
  : option (list value) :=
  l ← as_array allMessages;
  if existsb (fun m => match m with Null => true | _ => false end) l then None
  else Some (List.filter
               (fun m =>
                  let same := match prop m "userId" with
                              | Some (Str y) => str_eqb y userId
                              | _ => false
                              end in
                  if keep then same else negb same) l).

Definition getChatMessages (userId : option string) (s : Storage) : value :=
  let key := getUserScopedKey CHAT_MESSAGES_KEY s in
  match items s !! key with
  | Some messagesStr =>
      if nonempty messagesStr then
        match parse messagesStr with
        | Some allMessages =>
            match userId with
            | Some uid =>
                if truthy_str uid then
                  match filter_userId true uid allMessages with
                  | Some l => Arr l
                  | None => Arr []
                  end
                else allMessages
            | None => allMessages
            end
        | None => Arr []
        end
      else Arr []
  | None => Arr []
  end.

Definition saveChatMessage (message : ChatMessage.t) (s : Storage) : option Storage :=
  messages ← as_array (getChatMessages None s);
  let messages := push messages (of_ChatMessage message) in
  let key := getUserScopedKey CHAT_MESSAGES_KEY s in
  Some (notifyChange (setItem key (stringify (Arr messages)) s)).

Definition clearChatHistory (userId : option string) (s : Storage) : option Storage :=
  let clear :=
    let key := getUserScopedKey CHAT_MESSAGES_KEY s in
    Some (notifyChange (removeItem key s)) in
  match userId with
  | Some uid =>
      if truthy_str uid then
        let messages := getChatMessages None s in
        filtered ← filter_userId false uid messages;
        let key := getUserScopedKey CHAT_MESSAGES_KEY s in
        Some (notifyChange (setItem key (stringify (Arr filtered)) s))
      else clear
  | None => clear
  end.

(** *** Clear all data *)

Definition clearAll (s : Storage) : Storage :=
  let s := removeItem USERS_KEY s in
  let s := {| session := None; items := items s |} in
  (* Removing user-scoped keys for current user only *)
  let userId := getActiveUserId s in
  let s :=
    match userId with
    | Some userId =>
        if truthy_str userId then
          let s := removeItem (FINANCIAL_DATA_KEY ++ "_" ++ userId) s in
          let s := removeItem (SAVINGS_GOALS_KEY ++ "_" ++ userId) s in
          let s := removeItem (CHAT_MESSAGES_KEY ++ "_" ++ userId) s in
          s
        else s
    | None => s
    end in
  notifyChange s.

(** *** The operations that update one record *)

(** [l.findIndex((u) => u.k === x)]: the outer [None] is the [TypeError] of
    reading a property of [null], the inner one is [-1]. *)
Fixpoint findIndex_by (k x : string) (l : list value) : option (option nat) :=
  match l with
  | [] => Some None
  | u :: rest =>
      match u with
      | Null => None
      | _ =>
          match prop u k with
          | Some (Str y) =>
              if str_eqb y x then Some (Some O)
              else option_map (option_map S) (findIndex_by k x rest)
          | _ => option_map (option_map S) (findIndex_by k x rest)
          end
      end
  end.

(** [l[index] = { ...l[index], ...updates }] for a position [index] of
    [l]. *)
Definition merge_at (index : nat) (updates : list (string * option value))
           (l : list value) : list value :=
  match l !! index with
  | Some current =>
      <[index := Obj (defined (spread (own_props current) updates))]> l
  | None => l
  end.

Definition updateUser (updates : list (string * option value)) (s : Storage)
  : option Storage :=
  let users := getAllUsers s in
  match getActiveUserId s with
  | Some activeUserId =>
      if negb (truthy_str activeUserId) then Some s
      else
        users ← as_array users;
        index ← findIndex_by "id" activeUserId users;
        match index with
        | Some index =>
            let users := merge_at index updates users in
            Some (saveAllUsers (Arr users) s)
        | None => Some s
        end
  | None => Some s
  end.

(** [saveSavingsGoals] on goals as they were read from the store. *)
Definition saveGoals (goals : list value) (s : Storage) : Storage :=
  let key := getUserScopedKey SAVINGS_GOALS_KEY s in
  notifyChange (setItem key (stringify (Arr goals)) s).

(** The argument of [addSavingsGoal]: a goal without [id] and
    [createdAt]. *)
Record NewGoal := {
  name : string;
  target_amount : number;
  current_amount : number;
  deadline : option string
}.

(** [addSavingsGoal]. [now] is the text of [Date.now()], [rand] is
    [Math.random().toString(36).substr(2, 9)] and [iso] is
    [new Date().toISOString()], as the call obtains them. The result is
    the store after the call and the goal returned. *)
Definition addSavingsGoal (now rand iso : string) (goal : NewGoal) (s : Storage)
  : option (Storage * value) :=
  goals ← as_array (getSavingsGoals s);
  let newGoal :=
    Obj [("name", Str (name goal));
         ("target_amount", Num (target_amount goal));
         ("current_amount", Num (current_amount goal));
         ("deadline", match deadline goal with
                      | Some d => Str d
                      | None => Null
                      end);
         ("id", Str ("goal_" ++ now ++ "_" ++ rand));
         ("createdAt", Str iso)] in
  let goals := push goals newGoal in
  Some (saveGoals goals s, newGoal).

Definition updateSavingsGoal (id : string) (updates : list (string * option value))
           (s : Storage) : option Storage :=
  goals ← as_array (getSavingsGoals s);
  index ← findIndex_by "id" id goals;
  match index with
  | Some index =>
      let goals := merge_at index updates goals in
      Some (saveGoals goals s)
  | None => Some s
  end.

(** [g.id !== id] *)
Definition other_id (id : string) (g : value) : bool :=
  negb match prop g "id" with
       | Some (Str y) => str_eqb y id
       | _ => false
       end.

Definition deleteSavingsGoal (id : string) (s : Storage) : option Storage :=
  goals ← as_array (getSavingsGoals s);
  if existsb is_null goals then None
  else
    let filtered := List.filter (other_id id) goals in
    Some (saveGoals filtered s).

(** [getChatHistory]: the messages without their [userId]; [None] when
    the call throws. *)
Definition getChatHistory (userId : option string) (s : Storage)
  : option (list value) :=
  messages ← as_array (getChatMessages userId s);
  mapM (fun m => if is_null m then None
                 else Some (Obj (rest_without "userId" m))) messages.


End StorageService.

(* ===================================================================== *)
(** ** Sign-in (the authentication page)                                  *)
(* ===================================================================== *)

Module Auth.
Import JS JSON StorageService.
Local Open Scope string_scope.

Inductive Toast := WelcomeBack | SignInFailed.

(** [existing.id], a string in every record written by [addUser];
    [undefined] is falsy for [setActiveUser]. *)
Definition id_of (existing : value) : option string :=
  as_str (prop existing "id").

(** [!existing.password || existing.password === password] *)
Definition passwordAccepted (existing : value) (password : string) : bool :=
  match prop existing "password" with
  | None => true
  | Some p =>
      negb (truthy p)
      || match p with Str stored => str_eqb stored password | _ => false end
  end.

(** [handleSignIn]: the store after the call and the toast shown; [None]
    when [getUserByEmail] throws. *)
Definition handleSignIn (email password : string) (s : Storage)
  : option (Storage * Toast) :=
  existing ← getUserByEmail email s;
  match existing with
  | Some existing =>
      if passwordAccepted existing password
      then Some (setActiveUser (id_of existing) s, WelcomeBack)
      else Some (s, SignInFailed)
  | None => Some (s, SignInFailed)
  end.

(** *** Sign-up *)

Inductive SignUpToast := AccountCreated | SignUpError.

(** [`user_${Date.now()}_${Math.random().toString(36).substr(2, 9)}`]:
    [now] is the text of [Date.now()], [rand] the nine characters taken
    from the random number. *)
Definition newUserId (now rand : string) : string :=
  "user_" ++ now ++ "_" ++ rand.

Definition newUser (now rand iso email fullName password : string)
           (demographicType : Demographic.kind) : User.t :=
  {| User.id := newUserId now rand;
     User.email := email;
     User.fullName := fullName;
     User.password := Some password;
     User.demographic :=
       Some {| Demographic.type := demographicType;
               Demographic.age := None;
               Demographic.location := None;
               Demographic.occupation := None |};
     User.financialGoals := Some [];
     User.createdAt := iso |}.

(** The financial data a new account starts with. *)
Definition emptyFinancialData : FinancialData.t :=
  {| FinancialData.totalBalance := 0;
     FinancialData.monthlyIncome := 0;
     FinancialData.monthlyExpenses := 0;
     FinancialData.expenseBreakdown := [];
     FinancialData.incomeHistory := [];
     FinancialData.expenseHistory := [] |}.

(** [handleSignUp]: the store after the call and the toast shown. [iso] is
    [new Date().toISOString()]. When [addUser] throws nothing has been
    written yet and the [catch] block shows the error. *)
Definition handleSignUp (now rand iso email fullName password : string)
           (demographicType : Demographic.kind) (s : Storage)
  : Storage * SignUpToast :=
  (* Create user with demographic info *)
  let userId := newUserId now rand in
  let newUser := newUser now rand iso email fullName password demographicType in
  (* Persist new user *)
  match addUser newUser s with
  | Some s =>
      (* Set active session to this user *)
      let s := setActiveUser (Some userId) s in
      (* Initialize empty financial data for this user *)
      let s := saveFinancialData emptyFinancialData s in
      (s, AccountCreated)
  | None => (s, SignUpError)
  end.


End Auth.

(* ===================================================================== *)
(** ** The dashboard page ([pages/Dashboard.tsx])                         *)
(* ===================================================================== *)

Module Dashboard.
Import JS JSON StorageService.

(** [handleSignOut]: the store after the call. *)
Definition handleSignOut (s : Storage) : Storage := setActiveUser None s.

End Dashboard.

(* ===================================================================== *)
(** ** Remote assistant adapter ([aiServiceHuggingFace.ts])               *)
(* ===================================================================== *)

Module AIServiceHuggingFace.
Import JS JSON.
Local Open Scope string_scope.
Local Open Scope float_scope.

Definition MODEL_NAME : string := "ibm-granite/granite-3.3-8b-instruct".
Definition FALLBACK_MODEL : string := "microsoft/Phi-3-mini-4k-instruct".
Definition HF_API_URL : string :=
  "https://api-inference.huggingface.co/models/" ++ MODEL_NAME.
Definition HF_FALLBACK_URL : string :=
  "https://api-inference.huggingface.co/models/" ++ FALLBACK_MODEL.

(** *** The network *)

Record Parameters := {
  max_new_tokens : nat;
  temperature : number;
  top_p : number;
  do_sample : bool;
  return_full_text : bool
}.

(** The arguments of a call of [fetch]; [inputs] and [parameters] are the
    two fields of the JSON body. *)
Record Request := {
  url : string;
  method : string;
  headers : list (string * string);
  inputs : string;
  parameters : Parameters
}.

(** What a call of [fetch] gives: a rejected promise, or a response with
    its [ok] flag, its status and what [response.json()] resolves to
    ([None] when that promise is rejected). *)
Inductive Fetched :=
| NetworkError
| Response (ok : bool) (status : nat) (json : option value).

Definition Tone_name (t : Tone) : string :=
  match t with
  | casual => "casual" | professional => "professional"
  | formal => "formal" | friendly => "friendly"
  end.

Definition Complexity_name (c : Complexity) : string :=
  match c with
  | simple => "simple" | moderate => "moderate" | detailed => "detailed"
  end.

Definition kind_name (k : Demographic.kind) : string :=
  match k with
  | Demographic.student => "student"
  | Demographic.professional => "professional"
  | Demographic.retiree => "retiree"
  | Demographic.entrepreneur => "entrepreneur"
  end.

Section WithHost.
Context (host : Host).
(** [import.meta.env.VITE_HF_TOKEN || null] *)
Context (HF_TOKEN : option string).
(** The network as [fetch] sees it. *)
Context (fetch : Request -> Fetched).

Definition buildPrompt (userMessage : string)
           (conversationHistory : list ChatMessage.t)
           (user : option User.t) (financialData : FinancialData.t)
           (tone : Tone) (complexity : Complexity) : string :=
  let prompt := "<|system|>" ++ nl in
  let prompt := prompt ++ "You are FINOVA, an expert personal finance assistant. Provide personalized, accurate financial advice." ++ nl ++ nl in
  (* Add user context *)
  let prompt :=
    match user with
    | Some user =>
        let prompt := prompt ++ "User Profile:" ++ nl in
        let prompt := prompt ++ "- Name: " ++ User.fullName user ++ nl in
        let prompt :=
          match User.demographic user with
          | Some demographic =>
              let prompt := prompt ++ "- Demographic: " ++ kind_name (Demographic.type demographic) in
              let prompt :=
                match Demographic.age demographic with
                | Some age =>
                    if truthy_num age then prompt ++ ", Age " ++ ToString host age else prompt
                | None => prompt
                end in
              let prompt :=
                match Demographic.occupation demographic with
                | Some occupation =>
                    if truthy_str occupation then prompt ++ ", " ++ occupation else prompt
                | None => prompt
                end in
              prompt ++ nl
          | None => prompt
          end in
        match User.financialGoals user with
        | Some financialGoals =>
            if (0 <? List.length financialGoals)%nat
            then prompt ++ "- Goals: " ++ join ", " financialGoals ++ nl
            else prompt
        | None => prompt
        end
    | None => prompt
    end in
  (* Add financial data context *)
  let savingsRate :=
    (FinancialData.monthlyIncome financialData
       - FinancialData.monthlyExpenses financialData)
      / FinancialData.monthlyIncome financialData * 100 in
  let prompt := prompt ++ nl ++ "Financial Situation:" ++ nl in
  let prompt := prompt ++ "- Monthly Income: $" ++ toLocaleString host (FinancialData.monthlyIncome financialData) ++ nl in
  let prompt := prompt ++ "- Monthly Expenses: $" ++ toLocaleString host (FinancialData.monthlyExpenses financialData) ++ nl in
  let prompt := prompt ++ "- Total Balance: $" ++ toLocaleString host (FinancialData.totalBalance financialData) ++ nl in
  let prompt := prompt ++ "- Savings Rate: " ++ toFixed host 1 savingsRate ++ "%" ++ nl in
  (* Add conversation history *)
  let prompt :=
    if (0 <? List.length conversationHistory)%nat then
      let prompt := prompt ++ nl ++ "Recent Conversation:" ++ nl in
      fold_left (fun prompt msg => prompt ++ (match ChatMessage.role msg with Role.user => "User" | Role.assistant => "FINOVA" end) ++ ": " ++ ChatMessage.content msg ++ nl)
                (slice_last 5 conversationHistory) prompt
    else prompt in
  let prompt := prompt ++ nl ++ "Communication Style: " ++ Tone_name tone ++ ", " ++ Complexity_name complexity ++ " level" ++ nl in
  let prompt := prompt ++ "<|user|>" ++ nl ++ userMessage ++ nl ++ "<|assistant|>" ++ nl in
  prompt.

Definition shouldGenerateBudgetSummary (userMessage aiResponse : string) : bool :=
  let keywords := ["budget"; "summary"; "income"; "expense"; "spending"; "balance"] in
  existsb (fun keyword =>
             includes (toLowerCase userMessage) keyword
             || includes (toLowerCase aiResponse) keyword) keywords.

Definition shouldGenerateInsights (userMessage aiResponse : string) : bool :=
  let keywords := ["insight"; "spending"; "expense"; "analysis"; "recommendation"] in
  existsb (fun keyword =>
             includes (toLowerCase userMessage) keyword
             || includes (toLowerCase aiResponse) keyword) keywords.

Definition generateBudgetSummary (financialData : FinancialData.t)
  : BudgetSummary.t :=
  let savingsRate :=
    ((FinancialData.monthlyIncome financialData
        - FinancialData.monthlyExpenses financialData)
       / FinancialData.monthlyIncome financialData) * 100 in
  let monthlySavings :=
    FinancialData.monthlyIncome financialData
      - FinancialData.monthlyExpenses financialData in
  let categoryBreakdown :=
    fold_left sumByCategory (FinancialData.expenseBreakdown financialData) [] in
  {| BudgetSummary.monthlyIncome := FinancialData.monthlyIncome financialData;
     BudgetSummary.monthlyExpenses := FinancialData.monthlyExpenses financialData;
     BudgetSummary.monthlySavings := monthlySavings;
     BudgetSummary.savingsRate := toFixed host 1 savingsRate;
     BudgetSummary.categoryBreakdown := categoryBreakdown;
     BudgetSummary.totalBalance := FinancialData.totalBalance financialData |}.

Definition generateSpendingInsights (financialData : FinancialData.t)
  : Insights.t :=
  let trends := [] in
  let anomalies := [] in
  let recommendations := [] in
  let savingsRate :=
    ((FinancialData.monthlyIncome financialData
        - FinancialData.monthlyExpenses financialData)
       / FinancialData.monthlyIncome financialData) * 100 in
  let '(trends, recommendations) :=
    if (1 <? List.length (FinancialData.expenseHistory financialData))%nat then
      let recentExpenses :=
        AIService.sumAmounts
          (slice_last 3 (FinancialData.expenseHistory financialData)) / 3 in
      let olderExpenses :=
        AIService.sumAmounts
          (slice_neg 6 3 (FinancialData.expenseHistory financialData)) / 3 in
      if gtb recentExpenses (olderExpenses * 1.1) then
        (push trends "Your spending has increased by over 10% in recent months.",
         push recommendations "Review your recent expenses to identify areas where you can cut back.")
      else if recentExpenses <? olderExpenses * 0.9 then
        (push trends "Great job! Your spending has decreased recently.", recommendations)
      else (trends, recommendations)
    else (trends, recommendations) in
  let '(trends, recommendations) :=
    if savingsRate <? 10 then
      (trends, push recommendations "Consider increasing your savings rate to at least 10% of your income.")
    else if geb savingsRate 20 then
      (push trends "Excellent savings rate! You are saving 20% or more of your income.", recommendations)
    else (trends, recommendations) in
  let '(anomalies, recommendations) :=
    if FinancialData.totalBalance financialData
         <? FinancialData.monthlyExpenses financialData * 3 then
      (push anomalies "Your emergency fund is below 3 months of expenses. Consider building it up.",
       push recommendations "Aim to have 3-6 months of expenses saved as an emergency fund.")
    else (anomalies, recommendations) in
  {| Insights.trends := trends;
     Insights.anomalies := anomalies;
     Insights.recommendations := recommendations |}.

(** [fallbackResponse]: the rule-based service on the same message and
    history. *)
Definition fallbackResponse (ctx : UserContext) (userMessage : string)
           (conversationHistory : list ChatMessage.t)
           (user : option User.t) (financialData : FinancialData.t)
           (tone : Tone) (complexity : Complexity) : AIResponse.t :=
  AIService.generateResponse host ctx userMessage conversationHistory.

Definition request (url : string) (max_new_tokens : nat) (prompt : string)
  : Request :=
  {| url := url;
     method := "POST";
     headers :=
       match HF_TOKEN with
       | Some token =>
           if truthy_str token
           then [("Content-Type", "application/json");
                 ("Authorization", "Bearer " ++ token)]
           else [("Content-Type", "application/json")]
       | None => [("Content-Type", "application/json")]
       end;
     inputs := prompt;
     parameters :=
       {| max_new_tokens := max_new_tokens;
          temperature := 0.7;
          top_p := 0.9;
          do_sample := true;
          return_full_text := false |} |}.

(** The response that is examined: the primary model's, or the alternate
    model's when the primary endpoint answered with status 503. *)
Definition fetchResponse (prompt : string) : Fetched :=
  match fetch (request HF_API_URL 500 prompt) with
  | NetworkError => NetworkError
  | Response ok status json =>
      if negb ok && (status =? 503)%nat
      then fetch (request HF_FALLBACK_URL 400 prompt)
      else Response ok status json
  end.

(** [v?.k] *)
Definition chain (v : option value) (k : string) : option value :=
  match v with
  | Some Null | None => None
  | Some v => prop v k
  end.

Definition truthy_opt (o : option value) : bool :=
  match o with
  | Some v => truthy v
  | None => false
  end.

(** [x.trim()] for a truthy [x]: a [TypeError] ([None]) unless [x] is a
    string. *)
Definition trim_of (o : option value) : option string :=
  match o with
  | Some (Str s) => Some (trim s)
  | _ => None
  end.

(** The text found in the parsed body: [Some ""] when no known shape
    matches, [None] when reading it throws. *)
Definition responseText (data : value) : option string :=
  match data with
  | Arr items =>
      (* Handle array response format *)
      let data0 := head items in
      if truthy_opt (chain data0 "generated_text") then
        trim_of (chain data0 "generated_text")
      else if truthy_opt (chain data0 "summary_text") then
        trim_of (chain data0 "summary_text")
      else match data0 with
           | Some (Str s) => Some (trim s)
           | _ => Some ""
           end
  | Obj _ =>
      (* Handle object response format *)
      if truthy_opt (prop data "generated_text") then
        trim_of (prop data "generated_text")
      else if truthy_opt (prop data "summary_text") then
        trim_of (prop data "summary_text")
      else if truthy_opt (prop data "text") then
        trim_of (prop data "text")
      else if truthy_opt (chain (prop data "0") "generated_text") then
        trim_of (chain (prop data "0") "generated_text")
      else Some ""
  | Str s => Some (trim s)
  | Null => None
  | _ => Some ""
  end.

(** [aiResponse.split(sep)[1]?.trim() || aiResponse] *)
Definition afterMarker (sep aiResponse : string) : string :=
  match nth_error (split aiResponse sep) 1 with
  | Some piece => if truthy_str (trim piece) then trim piece else aiResponse
  | None => aiResponse
  end.

(** Clean up the response (remove prompt artifacts and special tokens). *)
Definition cleanResponse (aiResponse : string) : string :=
  if truthy_str aiResponse then
    let aiResponse :=
      trim (remove_all "<|end|>"
              (remove_all "<|assistant|>"
                 (remove_all "<|user|>"
                    (remove_all "<|system|>" aiResponse)))) in
    let aiResponse :=
      if includes aiResponse "Assistant Response:"
      then afterMarker "Assistant Response:" aiResponse
      else aiResponse in
    let aiResponse :=
      if includes aiResponse "FINOVA:"
      then afterMarker "FINOVA:" aiResponse
      else aiResponse in
    let aiResponse :=
      if includes aiResponse "User:"
      then trim (hd "" (split aiResponse "User:"))
      else aiResponse in
    aiResponse
  else aiResponse.

(** [generateResponse]; [ctx] is the result of [getUserContext()]. Every
    [throw] between [try] and [catch] is an outcome below that ends in
    the [catch] block, which calls [fallbackResponse]. *)
Definition generateResponse (ctx : UserContext) (userMessage : string)
           (conversationHistory : list ChatMessage.t) : AIResponse.t :=
  let user := user ctx in
  let financialData := financialData ctx in
  let '(tone, complexity) := getDemographicTone user in
  (* Build the prompt *)
  let prompt :=
    buildPrompt userMessage conversationHistory user financialData tone complexity in
  let fallback :=
    fallbackResponse ctx userMessage conversationHistory user financialData
                     tone complexity in
  match fetchResponse prompt with
  | NetworkError => fallback
  | Response ok status json =>
      if negb ok then fallback
      else
        match json with
        | None => fallback
        | Some Null => fallback
        | Some data =>
            (* Handle rate limit or error responses *)
            if truthy_opt (prop data "error") then fallback
            else
              (* Parse the response - handle different response formats *)
              match responseText data with
              | None => fallback
              | Some aiResponse =>
                  let aiResponse := cleanResponse aiResponse in
                  if negb (truthy_str aiResponse)
                     || (String.length aiResponse <? 10)%nat
                  then fallback
                  else
                    let budgetSummary :=
                      shouldGenerateBudgetSummary userMessage aiResponse in
                    let insights := shouldGenerateInsights userMessage aiResponse in
                    {| AIResponse.content := aiResponse;
                       AIResponse.suggestions := None;
                       AIResponse.budgetSummary :=
                         if budgetSummary
                         then Some (generateBudgetSummary financialData)
                         else None;
                       AIResponse.insights :=
                         if insights
                         then Some (generateSpendingInsights financialData)
                         else None |}
              end
        end
  end.

End WithHost.
End AIServiceHuggingFace.


(* ===================================================================== *)
(** ** The budget card ([components/BudgetSummary.tsx])                   *)
(* ===================================================================== *)

Module BudgetSummaryComponent.
Import JS.
Local Open Scope string_scope.
Local Open Scope float_scope.

(** [loadBudgetSummary]: the object handed to [setSummary]. [ctx] holds what
    [storageService.getFinancialData()] returns, which is also what the
    service reads. *)
Definition loadBudgetSummary (host : Host) (ctx : UserContext) : BudgetSummary.t :=
  let financialData := financialData ctx in
  let budgetSummary := AIService.generateResponse host ctx "budget summary" [] in
  match AIResponse.budgetSummary budgetSummary with
  | Some summary => summary
  | None =>
      (* Generate summary from financial data *)
      let savingsRate :=
        ((FinancialData.monthlyIncome financialData
            - FinancialData.monthlyExpenses financialData)
           / FinancialData.monthlyIncome financialData) * 100 in
      let monthlySavings :=
        FinancialData.monthlyIncome financialData
          - FinancialData.monthlyExpenses financialData in
      let categoryBreakdown :=
        fold_left sumByCategory (FinancialData.expenseBreakdown financialData) [] in
      {| BudgetSummary.monthlyIncome := FinancialData.monthlyIncome financialData;
         BudgetSummary.monthlyExpenses := FinancialData.monthlyExpenses financialData;
         BudgetSummary.monthlySavings := monthlySavings;
         BudgetSummary.savingsRate := toFixed host 1 savingsRate;
         BudgetSummary.categoryBreakdown := categoryBreakdown;
         BudgetSummary.totalBalance := FinancialData.totalBalance financialData |}
  end.

End BudgetSummaryComponent.

(* ===================================================================== *)
(** ** The transactions card ([TransactionManager])                       *)
(* ===================================================================== *)

Module TransactionManager.
Import JS.
Local Open Scope string_scope.
Local Open Scope float_scope.

Inductive TransactionType := income | expense.

(** The state of the form; every field is the text of an input. *)
Module FormData.
Record t := {
  type : TransactionType;
  amount : string;
  category : string;
  description : string;
  date : string
}.
End FormData.

(** A row of the table: an entry of one of the two histories with its
    type. A row made from an income entry has no category. *)
Module Transaction.
Record t := {
  type : TransactionType;
  date : string;
  amount : number;
  category : option string
}.
End Transaction.

(** The two [map] callbacks of [loadTransactions]:
    [{ ...inc, type: "income" }] and [{ ...exp, type: "expense" }]. *)
Definition incomeRow (inc : Income.t) : Transaction.t :=
  {| Transaction.type := income;
     Transaction.date := Income.date inc;
     Transaction.amount := Income.amount inc;
     Transaction.category := None |}.

Definition expenseRow (exp : Spent.t) : Transaction.t :=
  {| Transaction.type := expense;
     Transaction.date := Spent.date exp;
     Transaction.amount := Spent.amount exp;
     Transaction.category := Some (Spent.category exp) |}.

(** [c === transaction.category] *)
Definition is_category (c : string) (o : option string) : bool :=
  match o with
  | Some c' => str_eqb c c'
  | None => false
  end.

(** [l.findIndex(p)]; [None] is [-1]. *)
Fixpoint findIndex {A} (p : A -> bool) (l : list A) : option nat :=
  match l with
  | [] => None
  | x :: l' => if p x then Some O else option_map S (findIndex p l')
  end.

(** [inc.date === t.date && inc.amount === t.amount] *)
Definition sameIncome (t : Transaction.t) (inc : Income.t) : bool :=
  str_eqb (Income.date inc) (Transaction.date t)
  && (Income.amount inc =? Transaction.amount t).

(** [exp.date === t.date && exp.amount === t.amount
     && exp.category === t.category] *)
Definition sameExpense (t : Transaction.t) (exp : Spent.t) : bool :=
  str_eqb (Spent.date exp) (Transaction.date t)
  && (Spent.amount exp =? Transaction.amount t)
  && is_category (Spent.category exp) (Transaction.category t).

Definition addAmount (x : number) (exp : Expense.t) : Expense.t :=
  {| Expense.category := Expense.category exp;
     Expense.amount := Expense.amount exp + x;
     Expense.date := Expense.date exp |}.

Definition subAmount (x : number) (exp : Expense.t) : Expense.t :=
  {| Expense.category := Expense.category exp;
     Expense.amount := Expense.amount exp - x;
     Expense.date := Expense.date exp |}.

(** The part of [handleSubmit] that removes the transaction being edited
    from the histories and from the breakdown. *)
Definition removeOld (editingTransaction : Transaction.t)
           (incomeHistory : list Income.t) (expenseHistory : list Spent.t)
           (expenseBreakdown : list Expense.t)
  : list Income.t * list Spent.t * list Expense.t :=
  match Transaction.type editingTransaction with
  | income =>
      let incomeHistory :=
        List.filter (fun inc => negb (sameIncome editingTransaction inc))
                    incomeHistory in
      (incomeHistory, expenseHistory, expenseBreakdown)
  | expense =>
      let expenseHistory :=
        List.filter (fun exp => negb (sameExpense editingTransaction exp))
                    expenseHistory in
      (* Remove from expense breakdown *)
      let breakdownIndex :=
        findIndex (fun exp =>
                     is_category (Expense.category exp)
                                 (Transaction.category editingTransaction)
                     && str_eqb (Expense.date exp)
                                (Transaction.date editingTransaction))
                  expenseBreakdown in
      let expenseBreakdown :=
        match breakdownIndex with
        | Some breakdownIndex =>
            let expenseBreakdown :=
              alter (subAmount (Transaction.amount editingTransaction))
                    breakdownIndex expenseBreakdown in
            match expenseBreakdown !! breakdownIndex with
            | Some exp =>
                if Expense.amount exp <=? 0
                then delete breakdownIndex expenseBreakdown
                else expenseBreakdown
            | None => expenseBreakdown
            end
        | None => expenseBreakdown
        end in
      (incomeHistory, expenseHistory, expenseBreakdown)
  end.

Definition totalIncome (incomeHistory : list Income.t) : number :=
  fold_left (fun sum inc => sum + Income.amount inc) incomeHistory 0.

Definition totalExpenses (expenseHistory : list Spent.t) : number :=
  fold_left (fun sum exp => sum + Spent.amount exp) expenseHistory 0.

(** [handleSubmit]: the object handed to [saveFinancialData], computed
    from the object [financialData] that [getFinancialData] returned;
    [None] when the form is refused, in which case nothing is saved. *)
Definition handleSubmit (host : Host) (formData : FormData.t)
           (editingTransaction : option Transaction.t)
           (financialData : FinancialData.t) : option FinancialData.t :=
  if negb (truthy_str (FormData.amount formData))
     || negb (truthy_str (FormData.category formData)) then None
  else
    let amount := parseFloat host (FormData.amount formData) in
    if is_nan amount || (amount <=? 0) then None
    else
      let '(incomeHistory, expenseHistory, expenseBreakdown) :=
        match editingTransaction with
        | Some editingTransaction =>
            (* Remove old transaction *)
            removeOld editingTransaction
                      (FinancialData.incomeHistory financialData)
                      (FinancialData.expenseHistory financialData)
                      (FinancialData.expenseBreakdown financialData)
        | None =>
            (FinancialData.incomeHistory financialData,
             FinancialData.expenseHistory financialData,
             FinancialData.expenseBreakdown financialData)
        end in
      (* Add new transaction *)
      let '(incomeHistory, expenseHistory) :=
        match FormData.type formData with
        | income =>
            (push incomeHistory
                  {| Income.date := FormData.date formData;
                     Income.amount := amount |},
             expenseHistory)
        | expense =>
            (incomeHistory,
             push expenseHistory
                  {| Spent.date := FormData.date formData;
                     Spent.amount := amount;
                     Spent.category := FormData.category formData |})
        end in
      (* Update expense breakdown *)
      let expenseBreakdown :=
        match FormData.type formData with
        | expense =>
            let existingIndex :=
              findIndex (fun exp =>
                           str_eqb (Expense.category exp) (FormData.category formData)
                           && str_eqb (Expense.date exp) (FormData.date formData))
                        expenseBreakdown in
            match existingIndex with
            | Some existingIndex =>
                alter (addAmount amount) existingIndex expenseBreakdown
            | None =>
                push expenseBreakdown
                     {| Expense.category := FormData.category formData;
                        Expense.amount := amount;
                        Expense.date := FormData.date formData |}
            end
        | income => expenseBreakdown
        end in
      (* Recalculate totals *)
      let totalIncome := totalIncome incomeHistory in
      let totalExpenses := totalExpenses expenseHistory in
      (* Update balance based on transaction type *)
      let totalBalance := FinancialData.totalBalance financialData in
      let totalBalance :=
        match editingTransaction with
        | Some editingTransaction =>
            (* Reverse old transaction effect *)
            let oldAmount := Transaction.amount editingTransaction in
            totalBalance + match Transaction.type editingTransaction with
                           | income => - oldAmount
                           | expense => oldAmount
                           end
        | None => totalBalance
        end in
      (* Apply new transaction *)
      let totalBalance :=
        totalBalance + match FormData.type formData with
                       | income => amount
                       | expense => - amount
                       end in
      Some {| FinancialData.totalBalance := totalBalance;
              FinancialData.monthlyIncome := totalIncome;
              FinancialData.monthlyExpenses := totalExpenses;
              FinancialData.expenseBreakdown := expenseBreakdown;
              FinancialData.incomeHistory := incomeHistory;
              FinancialData.expenseHistory := expenseHistory |}.

(** [handleDelete]: the object handed to [saveFinancialData]; [confirmed]
    is the answer to the confirmation dialog, and [None] says that nothing
    is saved. *)
Definition handleDelete (confirmed : bool) (transaction : Transaction.t)
           (financialData : FinancialData.t) : option FinancialData.t :=
  if negb confirmed then None
  else
    let '(incomeHistory, expenseHistory, expenseBreakdown, totalBalance) :=
      match Transaction.type transaction with
      | income =>
          (List.filter (fun inc => negb (sameIncome transaction inc))
                       (FinancialData.incomeHistory financialData),
           FinancialData.expenseHistory financialData,
           FinancialData.expenseBreakdown financialData,
           FinancialData.totalBalance financialData - Transaction.amount transaction)
      | expense =>
          (FinancialData.incomeHistory financialData,
           List.filter (fun exp => negb (sameExpense transaction exp))
                       (FinancialData.expenseHistory financialData),
           List.filter (fun exp =>
                          negb (is_category (Expense.category exp)
                                            (Transaction.category transaction)
                                && str_eqb (Expense.date exp) (Transaction.date transaction)
                                && (Expense.amount exp =? Transaction.amount transaction)))
                       (FinancialData.expenseBreakdown financialData),
           FinancialData.totalBalance financialData + Transaction.amount transaction)
      end in
    let totalIncome := totalIncome incomeHistory in
    let totalExpenses := totalExpenses expenseHistory in
    Some {| FinancialData.totalBalance := totalBalance;
            FinancialData.monthlyIncome := totalIncome;
            FinancialData.monthlyExpenses := totalExpenses;
            FinancialData.expenseBreakdown := expenseBreakdown;
            FinancialData.incomeHistory := incomeHistory;
            FinancialData.expenseHistory := expenseHistory |}.

End TransactionManager.

(* ===================================================================== *)
(** ** The insights card ([SpendingInsights])                             *)
(* ===================================================================== *)

Module SpendingInsightsComponent.
Import JS.
Local Open Scope string_scope.
Local Open Scope float_scope.

(** [loadInsights]: the object handed to [setInsights]. [ctx] holds what
    [storageService.getFinancialData()] returns, which is also what the
    service reads. *)
Definition loadInsights (host : Host) (ctx : UserContext) : Insights.t :=
  let financialData := financialData ctx in
  let response := AIService.generateResponse host ctx "spending insights" [] in
  match AIResponse.insights response with
  | Some insights => insights
  | None =>
      (* Generate insights from financial data *)
      let trends := [] in
      let anomalies := [] in
      let recommendations := [] in
      let savingsRate :=
        ((FinancialData.monthlyIncome financialData
            - FinancialData.monthlyExpenses financialData)
           / FinancialData.monthlyIncome financialData) * 100 in
      (* Analyze expense trends *)
      let '(trends, recommendations) :=
        if (1 <? List.length (FinancialData.expenseHistory financialData))%nat then
          let recentExpenses :=
            AIService.sumAmounts (slice_last 3 (FinancialData.expenseHistory financialData)) / 3 in
          let olderExpenses :=
            AIService.sumAmounts (slice_neg 6 3 (FinancialData.expenseHistory financialData)) / 3 in
          if gtb recentExpenses (olderExpenses * 1.1) then
            (push trends
               ("Your spending has increased by over 10% in recent months."),
             push recommendations
               ("Review your recent expenses to identify areas where you can cut back."))
          else if recentExpenses <? olderExpenses * 0.9 then
            (push trends
               ("Great job! Your spending has decreased recently."),
             recommendations)
          else (trends, recommendations)
        else (trends, recommendations) in
      (* Savings rate analysis *)
      let '(trends, recommendations) :=
        if savingsRate <? 10 then
          (trends,
           push recommendations
               ("Consider increasing your savings rate to at least 10% of your income."))
        else if geb savingsRate 20 then
          (push trends
               ("Excellent savings rate! You're saving 20% or more of your income."),
           recommendations)
        else (trends, recommendations) in
      (* Category analysis *)
      let categoryBreakdown :=
        fold_left sumByCategory (FinancialData.expenseBreakdown financialData) [] in
      let maxCategory :=
        head (sort (fun a b => gtb (snd b - snd a) 0) (entries categoryBreakdown)) in
      let recommendations :=
        match maxCategory with
        | Some (name, value) =>
            if gtb value (FinancialData.monthlyExpenses financialData * 0.4) then
              push recommendations
               (name ++ " is your largest expense category. Consider reviewing it for optimization opportunities.")
            else recommendations
        | None => recommendations
        end in
      (* Balance check *)
      let '(anomalies, recommendations) :=
        if FinancialData.totalBalance financialData
             <? FinancialData.monthlyExpenses financialData * 3 then
          (push anomalies
               ("Your emergency fund is below 3 months of expenses. Consider building it up."),
           push recommendations
               ("Aim to have 3-6 months of expenses saved as an emergency fund."))
        else (anomalies, recommendations) in
      {| Insights.trends := trends;
         Insights.anomalies := anomalies;
         Insights.recommendations := recommendations |}
  end.

End SpendingInsightsComponent.

(* ===================================================================== *)
(** ** The chat panel ([components/ChatInterface.tsx])                    *)
(* ===================================================================== *)

Module ChatInterface.
Import JS JSON StorageService.
Local Open Scope string_scope.




End ChatInterface.

(* ===================================================================== *)
(** ** The settings page ([pages/Settings.tsx])                           *)
(* ===================================================================== *)

Module Settings.
Import JS JSON StorageService.
Local Open Scope string_scope.

Inductive Theme := light | dark | system.

Record Notifications := {
  email : bool;
  push : bool;
  budgetAlerts : bool;
  goalReminders : bool
}.

Record AppSettings := {
  theme : Theme;
  notifications : Notifications;
  currency : string;
  language : string
}.

Definition of_Theme (t : Theme) : value :=
  Str match t with light => "light" | dark => "dark" | system => "system" end.

Definition of_Notifications (n : Notifications) : value :=
  Obj [("email", Bool (email n));
       ("push", Bool (push n));
       ("budgetAlerts", Bool (budgetAlerts n));
       ("goalReminders", Bool (goalReminders n))].

Definition of_AppSettings (a : AppSettings) : value :=
  Obj [("theme", of_Theme (theme a));
       ("notifications", of_Notifications (notifications a));
       ("currency", Str (currency a));
       ("language", Str (language a))].

Definition SETTINGS_KEY : string := "finova_settings".

(** The initial state of the page. *)
Definition initialSettings : AppSettings :=
  {| theme := system;
     notifications := {| email := true; push := true;
                         budgetAlerts := true; goalReminders := true |};
     currency := "USD";
     language := "en" |}.

(** The effect that loads the settings: the [settings] state after it has
    run, [settings] being the state before. Without a session the page
    navigates away and the state stays; a text that cannot be parsed is
    logged and the state stays. *)
Definition loadSettings (settings : value) (s : Storage) : value :=
  if negb (hasSession s) then settings
  else
    (* Load settings from localStorage *)
    match items s !! SETTINGS_KEY with
    | Some savedSettings =>
        if nonempty savedSettings then
          match parse savedSettings with
          | Some saved =>
              Obj (defined (spread (own_props settings)
                                   (map (fun kv => (fst kv, Some (snd kv)))
                                        (own_props saved))))
          | None => settings
          end
        else settings
    | None => settings
    end.

(** [handleSave]: the store after the call. *)
Definition handleSave (settings : value) (s : Storage) : Storage :=
  setItem SETTINGS_KEY (stringify settings) s.

(** [handleClearData]: the store after the call; [confirmed] is the answer
    to the confirmation dialog. *)
Definition handleClearData (confirmed : bool) (s : Storage) : Storage :=
  if confirmed then clearAll s else s.

End Settings.

(* ===================================================================== *)
(** ** Vocabulary of the statements                                       *)
(* ===================================================================== *)

Import JS.

(** A host for the statements that need a concrete one; what its functions
    return plays no part in the facts stated with it. *)
Definition sample_host : Host :=
  {| toLocaleString := fun _ => "0"%string;
     numberToString := fun _ => "0"%string;
     parseFloat := fun _ => 0%float;
     random := 0%float |}.

Definition sample_data (income expenses : number) : FinancialData.t :=
  {| FinancialData.totalBalance := 10000;
     FinancialData.monthlyIncome := income;
     FinancialData.monthlyExpenses := expenses;
     FinancialData.expenseBreakdown := [];
     FinancialData.incomeHistory := [];
     FinancialData.expenseHistory := [] |}.

Definition sample_ctx (income expenses : number) : UserContext :=
  {| user := None; financialData := sample_data income expenses |}.


(** *** Vocabulary for the store *)

Import JSON StorageService.

(** A number is finite: what a form of the application can produce and
    what [JSON] can carry. *)
Definition finite (x : number) : Prop := is_finite x = true.

(** Well-formed financial data: every number in it is finite. *)
Definition well_formed (d : FinancialData.t) : Prop :=
  finite (FinancialData.totalBalance d)
  /\ finite (FinancialData.monthlyIncome d)
  /\ finite (FinancialData.monthlyExpenses d)
  /\ Forall (fun e => finite (Expense.amount e)) (FinancialData.expenseBreakdown d)
  /\ Forall (fun e => finite (Income.amount e)) (FinancialData.incomeHistory d)
  /\ Forall (fun e => finite (Spent.amount e)) (FinancialData.expenseHistory d).

(** Equality field by field: [===] on numbers and on strings. *)
Definition same_number (x y : number) : Prop := (x =? y)%float = true.

Definition same_Expense (a b : Expense.t) : Prop :=
  Expense.category a = Expense.category b
  /\ same_number (Expense.amount a) (Expense.amount b)
  /\ Expense.date a = Expense.date b.

Definition same_Income (a b : Income.t) : Prop :=
  Income.date a = Income.date b
  /\ same_number (Income.amount a) (Income.amount b).

Definition same_Spent (a b : Spent.t) : Prop :=
  Spent.date a = Spent.date b
  /\ same_number (Spent.amount a) (Spent.amount b)
  /\ Spent.category a = Spent.category b.

Definition same_FinancialData (a b : FinancialData.t) : Prop :=
  same_number (FinancialData.totalBalance a) (FinancialData.totalBalance b)
  /\ same_number (FinancialData.monthlyIncome a) (FinancialData.monthlyIncome b)
  /\ same_number (FinancialData.monthlyExpenses a) (FinancialData.monthlyExpenses b)
  /\ Forall2 same_Expense (FinancialData.expenseBreakdown a)
                          (FinancialData.expenseBreakdown b)
  /\ Forall2 same_Income (FinancialData.incomeHistory a)
                         (FinancialData.incomeHistory b)
  /\ Forall2 same_Spent (FinancialData.expenseHistory a)
                        (FinancialData.expenseHistory b).

(** The number read back after [JSON.stringify] and [JSON.parse]. *)
Definition read_back (x : number) : number :=
  if is_zero x then 0%float else x.

Definition sample_store (active : option string) : Storage :=
  {| session := active; items := ∅ |}.

(** The three base keys of user data. *)
Definition data_key (base : string) : Prop :=
  base = FINANCIAL_DATA_KEY \/ base = SAVINGS_GOALS_KEY \/ base = CHAT_MESSAGES_KEY.

(** The key of [base] suffixed with a user id. *)
Definition suffixed (base userId : string) : string :=
  (base ++ "_" ++ userId)%string.

(** [s'] is [s] after one write of user data through the store. The last
    case is a value of any shape saved under the scoped key of a base key:
    what [updateFinancialData], [addSavingsGoal], [updateSavingsGoal] and
    [deleteSavingsGoal] do through the two [save] functions. *)
Inductive user_data_write (s : Storage) : Storage -> Prop :=
| write_financial_data d :
    user_data_write s (saveFinancialData d s)
| write_savings_goals goals :
    user_data_write s (saveSavingsGoals goals s)
| write_chat_message message s' :
    saveChatMessage message s = Some s' -> user_data_write s s'
| write_clear_chat userId s' :
    clearChatHistory userId s = Some s' -> user_data_write s s'
| write_scoped base v :
    data_key base ->
    user_data_write s (notifyChange (setItem (getUserScopedKey base s) (stringify v) s)).

(** [s'] differs from [s] at most in the entry under [key]. *)
Definition touches_only (key : string) (s s' : Storage) : Prop :=
  session s' = session s
  /\ forall k, k <> key -> items s' !! k = items s !! k.

(** A store in which user [u1] is signed in and has financial data, savings
    goals and chat messages, next to the data of user [u2]. *)
Definition two_user_store : Storage :=
  {| session := Some "u1"%string;
     items :=
       <[ USERS_KEY := stringify (Arr []) ]>
       (<[ suffixed FINANCIAL_DATA_KEY "u1" := stringify (of_FinancialData defaultFinancialData) ]>
       (<[ suffixed SAVINGS_GOALS_KEY "u1" := stringify (Arr []) ]>
       (<[ suffixed CHAT_MESSAGES_KEY "u1" := stringify (Arr []) ]>
       (<[ suffixed FINANCIAL_DATA_KEY "u2" := stringify (of_FinancialData defaultFinancialData) ]>
        ∅)))) |}.

(** The [id] property of each record of the global users list. *)
Definition stored_ids (s : Storage) : list (option value) :=
  match getAllUsers s with
  | Arr users => map (fun u => prop u "id") users
  | _ => []
  end.

(** The calls [addUser(u)] for the users of a list, in order; [None] as soon
    as one of them throws. *)
Definition addUsers (us : list User.t) (s : Storage) : option Storage :=
  fold_left (fun acc u => s ← acc; addUser u s) us (Some s).

Definition sample_user (id email : string) (password : option string) : User.t :=
  {| User.id := id;
     User.email := email;
     User.fullName := "Sample User";
     User.password := password;
     User.demographic := None;
     User.financialGoals := Some [];
     User.createdAt := "2024-01-01T00:00:00.000Z" |}.

(** *** Vocabulary for sign-in *)

Import Auth.

(** The global users list holds the records of [us], in this order. *)
Definition users_stored (us : list User.t) (s : Storage) : Prop :=
  getAllUsers s = Arr (map (fun u => normalise (of_User u)) us).

(** [u] is the first record of [us] with its email. *)
Definition first_with_email (us : list User.t) (u : User.t) : Prop :=
  exists before after,
    us = before ++ u :: after
    /\ Forall (fun v => User.email v <> User.email u) before.

(** The password field is absent or empty. *)
Definition no_password (u : User.t) : Prop :=
  User.password u = None \/ User.password u = Some ""%string.

(** *** Vocabulary for chat messages and savings goals *)

(** The chat entry of the active user holds the messages [ms], in this
    order. *)
Definition messages_stored (ms : list ChatMessage.t) (s : Storage) : Prop :=
  getChatMessages None s = Arr (map (fun m => normalise (of_ChatMessage m)) ms).

(** The message carries the user id [uid]. *)
Definition tagged (uid : string) (m : ChatMessage.t) : bool :=
  match ChatMessage.userId m with
  | Some y => str_eqb y uid
  | None => false
  end.

(** The message without its [userId]. *)
Definition untagged (m : ChatMessage.t) : ChatMessage.t :=
  {| ChatMessage.id := ChatMessage.id m;
     ChatMessage.role := ChatMessage.role m;
     ChatMessage.content := ChatMessage.content m;
     ChatMessage.created_at := ChatMessage.created_at m;
     ChatMessage.userId := None |}.

(** The goals entry of the active user holds the goals [gs], in this
    order. *)
Definition goals_stored (gs : list SavingsGoal.t) (s : Storage) : Prop :=
  getSavingsGoals s = Arr (map (fun g => normalise (of_SavingsGoal g)) gs).

Definition sample_message (id : string) (userId : option string) : ChatMessage.t :=
  {| ChatMessage.id := id;
     ChatMessage.role := Role.user;
     ChatMessage.content := "How can I save more?";
     ChatMessage.created_at := "2024-01-01T00:00:00.000Z";
     ChatMessage.userId := userId |}.

Definition sample_goal (id : string) : SavingsGoal.t :=
  {| SavingsGoal.id := id;
     SavingsGoal.name := "Laptop";
     SavingsGoal.target_amount := 1200;
     SavingsGoal.current_amount := 300;
     SavingsGoal.deadline := None;
     SavingsGoal.createdAt := "2024-01-01T00:00:00.000Z" |}.

(** *** Vocabulary for the transactions card *)

(** An amount the form accepts: a number that is neither [NaN] nor at most
    zero. *)
Definition accepted_amount (a : number) : Prop :=
  (is_nan a || (a <=? 0)%float) = false.

(** The category and the date of a breakdown entry. *)
Definition entry_key (e : Expense.t) : string * string :=
  (Expense.category e, Expense.date e).

Definition breakdown_keys (fd : FinancialData.t) : list (string * string) :=
  map entry_key (FinancialData.expenseBreakdown fd).

(** Financial data as the transactions card keeps it: no two breakdown
    entries for the same category and date, and only accepted amounts in
    the two histories. *)
Definition consistent (fd : FinancialData.t) : Prop :=
  List.NoDup (breakdown_keys fd)
  /\ Forall (fun e => accepted_amount (Income.amount e)) (FinancialData.incomeHistory fd)
  /\ Forall (fun e => accepted_amount (Spent.amount e)) (FinancialData.expenseHistory fd).

(** A host whose [parseFloat] reads every text as [250]. *)
Definition host_250 : Host :=
  {| toLocaleString := fun _ => "250"%string;
     numberToString := fun _ => "250"%string;
     parseFloat := fun _ => 250%float;
     random := 0%float |}.

Definition sample_form (type : TransactionManager.TransactionType)
  : TransactionManager.FormData.t :=
  {| TransactionManager.FormData.type := type;
     TransactionManager.FormData.amount := "250";
     TransactionManager.FormData.category := "Salary";
     TransactionManager.FormData.description := "";
     TransactionManager.FormData.date := "2024-03-01" |}.

(** *** Vocabulary for the two services *)

(** The part of [s] before the first occurrence of [sep], all of [s] when
    there is none. *)
Fixpoint before_first (sep s : string) : string :=
  match s with
  | EmptyString => EmptyString
  | String c s' =>
      if startsWith s sep then EmptyString else String c (before_first sep s')
  end.

(** No white space at either end. *)
Definition trimmed (s : string) : Prop := trim s = s.


(** No two keys of a list are the same. *)
Fixpoint distinct_keys (keys : list string) : bool :=
  match keys with
  | [] => true
  | k :: rest => negb (existsb (str_eqb k) rest) && distinct_keys rest
  end.


Import AIServiceHuggingFace.




(* ===================================================================== *)
(** ** Properties                                                         *)
(* ===================================================================== *)

(** *** The financial aggregator *)

(** Whatever the message, the summary attached to a response of the
    rule-based service is the one [generateBudgetSummary] computes. *)
Lemma generateResponse_budgetSummary host ctx userMessage history :
  AIResponse.budgetSummary (AIService.generateResponse host ctx userMessage history) = None
  \/ AIResponse.budgetSummary (AIService.generateResponse host ctx userMessage history)
     = Some (AIService.generateBudgetSummary host (financialData ctx)).
Proof.
  unfold AIService.generateResponse.
  destruct (getDemographicTone (user ctx)) as [tone complexity].
  cbv zeta.
  repeat match goal with
         | |- context [match ?c with Some _ => _ | None => _ end] => destruct c
         | |- context [if ?c then _ else _] => destruct c
         end; cbn; auto.
Qed.

Lemma loadBudgetSummary_eq host ctx :
  BudgetSummaryComponent.loadBudgetSummary host ctx
  = AIService.generateBudgetSummary host (financialData ctx).
Proof.
  unfold BudgetSummaryComponent.loadBudgetSummary. cbv zeta.
  destruct (generateResponse_budgetSummary host ctx "budget summary" []) as [H | H];
    rewrite H; reflexivity.
Qed.

(** C3. For financial data with [monthlyIncome > 0], the budget summary of
    the aggregator (the one of the rule-based service and the one the budget
    card shows) has [savingsRate] equal to
    [(monthlyIncome - monthlyExpenses) / monthlyIncome * 100] rendered by
    [toFixed(1)] and [monthlySavings] equal to
    [monthlyIncome - monthlyExpenses]; with income 2000 and expenses 500
    these are ["75.0"] and [1500]. *)
Theorem C3_budget_summary_savings_rate :
  (forall host ctx,
      let fd := financialData ctx in
      let income := FinancialData.monthlyIncome fd in
      let expenses := FinancialData.monthlyExpenses fd in
      (0 <? income)%float = true ->
      forall summary,
        summary = AIService.generateBudgetSummary host fd
        \/ summary = BudgetSummaryComponent.loadBudgetSummary host ctx ->
        BudgetSummary.savingsRate summary
        = toFixed host 1 ((income - expenses) / income * 100)%float
        /\ BudgetSummary.monthlySavings summary = (income - expenses)%float)
  /\ (forall host ctx,
         FinancialData.monthlyIncome (financialData ctx) = 2000%float ->
         FinancialData.monthlyExpenses (financialData ctx) = 500%float ->
         forall summary,
           summary = AIService.generateBudgetSummary host (financialData ctx)
           \/ summary = BudgetSummaryComponent.loadBudgetSummary host ctx ->
           BudgetSummary.savingsRate summary = "75.0"%string
           /\ BudgetSummary.monthlySavings summary = 1500%float).
Proof.
  split.
  - intros host ctx fd income expenses _ summary [-> | ->];
      rewrite ?loadBudgetSummary_eq; split; reflexivity.
  - intros host ctx Hi He summary [-> | ->];
      rewrite ?loadBudgetSummary_eq; unfold AIService.generateBudgetSummary; cbn;
      rewrite Hi, He; split; vm_compute; reflexivity.
Qed.

Lemma C3_witness :
  BudgetSummary.savingsRate
    (AIService.generateBudgetSummary sample_host (sample_data 2000 500))
  = "75.0"%string
  /\ BudgetSummary.monthlySavings
       (BudgetSummaryComponent.loadBudgetSummary sample_host (sample_ctx 2000 500))
     = 1500%float.
Proof.
  destruct C3_budget_summary_savings_rate as [Hgen Hex].
  split.
  - destruct (Hgen sample_host (sample_ctx 2000 500)) with
      (summary := AIService.generateBudgetSummary sample_host (sample_data 2000 500))
      as [Hrate _]; [reflexivity | left; reflexivity |].
    rewrite Hrate. vm_compute. reflexivity.
  - destruct (Hex sample_host (sample_ctx 2000 500)) with
      (summary := BudgetSummaryComponent.loadBudgetSummary sample_host (sample_ctx 2000 500))
      as [_ Hsav]; [reflexivity | reflexivity | right; reflexivity |].
    exact Hsav.
Defined.


Lemma eqb_zero_inv (x : float) :
  (x =? 0)%float = true -> exists s, Prim2SF x = S754_zero s.
Proof.
  rewrite FloatAxioms.eqb_spec. change (Prim2SF 0) with (S754_zero false).
  destruct (Prim2SF x) as [s | s | | s m e]; cbn; try discriminate; eauto.
  all: destruct s; discriminate.
Qed.






(** *** The persistent store: round trip *)

Lemma finite_same_read_back (x : number) :
  finite x -> same_number (read_back x) x.
Proof.
  unfold finite, same_number, read_back, is_finite, is_zero. intros Hfin.
  destruct (x =? zero)%float eqn:Hz.
  - destruct (eqb_zero_inv x Hz) as [s Hs].
    rewrite FloatAxioms.eqb_spec, Hs. reflexivity.
  - apply negb_true_iff, orb_false_iff in Hfin. destruct Hfin as [Hnan _].
    unfold is_nan in Hnan. now apply negb_false_iff in Hnan.
Qed.

Lemma normalise_finite (x : number) :
  finite x -> normalise (Num x) = Num (read_back x).
Proof.
  unfold finite, read_back. intros Hfin. cbn [normalise]. rewrite Hfin.
  now destruct (is_zero x).
Qed.

Lemma getFinancialData_saveFinancialData d s :
  getFinancialData (saveFinancialData d s) = normalise (of_FinancialData d).
Proof.
  unfold getFinancialData, saveFinancialData, notifyChange, setItem,
    getUserScopedKey, getActiveUserId.
  cbn [session items]. rewrite lookup_insert_eq. reflexivity.
Qed.

Lemma normalise_Obj props :
  normalise (Obj props) = Obj (map (fun kv => (fst kv, normalise (snd kv))) props).
Proof. reflexivity. Qed.

Lemma normalise_Arr l : normalise (Arr l) = Arr (map normalise l).
Proof. reflexivity. Qed.

Section ReadBack.
(** Reading back an array of records whose numbers are finite. *)
Context {A : Type} (of_A : A -> value) (to_A : value -> option A)
        (same : A -> A -> Prop) (ok : A -> Prop).
Hypothesis one :
  forall a, ok a -> exists a', to_A (normalise (of_A a)) = Some a' /\ same a' a.

Lemma read_back_array (l : list A) :
  Forall ok l ->
  exists l', mapM to_A (map normalise (map of_A l)) = Some l' /\ Forall2 same l' l.
Proof using one.
  induction 1 as [| a l Ha _ [l' [Hl' Hsame]]].
  - exists []. split; [reflexivity | constructor].
  - destruct (one a Ha) as [a' [Ha' Hs]].
    exists (a' :: l'). split; [| now constructor].
    cbn. rewrite Ha'. cbn. rewrite Hl'. reflexivity.
Qed.
End ReadBack.

Lemma read_back_Expense e :
  finite (Expense.amount e) ->
  exists e', to_Expense (normalise (of_Expense e)) = Some e' /\ same_Expense e' e.
Proof.
  intros Hf. eexists. split.
  - unfold of_Expense. rewrite normalise_Obj. cbn [map fst snd].
    rewrite (normalise_finite _ Hf). reflexivity.
  - repeat split; cbn; auto using finite_same_read_back.
Qed.

Lemma read_back_Income e :
  finite (Income.amount e) ->
  exists e', to_Income (normalise (of_Income e)) = Some e' /\ same_Income e' e.
Proof.
  intros Hf. eexists. split.
  - unfold of_Income. rewrite normalise_Obj. cbn [map fst snd].
    rewrite (normalise_finite _ Hf). reflexivity.
  - repeat split; cbn; auto using finite_same_read_back.
Qed.

Lemma read_back_Spent e :
  finite (Spent.amount e) ->
  exists e', to_Spent (normalise (of_Spent e)) = Some e' /\ same_Spent e' e.
Proof.
  intros Hf. eexists. split.
  - unfold of_Spent. rewrite normalise_Obj. cbn [map fst snd].
    rewrite (normalise_finite _ Hf). reflexivity.
  - repeat split; cbn; auto using finite_same_read_back.
Qed.

(** C6. For well-formed financial data [d] and any store state (any active
    user, or none), [saveFinancialData(d)] followed by [getFinancialData()]
    returns an object that reads as financial data equal to [d] field by
    field. *)
Theorem C6_financial_data_round_trip (d : FinancialData.t) (s : Storage) :
  well_formed d ->
  exists d',
    to_FinancialData (getFinancialData (saveFinancialData d s)) = Some d'
    /\ same_FinancialData d' d.
Proof.
  intros (Hb & Hi & He & Heb & Hih & Heh).
  rewrite getFinancialData_saveFinancialData.
  destruct (read_back_array of_Expense to_Expense same_Expense _ read_back_Expense _ Heb)
    as [eb [Heb1 Heb2]].
  destruct (read_back_array of_Income to_Income same_Income _ read_back_Income _ Hih)
    as [ih [Hih1 Hih2]].
  destruct (read_back_array of_Spent to_Spent same_Spent _ read_back_Spent _ Heh)
    as [eh [Heh1 Heh2]].
  eexists. split.
  - unfold of_FinancialData. rewrite normalise_Obj. cbn [map fst snd].
    rewrite !normalise_finite, !normalise_Arr by assumption.
    unfold to_FinancialData. cbn -[mapM]. rewrite Heb1, Hih1, Heh1. reflexivity.
  - repeat split; cbn; auto using finite_same_read_back.
Qed.

(** A number that is not finite does not survive the round trip: it is
    stored as [null]. *)
Example round_trip_of_NaN_income (s : Storage) :
  to_FinancialData (getFinancialData (saveFinancialData (sample_data nan 500) s)) = None.
Proof. rewrite getFinancialData_saveFinancialData. reflexivity. Qed.

Lemma C6_witness :
  exists d',
    to_FinancialData
      (getFinancialData
         (saveFinancialData defaultFinancialData (sample_store (Some "u1"%string))))
    = Some d'
    /\ same_FinancialData d' defaultFinancialData.
Proof.
  apply (C6_financial_data_round_trip defaultFinancialData (sample_store (Some "u1"%string))).
  repeat split; try reflexivity; constructor.
Defined.

(** *** The persistent store: keys *)

(** No key under which user data or the users list is stored is the session
    key, whatever the user id. *)
Lemma data_keys_are_not_the_session_key (base userId : string) :
  data_key base ->
  base <> SESSION_KEY /\ suffixed base userId <> SESSION_KEY /\ USERS_KEY <> SESSION_KEY.
Proof.
  unfold data_key, suffixed.
  intros [-> | [-> | ->]]; repeat split; intros H; cbn in H; discriminate H.
Qed.

(** *** The persistent store: user scoping *)

Lemma truthy_str_true (x : string) : truthy_str x = true <-> x <> ""%string.
Proof.
  unfold truthy_str, str_eqb. rewrite negb_true_iff.
  split.
  - intros H ->. discriminate.
  - intros H. destruct (String.eqb_spec x "") as [-> | _]; [contradiction | reflexivity].
Qed.

Lemma append_cancel_l (a b c : string) : (a ++ b = a ++ c)%string -> b = c.
Proof. induction a as [| ch a IH]; cbn; [auto | intros H; injection H; auto]. Qed.

Lemma suffixed_inj base1 base2 A B :
  data_key base1 -> data_key base2 ->
  suffixed base1 A = suffixed base2 B -> base1 = base2 /\ A = B.
Proof.
  unfold data_key, suffixed.
  intros [-> | [-> | ->]] [-> | [-> | ->]] H;
    first [ split; [reflexivity | now apply append_cancel_l, append_cancel_l in H]
          | cbn in H; discriminate H ].
Qed.

Lemma getUserScopedKey_active base s A :
  session s = Some A -> A <> ""%string -> getUserScopedKey base s = suffixed base A.
Proof.
  unfold getUserScopedKey, getActiveUserId. intros -> HA.
  apply truthy_str_true in HA. now rewrite HA.
Qed.

Lemma setItem_touches_only key t s : touches_only key s (setItem key t s).
Proof. split; [reflexivity |]. intros k Hk. cbn. now rewrite lookup_insert_ne. Qed.

Lemma removeItem_touches_only key s : touches_only key s (removeItem key s).
Proof. split; [reflexivity |]. intros k Hk. cbn. now rewrite lookup_delete_ne. Qed.

(** A write made while [A] is active changes at most one entry, the one
    under an [A]-suffixed data key. *)
Lemma user_data_write_touches s s' A :
  session s = Some A -> A <> ""%string ->
  user_data_write s s' ->
  exists base, data_key base /\ touches_only (suffixed base A) s s'.
Proof.
  intros Hs HA Hw.
  destruct Hw as [d | goals | message s' H | userId s' H | base v Hbase].
  - exists FINANCIAL_DATA_KEY. split; [left; reflexivity |].
    unfold saveFinancialData, notifyChange.
    rewrite (getUserScopedKey_active _ _ _ Hs HA). apply setItem_touches_only.
  - exists SAVINGS_GOALS_KEY. split; [right; left; reflexivity |].
    unfold saveSavingsGoals, notifyChange.
    rewrite (getUserScopedKey_active _ _ _ Hs HA). apply setItem_touches_only.
  - exists CHAT_MESSAGES_KEY. split; [right; right; reflexivity |].
    unfold saveChatMessage, notifyChange in H.
    rewrite (getUserScopedKey_active _ _ _ Hs HA) in H.
    destruct (as_array (getChatMessages None s)); cbn in H; [| discriminate].
    injection H as <-. apply setItem_touches_only.
  - exists CHAT_MESSAGES_KEY. split; [right; right; reflexivity |].
    unfold clearChatHistory, notifyChange in H.
    rewrite (getUserScopedKey_active _ _ _ Hs HA) in H.
    destruct userId as [uid |]; [destruct (truthy_str uid) |].
    + destruct (filter_userId false uid (getChatMessages None s)); cbn in H;
        [| discriminate].
      injection H as <-. apply setItem_touches_only.
    + injection H as <-. apply removeItem_touches_only.
    + injection H as <-. apply removeItem_touches_only.
  - exists base. split; [exact Hbase |]. unfold notifyChange.
    rewrite (getUserScopedKey_active _ _ _ Hs HA). apply setItem_touches_only.
Qed.

(** What a user reads depends only on the entries under the keys suffixed
    with that user's id. *)
Lemma reads_of_active s s' B :
  B <> ""%string ->
  (forall base, data_key base ->
                items s' !! suffixed base B = items s !! suffixed base B) ->
  getFinancialData (setActiveUser (Some B) s') = getFinancialData (setActiveUser (Some B) s)
  /\ getSavingsGoals (setActiveUser (Some B) s') = getSavingsGoals (setActiveUser (Some B) s)
  /\ forall userId,
      getChatMessages userId (setActiveUser (Some B) s')
      = getChatMessages userId (setActiveUser (Some B) s).
Proof.
  intros HB Hsame. apply truthy_str_true in HB.
  unfold getFinancialData, getSavingsGoals, getChatMessages, getUserScopedKey,
    getActiveUserId, setActiveUser, notifyChange.
  rewrite HB. cbn [session items]. rewrite HB.
  fold (suffixed FINANCIAL_DATA_KEY B) (suffixed SAVINGS_GOALS_KEY B)
       (suffixed CHAT_MESSAGES_KEY B).
  rewrite !Hsame by (unfold data_key; auto).
  repeat split.
Qed.

(** C7. For two distinct user ids [A] and [B]: a write of financial data,
    savings goals or chat messages made while [A] is the active user changes
    only an entry under an [A]-suffixed key and leaves every [B]-suffixed
    entry as it was, so what is read once [B] is active is what was read
    before the write. [A] and [B] are arbitrary, hence also the converse. *)
Theorem C7_user_scoping (s s' : Storage) (A B : string) :
  A <> ""%string -> B <> ""%string -> A <> B ->
  getActiveUserId s = Some A ->
  user_data_write s s' ->
  (exists base, data_key base /\ touches_only (suffixed base A) s s')
  /\ (forall base, data_key base ->
                   items s' !! suffixed base B = items s !! suffixed base B)
  /\ getFinancialData (setActiveUser (Some B) s') = getFinancialData (setActiveUser (Some B) s)
  /\ getSavingsGoals (setActiveUser (Some B) s') = getSavingsGoals (setActiveUser (Some B) s)
  /\ forall userId,
      getChatMessages userId (setActiveUser (Some B) s')
      = getChatMessages userId (setActiveUser (Some B) s).
Proof.
  intros HA HB HAB Hs Hw.
  destruct (user_data_write_touches s s' A Hs HA Hw) as [base [Hbase Htouch]].
  assert (Hother : forall base', data_key base' ->
                     items s' !! suffixed base' B = items s !! suffixed base' B).
  { intros base' Hbase'. apply Htouch. intros Heq.
    apply suffixed_inj in Heq; [| assumption | assumption].
    destruct Heq as [_ Heq]. congruence. }
  split; [eauto |]. split; [exact Hother |].
  apply reads_of_active; assumption.
Qed.

Lemma C7_witness :
  getFinancialData
    (setActiveUser (Some "bob"%string)
       (saveFinancialData (sample_data 1 1) (sample_store (Some "alice"%string))))
  = getFinancialData
      (setActiveUser (Some "bob"%string) (sample_store (Some "alice"%string))).
Proof.
  apply (C7_user_scoping (sample_store (Some "alice"%string))
           (saveFinancialData (sample_data 1 1) (sample_store (Some "alice"%string)))
           "alice"%string "bob"%string);
    [discriminate | discriminate | discriminate | reflexivity | constructor].
Defined.

(** *** The persistent store: [clearAll] *)

(** C8, what the code does. [clearAll] removes the users key and the
    session key and nothing else: it reads the active user id after it has
    removed the session key, so the id is [null] and the three removals of
    the user-scoped keys are never made. On [two_user_store] the financial
    data, the savings goals and the chat messages of the signed-in user [u1]
    are all still there after the call. *)
Theorem C8_clearAll_keeps_scoped_entries :
  (forall s,
      getActiveUserId (clearAll s) = None
      /\ items (clearAll s) = delete USERS_KEY (items s))
  /\ getActiveUserId two_user_store = Some "u1"%string
  /\ items (clearAll two_user_store) !! suffixed FINANCIAL_DATA_KEY "u1"
     = Some (stringify (of_FinancialData defaultFinancialData))
  /\ items (clearAll two_user_store) !! suffixed SAVINGS_GOALS_KEY "u1"
     = Some (stringify (Arr []))
  /\ items (clearAll two_user_store) !! suffixed CHAT_MESSAGES_KEY "u1"
     = Some (stringify (Arr [])).
Proof.
  split; [| repeat split; vm_compute; reflexivity].
  intros s. unfold clearAll, getActiveUserId, notifyChange, removeItem.
  cbn [session items]. split; reflexivity.
Qed.

(** *** The persistent store: the users list *)

Lemma prop_normalise (v : value) (k : string) :
  prop (normalise v) k = option_map normalise (prop v k).
Proof.
  destruct v as [| b | x | str | l | props]; try reflexivity.
  - change (normalise (Num x))
      with (if is_finite x then (if is_zero x then Num 0%float else Num x) else Null).
    destruct (is_finite x); [destruct (is_zero x) |]; reflexivity.
  - rewrite normalise_Obj. cbn [prop].
    induction props as [| [k' v'] props IH]; [reflexivity |].
    cbn [dict_get map fst snd]. destruct (str_eqb k' k); [reflexivity | exact IH].
Qed.

Lemma id_of_User (u : User.t) :
  prop (normalise (of_User u)) "id" = Some (Str (User.id u)).
Proof. reflexivity. Qed.

Lemma getAllUsers_saveAllUsers users s :
  getAllUsers (saveAllUsers users s) = normalise users.
Proof.
  unfold getAllUsers, saveAllUsers, notifyChange, setItem. cbn [items].
  rewrite lookup_insert_eq. reflexivity.
Qed.

(** [addUser] appends: no check is made on the id of the new record. *)
Lemma addUser_appends (u : User.t) (s : Storage) (users : list value) (ids : list string) :
  getAllUsers s = Arr users ->
  map (fun v => prop v "id") users = map (fun i => Some (Str i)) ids ->
  exists s' users',
    addUser u s = Some s'
    /\ getAllUsers s' = Arr users'
    /\ map (fun v => prop v "id") users'
       = map (fun i => Some (Str i)) (ids ++ [User.id u]).
Proof.
  intros Hget Hids. unfold addUser. rewrite Hget. cbn [as_array mbind option_bind].
  eexists. eexists. split; [reflexivity |]. split.
  - rewrite getAllUsers_saveAllUsers, normalise_Arr. reflexivity.
  - unfold push. rewrite !map_app, map_map. cbn [map].
    rewrite id_of_User. f_equal.
    rewrite <- Hids. apply map_ext_in. intros v Hv.
    rewrite prop_normalise.
    assert (Hstr : exists i, prop v "id" = Some (Str i)).
    { apply (in_map (fun v => prop v "id")) in Hv. rewrite Hids in Hv.
      apply in_map_iff in Hv. destruct Hv as [i [Hi _]]. eauto. }
    destruct Hstr as [i ->]. reflexivity.
Qed.

Lemma addUsers_appends (us : list User.t) :
  forall (s : Storage) (users : list value) (ids : list string),
    getAllUsers s = Arr users ->
    map (fun v => prop v "id") users = map (fun i => Some (Str i)) ids ->
    exists s' users',
      addUsers us s = Some s'
      /\ getAllUsers s' = Arr users'
      /\ map (fun v => prop v "id") users'
         = map (fun i => Some (Str i)) (ids ++ map User.id us).
Proof.
  unfold addUsers.
  induction us as [| u us IH]; intros s users ids Hget Hids.
  - exists s, users. rewrite app_nil_r. auto.
  - destruct (addUser_appends u s users ids Hget Hids) as (s1 & users1 & Hadd & Hget1 & Hids1).
    destruct (IH s1 users1 (ids ++ [User.id u]) Hget1 Hids1) as (s' & users' & Hs' & Hget' & Hids').
    exists s', users'. cbn [fold_left mbind option_bind]. rewrite Hadd.
    split; [exact Hs' |]. split; [exact Hget' |].
    rewrite Hids', <- app_assoc. reflexivity.
Qed.

Lemma NoDup_Some_Str (ids : list string) :
  List.NoDup (map (fun i => Some (Str i)) ids) <-> List.NoDup ids.
Proof.
  split.
  - apply NoDup_map_inv.
  - apply Finite.Injective_map_NoDup. intros a b H. now injection H.
Qed.

(** C9, as the code has it. The store makes no check on ids: starting from
    a store without a users list, after the calls [addUser(u)] for the users
    of any list the global users list holds exactly the ids given, in call
    order, repetitions included; these ids are pairwise distinct if and only
    if the ids passed by the callers were. *)
Theorem C9_addUser_keeps_every_id (us : list User.t) (s : Storage) :
  items s !! USERS_KEY = None ->
  exists s',
    addUsers us s = Some s'
    /\ stored_ids s' = map (fun u => Some (Str (User.id u))) us
    /\ (List.NoDup (stored_ids s') <-> List.NoDup (map User.id us)).
Proof.
  intros Hnone.
  destruct (addUsers_appends us s [] []) as (s' & users' & Hs' & Hget' & Hids').
  - unfold getAllUsers. now rewrite Hnone.
  - reflexivity.
  - exists s'. split; [exact Hs' |].
    assert (Hstored : stored_ids s' = map (fun u => Some (Str (User.id u))) us).
    { unfold stored_ids. rewrite Hget', Hids'. cbn [app]. now rewrite map_map. }
    split; [exact Hstored |].
    rewrite Hstored, <- (map_map User.id (fun i => Some (Str i))).
    apply NoDup_Some_Str.
Qed.

Lemma C9_witness :
  exists s',
    addUsers [sample_user "user_1" "a@example.com" None;
              sample_user "user_2" "b@example.com" None] (sample_store None)
    = Some s'
    /\ stored_ids s' = [Some (Str "user_1"); Some (Str "user_2")].
Proof.
  destruct (C9_addUser_keeps_every_id
              [sample_user "user_1" "a@example.com" None;
               sample_user "user_2" "b@example.com" None] (sample_store None))
    as (s' & Hs' & Hids & _); [reflexivity |].
  exists s'. split; [exact Hs' | exact Hids].
Defined.

(** C9, as stated, fails: two calls of [addUser] with records that carry the
    same id leave both records in the users list. *)
Lemma C9_counterexample :
  exists s',
    addUsers [sample_user "user_1" "a@example.com" None;
              sample_user "user_1" "b@example.com" None] (sample_store None)
    = Some s'
    /\ stored_ids s' = [Some (Str "user_1"); Some (Str "user_1")]
    /\ ~ List.NoDup (stored_ids s').
Proof.
  eexists. split; [vm_compute; reflexivity |]. split; [vm_compute; reflexivity |].
  intros H. vm_compute in H. inversion H as [| x l Hnotin _]; subst.
  apply Hnotin. left. reflexivity.
Qed.

(** *** Sign-in *)

Lemma email_of_User (u : User.t) :
  prop (normalise (of_User u)) "email" = Some (Str (User.email u)).
Proof. reflexivity. Qed.

Lemma find_by_email_first (before after : list User.t) (u : User.t) :
  Forall (fun v => User.email v <> User.email u) before ->
  find_by "email" (User.email u)
          (map (fun u => normalise (of_User u)) (before ++ u :: after))
  = Some (Some (normalise (of_User u))).
Proof.
  induction 1 as [| v before Hv _ IH].
  - cbn [app map find_by]. rewrite email_of_User.
    unfold str_eqb. rewrite String.eqb_refl. reflexivity.
  - cbn [app map find_by]. rewrite email_of_User.
    unfold str_eqb. apply String.eqb_neq in Hv. rewrite Hv. exact IH.
Qed.

Lemma passwordAccepted_no_password (u : User.t) (password : string) :
  no_password u -> passwordAccepted (normalise (of_User u)) password = true.
Proof.
  destruct u as [id email fullName pw demographic goals createdAt].
  unfold no_password. cbn [User.password].
  intros [-> | ->]; destruct demographic, goals; reflexivity.
Qed.

(** C10, as the code has it. Let the users list hold the records [us] and
    let [u] be the first of them with its email, with a password field that
    is absent or empty and a non-empty id. Then sign-in with the email of
    [u] succeeds for every entered password, and the id of [u] becomes the
    active user id. *)
Theorem C10_sign_in_without_password
        (s : Storage) (us : list User.t) (u : User.t) (password : string) :
  users_stored us s ->
  first_with_email us u ->
  no_password u ->
  User.id u <> ""%string ->
  exists s',
    handleSignIn (User.email u) password s = Some (s', WelcomeBack)
    /\ getActiveUserId s' = Some (User.id u).
Proof.
  intros Hstored (before & after & -> & Hfirst) Hpw Hid.
  unfold handleSignIn, getUserByEmail. rewrite Hstored.
  cbn [as_array mbind option_bind]. rewrite (find_by_email_first _ _ _ Hfirst).
  cbn [mbind option_bind]. rewrite (passwordAccepted_no_password _ _ Hpw).
  assert (Hidof : id_of (normalise (of_User u)) = Some (User.id u)) by reflexivity.
  rewrite Hidof. eexists. split; [reflexivity |].
  unfold getActiveUserId, setActiveUser, notifyChange.
  apply truthy_str_true in Hid. rewrite Hid. reflexivity.
Qed.

Lemma C10_witness :
  exists s',
    handleSignIn "a@example.com" "anything"
      {| session := None;
         items := {[ USERS_KEY :=
                       stringify (Arr [of_User (sample_user "user_1" "a@example.com" None)]) ]} |}
    = Some (s', WelcomeBack)
    /\ getActiveUserId s' = Some "user_1"%string.
Proof.
  apply (C10_sign_in_without_password _
           [sample_user "user_1" "a@example.com" None]
           (sample_user "user_1" "a@example.com" None) "anything").
  - reflexivity.
  - exists [], []. split; [reflexivity | constructor].
  - left. reflexivity.
  - discriminate.
Defined.

(** C10, as stated, fails when an earlier record has the same email: the
    second record below has no password, yet sign-in with its email and the
    password ["guess"] is refused, because the first record is the one
    matched and its password differs. It also fails for a record whose id is
    the empty string: sign-in is accepted, but [setActiveUser("")] clears
    the session, so no user is active afterwards. *)
Lemma C10_counterexample :
  (exists s,
      addUsers [sample_user "user_1" "a@example.com" (Some "secret"%string);
                sample_user "user_2" "a@example.com" None] (sample_store None)
      = Some s
      /\ no_password (sample_user "user_2" "a@example.com" None)
      /\ handleSignIn "a@example.com" "guess" s = Some (s, SignInFailed)
      /\ getActiveUserId s = None)
  /\ (exists s s',
         addUsers [sample_user "" "c@example.com" None] (sample_store None) = Some s
         /\ handleSignIn "c@example.com" "guess" s = Some (s', WelcomeBack)
         /\ getActiveUserId s' = None).
Proof.
  split.
  - eexists. split; [vm_compute; reflexivity |].
    split; [left; reflexivity |].
    split; vm_compute; reflexivity.
  - eexists. eexists. split; [vm_compute; reflexivity |].
    split; vm_compute; reflexivity.
Qed.
(** *** The advice dispatcher *)

Lemma append_nonempty_l (a b : string) : a <> ""%string -> (a ++ b)%string <> ""%string.
Proof. destruct a; [contradiction | discriminate]. Qed.

Lemma append_nonempty_r (a b : string) : b <> ""%string -> (a ++ b)%string <> ""%string.
Proof. destruct a; [auto | discriminate]. Qed.

(** A text built by concatenation is not empty as soon as one literal piece
    of it is not. *)
Ltac nonempty :=
  first [ discriminate
        | apply append_nonempty_l; nonempty
        | apply append_nonempty_r; nonempty ].

Ltac split_ifs :=
  repeat match goal with
         | |- context [if ?c then _ else _] => destruct c
         end.

Lemma append_cons (c : ascii) (a b : string) :
  (String c a ++ b)%string = String c (a ++ b)%string.
Proof. reflexivity. Qed.

Lemma append_nil (b : string) : (""%string ++ b)%string = b.
Proof. reflexivity. Qed.

(** [includes] is the substring test. *)
Lemma startsWith_spec (s p : string) :
  startsWith s p = true <-> exists rest, s = (p ++ rest)%string.
Proof.
  unfold startsWith. revert s.
  induction p as [| c p IH]; intros s.
  - split; [intros _; exists s; reflexivity | destruct s; reflexivity].
  - destruct s as [| c' s]; cbn [String.prefix].
    + split; [discriminate | intros [rest H]; rewrite append_cons in H; discriminate].
    + destruct (Ascii.ascii_dec c c') as [-> | Hc].
      * rewrite IH. split; intros [rest H]; exists rest;
          rewrite append_cons in *; congruence.
      * split; [discriminate | intros [rest H]; rewrite append_cons in H; congruence].
Qed.

Lemma append_assoc (a b c : string) : ((a ++ b) ++ c = a ++ (b ++ c))%string.
Proof.
  induction a as [| ch a IH]; [reflexivity |].
  rewrite !append_cons. congruence.
Qed.

Lemma includes_spec (s sub : string) :
  includes s sub = true <-> exists a b, s = (a ++ sub ++ b)%string.
Proof.
  split.
  - induction s as [| c s IH]; cbn [includes]; rewrite orb_true_iff.
    + intros [H | H]; [| discriminate].
      apply startsWith_spec in H. destruct H as [rest H]. exists ""%string, rest. exact H.
    + intros [H | H].
      * apply startsWith_spec in H. destruct H as [rest H]. exists ""%string, rest. exact H.
      * destruct (IH H) as (a & b & ->). exists (String c a), b. reflexivity.
  - intros (a & b & ->). induction a as [| c a IH].
    + rewrite append_nil.
      assert (H : startsWith (sub ++ b) sub = true) by (apply startsWith_spec; eauto).
      destruct (sub ++ b)%string; cbn [includes]; rewrite H; reflexivity.
    + rewrite append_cons. cbn [includes]. rewrite IH. apply orb_true_r.
Qed.







(** *** Term matching *)

(** [find] returns the first element that satisfies the test. *)
Lemma find_first {A} (p : A -> bool) (l : list A) :
  forall i x,
    nth_error l i = Some x ->
    p x = true ->
    (forall j y, (j < i)%nat -> nth_error l j = Some y -> p y = false) ->
    List.find p l = Some x.
Proof.
  induction l as [| a l IH]; intros i x Hnth Hp Hbefore.
  - destruct i; discriminate.
  - destruct i as [| i]; cbn [nth_error List.find] in *.
    + injection Hnth as ->. now rewrite Hp.
    + rewrite (Hbefore O a) by (reflexivity || lia).
      apply (IH i); [assumption | assumption |].
      intros j y Hj Hy. apply (Hbefore (S j)); [lia | exact Hy].
Qed.

(** The knowledge base is enumerated in the order in which it is written:
    its keys are pairwise distinct and none of them is an array index. *)
Lemma financialTerms_declared_order host complexity :
  entries (AIService.financialTerms host complexity)
  = AIService.financialTerms host complexity
  /\ distinct_keys (map fst (AIService.financialTerms host complexity)) = true.
Proof. split; reflexivity. Qed.

(** C5. Term matching is first match in declared order:
    [answerFinancialQuestion] returns the output of the handler of the first
    entry of [financialTerms] whose key occurs in the message it is given
    (the lowercased, trimmed user message), where [includes] is the
    substring test; and for the user message "I want to open a mutual fund"
    the response of the dispatcher is the mutual-fund explanation. *)
Theorem C5_first_match_in_declared_order :
  (forall host userMessage message user fd tone complexity fullContext i term handler,
      nth_error (AIService.financialTerms host complexity) i = Some (term, handler) ->
      includes message term = true ->
      (forall j term' handler',
          (j < i)%nat ->
          nth_error (AIService.financialTerms host complexity) j = Some (term', handler') ->
          includes message term' = false) ->
      AIService.answerFinancialQuestion host userMessage message user fd
                                        tone complexity fullContext
      = handler tone complexity user fd)
  /\ (forall s sub, includes s sub = true <-> exists a b, s = (a ++ sub ++ b)%string)
  /\ (forall host ctx history,
         AIResponse.content
           (AIService.generateResponse host ctx "I want to open a mutual fund" history)
         = AIService.explainMutualFund (fst (getDemographicTone (user ctx)))
                                       (snd (getDemographicTone (user ctx)))).
Proof.
  split; [| split].
  - intros host userMessage message user fd tone complexity fullContext i term handler
           Hnth Hin Hbefore.
    unfold AIService.answerFinancialQuestion. cbv zeta.
    rewrite (proj1 (financialTerms_declared_order host complexity)).
    rewrite (find_first _ _ i (term, handler) Hnth Hin); [reflexivity |].
    intros j [term' handler'] Hj Hy. exact (Hbefore j term' handler' Hj Hy).
  - exact includes_spec.
  - intros host ctx history. unfold AIService.generateResponse.
    destruct (getDemographicTone (user ctx)) as [tone complexity].
    cbn [fst snd]. destruct tone, complexity; vm_compute; reflexivity.
Qed.

Lemma C5_witness :
  AIService.answerFinancialQuestion sample_host "I want to open a mutual fund"
    "i want to open a mutual fund" None (sample_data 2000 500) friendly moderate ""
  = AIService.explainMutualFund friendly moderate.
Proof.
  destruct C5_first_match_in_declared_order as [Hfirst _].
  apply (Hfirst sample_host "I want to open a mutual fund"%string
                "i want to open a mutual fund"%string None (sample_data 2000 500)
                friendly moderate ""%string 2%nat "mutual fund"%string
                (fun t _ _ _ => AIService.explainMutualFund t moderate)).
  - reflexivity.
  - reflexivity.
  - intros j term' handler' Hj Hnth.
    destruct j as [| [| j]]; [| | lia];
      cbn in Hnth; injection Hnth as <- _; reflexivity.
Defined.

(** *** The remote assistant adapter *)





(** *** Values written twice *)

Lemma value_ind_nested (P : value -> Prop) :
  P Null -> (forall b, P (Bool b)) -> (forall x, P (Num x)) -> (forall s, P (Str s)) ->
  (forall l, Forall P l -> P (Arr l)) ->
  (forall props, Forall (fun kv => P (snd kv)) props -> P (Obj props)) ->
  forall v, P v.
Proof.
  intros HNull HBool HNum HStr HArr HObj.
  fix IH 1. intros [| b | x | s | l | props].
  - exact HNull.
  - apply HBool.
  - apply HNum.
  - apply HStr.
  - apply HArr. induction l as [| v l IHl]; constructor; [apply IH | exact IHl].
  - apply HObj. induction props as [| [k v] props IHp]; constructor;
      [apply IH | exact IHp].
Qed.

Lemma normalise_Num (x : number) :
  normalise (Num x)
  = if is_finite x then (if is_zero x then Num 0%float else Num x) else Null.
Proof. reflexivity. Qed.

(** Writing a value that was read back writes the same text. *)
Lemma normalise_idempotent (v : value) : normalise (normalise v) = normalise v.
Proof.
  induction v as [| b | x | s | l IH | props IH] using value_ind_nested;
    try reflexivity.
  - rewrite normalise_Num.
    destruct (is_finite x) eqn:Hfin; [| reflexivity].
    destruct (is_zero x) eqn:Hzero; [reflexivity |].
    rewrite normalise_Num, Hfin, Hzero. reflexivity.
  - rewrite !normalise_Arr, map_map. f_equal.
    induction IH as [| v l Hv _ IHl]; [reflexivity |].
    cbn [map]. now rewrite Hv, IHl.
  - rewrite !normalise_Obj, map_map. f_equal.
    induction IH as [| [k v] props Hv _ IHp]; [reflexivity |].
    cbn [map fst snd] in *. now rewrite Hv, IHp.
Qed.

(** *** Sign-up, sign-in and sign-out together *)

Lemma newUserId_nonempty (now rand : string) : newUserId now rand <> ""%string.
Proof. unfold newUserId. rewrite !append_cons. discriminate. Qed.

Lemma suffixed_not_users_key (base userId : string) :
  data_key base -> suffixed base userId <> USERS_KEY.
Proof.
  unfold data_key, suffixed.
  intros [-> | [-> | ->]] H; cbn in H; discriminate H.
Qed.

Lemma length_append (a b : string) :
  String.length (a ++ b) = String.length a + String.length b.
Proof.
  induction a as [| c a IH]; [reflexivity |].
  rewrite append_cons. cbn [String.length]. now rewrite IH.
Qed.

Lemma suffixed_not_base (base userId : string) : suffixed base userId <> base.
Proof.
  unfold suffixed. intros H.
  apply (f_equal String.length) in H.
  rewrite !length_append in H. cbn [String.length] in H. lia.
Qed.

Lemma addUser_stored (us : list User.t) (u : User.t) (s : Storage) :
  users_stored us s ->
  exists s',
    addUser u s = Some s'
    /\ users_stored (us ++ [u]) s'
    /\ session s' = session s
    /\ forall k, k <> USERS_KEY -> items s' !! k = items s !! k.
Proof.
  unfold users_stored. intros Hstored.
  unfold addUser. rewrite Hstored. cbn [as_array mbind option_bind].
  eexists. split; [reflexivity |]. split; [| split].
  - rewrite getAllUsers_saveAllUsers, normalise_Arr. unfold push.
    rewrite !map_app, map_map. cbn [map]. f_equal. f_equal.
    apply map_ext. intros v. apply normalise_idempotent.
  - reflexivity.
  - intros k Hk. unfold saveAllUsers, notifyChange, setItem. cbn [items].
    now rewrite lookup_insert_ne.
Qed.

(** What [handleSignUp] leaves in the store. *)
Lemma handleSignUp_stored now rand iso email fullName password kind us s :
  users_stored us s ->
  snd (handleSignUp now rand iso email fullName password kind s) = AccountCreated
  /\ users_stored (us ++ [newUser now rand iso email fullName password kind])
                  (fst (handleSignUp now rand iso email fullName password kind s))
  /\ session (fst (handleSignUp now rand iso email fullName password kind s))
     = Some (newUserId now rand)
  /\ items (fst (handleSignUp now rand iso email fullName password kind s))
       !! suffixed FINANCIAL_DATA_KEY (newUserId now rand)
     = Some (stringify (of_FinancialData emptyFinancialData)).
Proof.
  intros Hstored.
  destruct (addUser_stored us (newUser now rand iso email fullName password kind) s Hstored)
    as (s1 & Hadd & Hstored1 & _ & _).
  unfold handleSignUp. rewrite Hadd. cbn [fst snd].
  assert (Htruthy : truthy_str (newUserId now rand) = true)
    by (apply truthy_str_true, newUserId_nonempty).
  assert (Hkey : getUserScopedKey FINANCIAL_DATA_KEY (setActiveUser (Some (newUserId now rand)) s1)
                 = suffixed FINANCIAL_DATA_KEY (newUserId now rand)).
  { apply getUserScopedKey_active; [| apply newUserId_nonempty].
    unfold setActiveUser, notifyChange. now rewrite Htruthy. }
  unfold saveFinancialData. rewrite Hkey.
  unfold setActiveUser, notifyChange, setItem. rewrite Htruthy. cbn [session items].
  split; [reflexivity |]. split; [| split].
  - unfold users_stored, getAllUsers in *. cbn [items].
    rewrite lookup_insert_ne by (apply suffixed_not_users_key; left; reflexivity).
    exact Hstored1.
  - reflexivity.
  - now rewrite lookup_insert_eq.
Qed.

Lemma find_by_email_none (us : list User.t) (email : string) :
  Forall (fun v => User.email v <> email) us ->
  find_by "email" email (map (fun u => normalise (of_User u)) us) = Some None.
Proof.
  induction 1 as [| v us Hv _ IH]; [reflexivity |].
  cbn [map find_by]. rewrite email_of_User.
  unfold str_eqb. apply String.eqb_neq in Hv. rewrite Hv. exact IH.
Qed.

Lemma find_by_id_none (us : list User.t) (id : string) :
  Forall (fun v => User.id v <> id) us ->
  find_by "id" id (map (fun u => normalise (of_User u)) us) = Some None.
Proof.
  induction 1 as [| v us Hv _ IH]; [reflexivity |].
  cbn [map find_by]. rewrite id_of_User.
  unfold str_eqb. apply String.eqb_neq in Hv. rewrite Hv. exact IH.
Qed.

Lemma find_by_id_first (before after : list User.t) (u : User.t) :
  Forall (fun v => User.id v <> User.id u) before ->
  find_by "id" (User.id u)
          (map (fun u => normalise (of_User u)) (before ++ u :: after))
  = Some (Some (normalise (of_User u))).
Proof.
  induction 1 as [| v before Hv _ IH].
  - cbn [app map find_by]. rewrite id_of_User.
    unfold str_eqb. rewrite String.eqb_refl. reflexivity.
  - cbn [app map find_by]. rewrite id_of_User.
    unfold str_eqb. apply String.eqb_neq in Hv. rewrite Hv. exact IH.
Qed.

Lemma users_stored_session (us : list User.t) (o : option string) (s : Storage) :
  users_stored us s -> users_stored us (setActiveUser o s).
Proof.
  unfold users_stored, getAllUsers, setActiveUser, notifyChange.
  destruct o as [i |]; [destruct (truthy_str i) |]; cbn [items]; auto.
Qed.

(** X1. An account created by [handleSignUp] with an email that no stored
    user has can be opened again: after signing out, [handleSignIn] with
    the same email and password welcomes the user back and makes the id
    chosen at sign-up the active user id. *)
Theorem X1_sign_up_then_sign_in
        now rand iso email fullName password kind (us : list User.t) (s : Storage) :
  users_stored us s ->
  Forall (fun v => User.email v <> email) us ->
  exists s',
    handleSignIn email password
      (Dashboard.handleSignOut
         (fst (handleSignUp now rand iso email fullName password kind s)))
    = Some (s', WelcomeBack)
    /\ getActiveUserId s' = Some (newUserId now rand).
Proof.
  intros Hstored Hfresh.
  destruct (handleSignUp_stored now rand iso email fullName password kind us s Hstored)
    as (_ & Hstored' & _ & _).
  apply (users_stored_session _ None) in Hstored'.
  unfold Dashboard.handleSignOut, handleSignIn, getUserByEmail.
  rewrite Hstored'. cbn [as_array mbind option_bind].
  pose proof (find_by_email_first us [] (newUser now rand iso email fullName password kind)
                                   Hfresh) as Hfind.
  change (User.email (newUser now rand iso email fullName password kind))
    with email in Hfind.
  rewrite Hfind.
  cbn [mbind option_bind].
  assert (Hpw : passwordAccepted
                  (normalise (of_User (newUser now rand iso email fullName password kind)))
                  password = true).
  { unfold passwordAccepted. cbn. unfold str_eqb.
    rewrite String.eqb_refl. apply orb_true_r. }
  rewrite Hpw.
  assert (Hidof : id_of (normalise (of_User (newUser now rand iso email fullName password kind)))
                  = Some (newUserId now rand)) by reflexivity.
  rewrite Hidof. eexists. split; [reflexivity |].
  unfold getActiveUserId, setActiveUser at 1, notifyChange.
  assert (Htruthy : truthy_str (newUserId now rand) = true)
    by (apply truthy_str_true, newUserId_nonempty).
  now rewrite Htruthy.
Qed.

Lemma X1_witness :
  exists s',
    handleSignIn "a@example.com" "secret"
      (Dashboard.handleSignOut
         (fst (handleSignUp "1700000000000" "k3j9x0q2z" "2023-11-14T22:13:20.000Z"
                            "a@example.com" "Ann Lee" "secret" Demographic.student
                            (sample_store None))))
    = Some (s', WelcomeBack)
    /\ getActiveUserId s' = Some (newUserId "1700000000000" "k3j9x0q2z").
Proof.
  apply (X1_sign_up_then_sign_in _ _ _ _ _ _ _ []); [reflexivity | constructor].
Defined.

Lemma passwordAccepted_other_password (u : User.t) (stored password : string) :
  User.password u = Some stored -> stored <> ""%string -> stored <> password ->
  passwordAccepted (normalise (of_User u)) password = false.
Proof.
  destruct u as [id email fullName pw demographic goals createdAt].
  cbn [User.password]. intros -> Hne Hdiff.
  apply truthy_str_true in Hne. apply String.eqb_neq in Hdiff.
  unfold passwordAccepted. cbn. unfold str_eqb at 1. rewrite Hne, Hdiff. reflexivity.
Qed.

(** X2. [handleSignUp] does not look for the email among the stored users.
    When the first stored record with this email carries another, non-empty
    password, the account is still created, but signing in with the email
    and the password just chosen is refused: the lookup by email stops at
    the earlier record. *)
Theorem X2_sign_up_with_taken_email
        now rand iso fullName password kind
        (us : list User.t) (u : User.t) (stored : string) (s : Storage) :
  users_stored us s ->
  first_with_email us u ->
  User.password u = Some stored -> stored <> ""%string -> stored <> password ->
  snd (handleSignUp now rand iso (User.email u) fullName password kind s)
  = AccountCreated
  /\ handleSignIn (User.email u) password
       (Dashboard.handleSignOut
          (fst (handleSignUp now rand iso (User.email u) fullName password kind s)))
     = Some (Dashboard.handleSignOut
               (fst (handleSignUp now rand iso (User.email u) fullName password kind s)),
             SignInFailed).
Proof.
  intros Hstored (before & after & -> & Hfirst) Hpw Hne Hdiff.
  destruct (handleSignUp_stored now rand iso (User.email u) fullName password kind _ s Hstored)
    as (Htoast & Hstored' & _ & _).
  split; [exact Htoast |].
  apply (users_stored_session _ None) in Hstored'.
  unfold Dashboard.handleSignOut, handleSignIn, getUserByEmail.
  rewrite Hstored'. cbn [as_array mbind option_bind].
  rewrite <- app_assoc. cbn [app].
  rewrite (find_by_email_first _ _ _ Hfirst). cbn [mbind option_bind].
  rewrite (passwordAccepted_other_password u stored password Hpw Hne Hdiff).
  reflexivity.
Qed.

Lemma X2_witness :
  handleSignIn "a@example.com" "mine"
    (Dashboard.handleSignOut
       (fst (handleSignUp "1700000000000" "k3j9x0q2z" "2023-11-14T22:13:20.000Z"
               "a@example.com" "Ann Lee" "mine" Demographic.student
               {| session := None;
                  items := {[ USERS_KEY :=
                    stringify (Arr [of_User (sample_user "user_1" "a@example.com"
                                                         (Some "theirs"%string))]) ]} |})))
  = Some (Dashboard.handleSignOut
       (fst (handleSignUp "1700000000000" "k3j9x0q2z" "2023-11-14T22:13:20.000Z"
               "a@example.com" "Ann Lee" "mine" Demographic.student
               {| session := None;
                  items := {[ USERS_KEY :=
                    stringify (Arr [of_User (sample_user "user_1" "a@example.com"
                                                         (Some "theirs"%string))]) ]} |})),
          SignInFailed).
Proof.
  apply (X2_sign_up_with_taken_email
           "1700000000000" "k3j9x0q2z" "2023-11-14T22:13:20.000Z" "Ann Lee" "mine"
           Demographic.student
           [sample_user "user_1" "a@example.com" (Some "theirs"%string)]
           (sample_user "user_1" "a@example.com" (Some "theirs"%string))
           "theirs").
  - reflexivity.
  - exists [], []. split; [reflexivity | constructor].
  - reflexivity.
  - discriminate.
  - discriminate.
Defined.

(** X3. After [handleSignUp] on a store whose users list holds records
    with other ids, a session is open, [getCurrentUser] returns the record
    just created, and the financial data read for the new user is the
    all-zero record written at sign-up, not the default sample data. *)
Theorem X3_sign_up_state
        now rand iso email fullName password kind (us : list User.t) (s : Storage) :
  users_stored us s ->
  Forall (fun v => User.id v <> newUserId now rand) us ->
  hasSession (fst (handleSignUp now rand iso email fullName password kind s)) = true
  /\ getCurrentUser (fst (handleSignUp now rand iso email fullName password kind s))
     = Some (Some (normalise (of_User (newUser now rand iso email fullName password kind))))
  /\ to_FinancialData
       (getFinancialData (fst (handleSignUp now rand iso email fullName password kind s)))
     = Some emptyFinancialData.
Proof.
  intros Hstored Hfresh.
  destruct (handleSignUp_stored now rand iso email fullName password kind us s Hstored)
    as (_ & Hstored' & Hsession & Hdata).
  assert (Htruthy : truthy_str (newUserId now rand) = true)
    by (apply truthy_str_true, newUserId_nonempty).
  split; [| split].
  - unfold hasSession, getActiveUserId. now rewrite Hsession.
  - unfold getCurrentUser, getActiveUserId. rewrite Hsession, Htruthy.
    cbn [negb]. rewrite Hstored'. cbn [as_array mbind option_bind].
    exact (find_by_id_first us [] (newUser now rand iso email fullName password kind) Hfresh).
  - unfold getFinancialData.
    rewrite (getUserScopedKey_active _ _ _ Hsession (newUserId_nonempty now rand)).
    cbv zeta. rewrite Hdata. reflexivity.
Qed.

Lemma X3_witness :
  to_FinancialData
    (getFinancialData
       (fst (handleSignUp "1700000000000" "k3j9x0q2z" "2023-11-14T22:13:20.000Z"
                          "a@example.com" "Ann Lee" "secret" Demographic.student
                          (sample_store None))))
  = Some emptyFinancialData.
Proof.
  apply (X3_sign_up_state "1700000000000" "k3j9x0q2z" "2023-11-14T22:13:20.000Z"
           "a@example.com" "Ann Lee" "secret" Demographic.student [] (sample_store None));
    [reflexivity | constructor].
Defined.

(** X4. Financial data saved while nobody is signed in goes under the
    unsuffixed key: it is what is read back while nobody is signed in, and
    no user who signs in afterwards sees it, whoever was signed in before
    [handleSignOut]. *)
Theorem X4_signed_out_writes_are_unscoped
        (d : FinancialData.t) (s : Storage) (A : string) :
  A <> ""%string ->
  getFinancialData (saveFinancialData d (Dashboard.handleSignOut s))
  = normalise (of_FinancialData d)
  /\ getFinancialData
       (setActiveUser (Some A) (saveFinancialData d (Dashboard.handleSignOut s)))
     = getFinancialData (setActiveUser (Some A) s)
  /\ getSavingsGoals
       (setActiveUser (Some A) (saveFinancialData d (Dashboard.handleSignOut s)))
     = getSavingsGoals (setActiveUser (Some A) s).
Proof.
  intros HA. split.
  - apply getFinancialData_saveFinancialData.
  - assert (Hsame : forall base, data_key base ->
              items (saveFinancialData d (Dashboard.handleSignOut s)) !! suffixed base A
              = items s !! suffixed base A).
    { intros base Hbase.
      unfold saveFinancialData, Dashboard.handleSignOut, setActiveUser, notifyChange,
        getUserScopedKey, getActiveUserId, setItem.
      cbn [session items]. apply lookup_insert_ne.
      destruct Hbase as [-> | [-> | ->]].
      - intros H. symmetry in H. exact (suffixed_not_base _ _ H).
      - unfold suffixed. intros H. cbn in H. discriminate H.
      - unfold suffixed. intros H. cbn in H. discriminate H. }
    destruct (reads_of_active s _ A HA Hsame) as (Hfd & Hgoals & _).
    split; assumption.
Qed.

Lemma X4_witness :
  getFinancialData
    (setActiveUser (Some "alice"%string)
       (saveFinancialData (sample_data 1 1)
          (Dashboard.handleSignOut (sample_store (Some "bob"%string)))))
  = getFinancialData (setActiveUser (Some "alice"%string) (sample_store (Some "bob"%string))).
Proof.
  apply (X4_signed_out_writes_are_unscoped (sample_data 1 1)
           (sample_store (Some "bob"%string)) "alice"%string).
  discriminate.
Defined.



(** *** Chat messages *)

Lemma getChatMessages_written (v : value) (s : Storage) :
  getChatMessages None
    (notifyChange (setItem (getUserScopedKey CHAT_MESSAGES_KEY s) (stringify v) s))
  = normalise v.
Proof.
  unfold getChatMessages, notifyChange, setItem, getUserScopedKey, getActiveUserId.
  cbn [session items]. rewrite lookup_insert_eq. reflexivity.
Qed.

Lemma getChatMessages_of_all (uid : string) (s : Storage) (l : list value) :
  uid <> ""%string ->
  getChatMessages None s = Arr l ->
  getChatMessages (Some uid) s
  = match filter_userId true uid (Arr l) with
    | Some kept => Arr kept
    | None => Arr []
    end.
Proof.
  intros Huid. apply truthy_str_true in Huid.
  unfold getChatMessages. rewrite Huid.
  destruct (items s !! getUserScopedKey CHAT_MESSAGES_KEY s) as [t |].
  - destruct (nonempty t).
    + destruct (parse t) as [v |]; intros H.
      * now rewrite H.
      * injection H as <-. reflexivity.
    + intros H. injection H as <-. reflexivity.
  - intros H. injection H as <-. reflexivity.
Qed.

Lemma userId_of_ChatMessage (m : ChatMessage.t) :
  prop (normalise (of_ChatMessage m)) "userId"
  = option_map Str (ChatMessage.userId m).
Proof. destruct m as [i r c t [u |]]; reflexivity. Qed.

Lemma of_ChatMessage_not_null (m : ChatMessage.t) :
  exists props, normalise (of_ChatMessage m) = Obj props.
Proof. unfold of_ChatMessage. rewrite normalise_Obj. eauto. Qed.

Lemma filter_userId_stored (keep : bool) (uid : string) (ms : list ChatMessage.t) :
  filter_userId keep uid (Arr (map (fun m => normalise (of_ChatMessage m)) ms))
  = Some (map (fun m => normalise (of_ChatMessage m))
              (List.filter (fun m => if keep then tagged uid m else negb (tagged uid m)) ms)).
Proof.
  unfold filter_userId. cbn [as_array mbind option_bind].
  assert (Hnull : existsb (fun m => match m with Null => true | _ => false end)
                          (map (fun m => normalise (of_ChatMessage m)) ms) = false).
  { induction ms as [| m ms IH]; [reflexivity |].
    cbn [map existsb]. destruct (of_ChatMessage_not_null m) as [props ->]. exact IH. }
  rewrite Hnull. clear Hnull. f_equal.
  induction ms as [| m ms IH]; [reflexivity |].
  cbn [map List.filter]. rewrite userId_of_ChatMessage, IH.
  unfold tagged. destruct (ChatMessage.userId m) as [y |]; cbn [option_map];
    destruct keep; try destruct (str_eqb y uid); cbv zeta; cbn [negb map].
  all: reflexivity.
Qed.

(** X6. [saveChatMessage] appends: when the chat entry of the active user
    holds an array, the call succeeds, the array read afterwards is the
    earlier one followed by the new message, and neither the session nor
    any other entry of the store has changed. *)
Theorem X6_saveChatMessage_appends
        (message : ChatMessage.t) (s : Storage) (l : list value) :
  getChatMessages None s = Arr l ->
  exists s',
    saveChatMessage message s = Some s'
    /\ getChatMessages None s'
       = Arr (map normalise l ++ [normalise (of_ChatMessage message)])
    /\ touches_only (getUserScopedKey CHAT_MESSAGES_KEY s) s s'.
Proof.
  intros Hget. unfold saveChatMessage. rewrite Hget.
  cbn [as_array mbind option_bind]. eexists. split; [reflexivity |]. split.
  - rewrite getChatMessages_written, normalise_Arr. unfold push.
    now rewrite map_app.
  - apply setItem_touches_only.
Qed.

Lemma X6_witness :
  exists s',
    saveChatMessage (sample_message "msg_1" None) (sample_store None) = Some s'
    /\ getChatMessages None s' = Arr [normalise (of_ChatMessage (sample_message "msg_1" None))].
Proof.
  destruct (X6_saveChatMessage_appends (sample_message "msg_1" None) (sample_store None) [])
    as (s' & Hsave & Hget & _); [reflexivity |].
  exists s'. split; [exact Hsave | exact Hget].
Defined.

(** X7. [getChatMessages(userId)] with a non-empty id returns exactly the
    stored messages that carry this id, in stored order: a message saved
    for another user of the same entry, or saved without an id, is never
    returned. *)
Theorem X7_getChatMessages_by_user
        (uid : string) (ms : list ChatMessage.t) (s : Storage) :
  uid <> ""%string ->
  messages_stored ms s ->
  getChatMessages (Some uid) s
  = Arr (map (fun m => normalise (of_ChatMessage m)) (List.filter (tagged uid) ms)).
Proof.
  intros Huid Hstored.
  rewrite (getChatMessages_of_all uid s _ Huid Hstored).
  now rewrite (filter_userId_stored true).
Qed.

Lemma X7_witness :
  getChatMessages (Some "u1"%string)
    {| session := None;
       items := {[ CHAT_MESSAGES_KEY :=
                     stringify (Arr [of_ChatMessage (sample_message "msg_1" (Some "u1"%string));
                                     of_ChatMessage (sample_message "msg_2" (Some "u2"%string));
                                     of_ChatMessage (sample_message "msg_3" None)]) ]} |}
  = Arr [normalise (of_ChatMessage (sample_message "msg_1" (Some "u1"%string)))].
Proof.
  apply (X7_getChatMessages_by_user "u1"
           [sample_message "msg_1" (Some "u1"%string);
            sample_message "msg_2" (Some "u2"%string);
            sample_message "msg_3" None]).
  - discriminate.
  - reflexivity.
Defined.

Lemma rest_without_userId (m : ChatMessage.t) :
  Obj (rest_without "userId" (normalise (of_ChatMessage m)))
  = normalise (of_ChatMessage (untagged m)).
Proof. destruct m as [i r c t [u |]]; reflexivity. Qed.

Lemma mapM_untag (ms : list ChatMessage.t) :
  mapM (fun m => if is_null m then None
                 else Some (Obj (rest_without "userId" m)))
       (map (fun m => normalise (of_ChatMessage m)) ms)
  = Some (map (fun m => normalise (of_ChatMessage (untagged m))) ms).
Proof.
  induction ms as [| m ms IH]; [reflexivity |].
  cbn [map mapM]. rewrite IH.
  destruct (of_ChatMessage_not_null m) as [props Hprops].
  rewrite <- rest_without_userId. rewrite Hprops. reflexivity.
Qed.

Lemma getChatMessages_tagged (uid : string) (ms : list ChatMessage.t) (s : Storage) :
  uid <> ""%string ->
  messages_stored ms s ->
  getChatMessages (Some uid) s
  = Arr (map (fun m => normalise (of_ChatMessage m)) (List.filter (tagged uid) ms)).
Proof.
  intros Huid Hstored.
  rewrite (getChatMessages_of_all uid s _ Huid Hstored).
  now rewrite (filter_userId_stored true).
Qed.

(** X8. [getChatHistory] returns the stored messages with the [userId]
    property taken off and every other property as stored: all of them in
    stored order when called without an id, those that carry the id when
    called with a non-empty one. *)
Theorem X8_getChatHistory_strips_userId
        (ms : list ChatMessage.t) (s : Storage) :
  messages_stored ms s ->
  getChatHistory None s
  = Some (map (fun m => normalise (of_ChatMessage (untagged m))) ms)
  /\ forall uid,
      uid <> ""%string ->
      getChatHistory (Some uid) s
      = Some (map (fun m => normalise (of_ChatMessage (untagged m)))
                  (List.filter (tagged uid) ms)).
Proof.
  intros Hstored. split.
  - unfold getChatHistory. rewrite Hstored. cbn [as_array mbind option_bind].
    apply mapM_untag.
  - intros uid Huid. unfold getChatHistory.
    rewrite (getChatMessages_tagged uid ms s Huid Hstored).
    cbn [as_array mbind option_bind]. apply mapM_untag.
Qed.

Lemma X8_witness :
  getChatHistory None
    {| session := None;
       items := {[ CHAT_MESSAGES_KEY :=
                     stringify (Arr [of_ChatMessage (sample_message "msg_1" (Some "u1"%string))]) ]} |}
  = Some [normalise (of_ChatMessage (sample_message "msg_1" None))].
Proof.
  apply (X8_getChatHistory_strips_userId [sample_message "msg_1" (Some "u1"%string)]).
  reflexivity.
Defined.

Lemma tagged_inj (uid other : string) (m : ChatMessage.t) :
  other <> uid -> tagged other m = true -> tagged uid m = false.
Proof.
  unfold tagged. destruct (ChatMessage.userId m) as [y |]; [| discriminate].
  unfold str_eqb. intros Hne Hy. apply String.eqb_eq in Hy. subst y.
  now apply String.eqb_neq.
Qed.

Lemma filter_tagged_cleared (uid : string) (ms : list ChatMessage.t) :
  List.filter (tagged uid) (List.filter (fun m => negb (tagged uid m)) ms) = [].
Proof.
  induction ms as [| m ms IH]; [reflexivity |].
  cbn [List.filter]. destruct (tagged uid m) eqn:Hm; cbn [negb List.filter];
    [exact IH | now rewrite Hm].
Qed.

Lemma filter_tagged_other (uid other : string) (ms : list ChatMessage.t) :
  other <> uid ->
  List.filter (tagged other) (List.filter (fun m => negb (tagged uid m)) ms)
  = List.filter (tagged other) ms.
Proof.
  intros Hne. induction ms as [| m ms IH]; [reflexivity |].
  cbn [List.filter]. destruct (tagged other m) eqn:Ho.
  - rewrite (tagged_inj uid other m Hne Ho). cbn [negb List.filter].
    now rewrite Ho, IH.
  - destruct (tagged uid m); cbn [negb List.filter]; [exact IH | now rewrite Ho].
Qed.

(** X9. [clearChatHistory(userId)] with a non-empty id rewrites the chat
    entry without the messages that carry this id and keeps all the others
    in order: afterwards nothing is returned for this id, and another id
    gets what it got before. *)
Theorem X9_clearChatHistory_of_one_user
        (uid : string) (ms : list ChatMessage.t) (s : Storage) :
  uid <> ""%string ->
  messages_stored ms s ->
  exists s',
    clearChatHistory (Some uid) s = Some s'
    /\ messages_stored (List.filter (fun m => negb (tagged uid m)) ms) s'
    /\ getChatMessages (Some uid) s' = Arr []
    /\ forall other,
        other <> ""%string -> other <> uid ->
        getChatMessages (Some other) s' = getChatMessages (Some other) s.
Proof.
  intros Huid Hstored.
  assert (Htruthy : truthy_str uid = true) by now apply truthy_str_true.
  unfold clearChatHistory. rewrite Htruthy, Hstored.
  rewrite (filter_userId_stored false). cbn [mbind option_bind].
  eexists. split; [reflexivity |].
  assert (Hstored' :
            messages_stored (List.filter (fun m => negb (tagged uid m)) ms)
              (notifyChange
                 (setItem (getUserScopedKey CHAT_MESSAGES_KEY s)
                    (stringify
                       (Arr (map (fun m => normalise (of_ChatMessage m))
                                 (List.filter (fun m => negb (tagged uid m)) ms)))) s))).
  { unfold messages_stored. rewrite getChatMessages_written, normalise_Arr, map_map.
    f_equal. apply map_ext. intros m. apply normalise_idempotent. }
  split; [exact Hstored' |]. split.
  - rewrite (getChatMessages_tagged uid _ _ Huid Hstored').
    now rewrite filter_tagged_cleared.
  - intros other Hother Hne.
    rewrite (getChatMessages_tagged other _ _ Hother Hstored').
    rewrite (getChatMessages_tagged other _ _ Hother Hstored).
    now rewrite filter_tagged_other.
Qed.

Lemma X9_witness :
  exists s',
    clearChatHistory (Some "u1"%string)
      {| session := None;
         items := {[ CHAT_MESSAGES_KEY :=
                       stringify (Arr [of_ChatMessage (sample_message "msg_1" (Some "u1"%string));
                                       of_ChatMessage (sample_message "msg_2" (Some "u2"%string))]) ]} |}
    = Some s'
    /\ getChatMessages (Some "u1"%string) s' = Arr [].
Proof.
  destruct (X9_clearChatHistory_of_one_user "u1"
              [sample_message "msg_1" (Some "u1"%string);
               sample_message "msg_2" (Some "u2"%string)]
              {| session := None;
                 items := {[ CHAT_MESSAGES_KEY :=
                       stringify (Arr [of_ChatMessage (sample_message "msg_1" (Some "u1"%string));
                                       of_ChatMessage (sample_message "msg_2" (Some "u2"%string))]) ]} |})
    as (s' & Hclear & _ & Hnone & _); [discriminate | reflexivity |].
  exists s'. split; [exact Hclear | exact Hnone].
Defined.

(** X10. [clearChatHistory()] without an id (or with the empty one)
    removes the chat entry of the active user: it never throws, whatever
    the entry held, and afterwards [getChatMessages] and [getChatHistory]
    return the empty list for every id. *)
Theorem X10_clearChatHistory_of_all (s : Storage) :
  clearChatHistory None s = clearChatHistory (Some ""%string) s
  /\ exists s',
      clearChatHistory None s = Some s'
      /\ touches_only (getUserScopedKey CHAT_MESSAGES_KEY s) s s'
      /\ forall userId,
          getChatMessages userId s' = Arr []
          /\ getChatHistory userId s' = Some [].
Proof.
  split; [reflexivity |].
  eexists. split; [reflexivity |]. split; [apply removeItem_touches_only |].
  intros userId.
  assert (Hget : getChatMessages userId
                   (notifyChange (removeItem (getUserScopedKey CHAT_MESSAGES_KEY s) s))
                 = Arr []).
  { unfold getChatMessages, notifyChange, removeItem, getUserScopedKey, getActiveUserId.
    cbn [session items]. now rewrite lookup_delete_eq. }
  split; [exact Hget |].
  unfold getChatHistory. rewrite Hget. reflexivity.
Qed.

(** *** Savings goals *)

Lemma getSavingsGoals_saveGoals (l : list value) (s : Storage) :
  getSavingsGoals (saveGoals l s) = Arr (map normalise l).
Proof.
  unfold getSavingsGoals, saveGoals, notifyChange, setItem, getUserScopedKey,
    getActiveUserId.
  cbn [session items]. rewrite lookup_insert_eq. cbn [nonempty stringify parse].
  apply normalise_Arr.
Qed.

Lemma saveGoals_touches_only (l : list value) (s : Storage) :
  touches_only (getUserScopedKey SAVINGS_GOALS_KEY s) s (saveGoals l s).
Proof. apply setItem_touches_only. Qed.

Lemma id_of_SavingsGoal (g : SavingsGoal.t) :
  prop (normalise (of_SavingsGoal g)) "id" = Some (Str (SavingsGoal.id g)).
Proof. reflexivity. Qed.

Lemma of_SavingsGoal_not_null (g : SavingsGoal.t) :
  is_null (normalise (of_SavingsGoal g)) = false.
Proof. reflexivity. Qed.

Lemma goals_not_null (gs : list SavingsGoal.t) :
  existsb is_null (map (fun g => normalise (of_SavingsGoal g)) gs) = false.
Proof.
  induction gs as [| g gs IH]; [reflexivity |].
  cbn [map existsb]. now rewrite of_SavingsGoal_not_null, IH.
Qed.

Lemma filter_other_id (id : string) (gs : list SavingsGoal.t) :
  List.filter (other_id id) (map (fun g => normalise (of_SavingsGoal g)) gs)
  = map (fun g => normalise (of_SavingsGoal g))
        (List.filter (fun g => negb (str_eqb (SavingsGoal.id g) id)) gs).
Proof.
  induction gs as [| g gs IH]; [reflexivity |].
  cbn [map List.filter]. unfold other_id at 1. rewrite id_of_SavingsGoal, IH.
  destruct (str_eqb (SavingsGoal.id g) id); reflexivity.
Qed.

Lemma goals_stored_saveGoals (gs : list SavingsGoal.t) (s : Storage) :
  goals_stored gs (saveGoals (map (fun g => normalise (of_SavingsGoal g)) gs) s).
Proof.
  unfold goals_stored. rewrite getSavingsGoals_saveGoals, map_map. f_equal.
  apply map_ext. intros g. apply normalise_idempotent.
Qed.

Lemma filter_fresh_id (id : string) (gs : list SavingsGoal.t) :
  Forall (fun g => SavingsGoal.id g <> id) gs ->
  List.filter (fun g => negb (str_eqb (SavingsGoal.id g) id)) gs = gs.
Proof.
  induction 1 as [| g gs Hg _ IH]; [reflexivity |].
  cbn [List.filter]. unfold str_eqb at 1. apply String.eqb_neq in Hg.
  rewrite Hg. cbn [negb]. now rewrite IH.
Qed.

(** X11. [deleteSavingsGoal(id)] removes every stored goal with this id
    and keeps the others in order; with an id that no goal has, the list
    read afterwards is the list read before. Only the goals entry of the
    active user is written. *)
Theorem X11_deleteSavingsGoal_removes_the_id
        (id : string) (gs : list SavingsGoal.t) (s : Storage) :
  goals_stored gs s ->
  exists s',
    deleteSavingsGoal id s = Some s'
    /\ goals_stored (List.filter (fun g => negb (str_eqb (SavingsGoal.id g) id)) gs) s'
    /\ touches_only (getUserScopedKey SAVINGS_GOALS_KEY s) s s'
    /\ (Forall (fun g => SavingsGoal.id g <> id) gs ->
        getSavingsGoals s' = getSavingsGoals s).
Proof.
  intros Hstored. unfold deleteSavingsGoal. rewrite Hstored.
  cbn [as_array mbind option_bind]. rewrite goals_not_null, filter_other_id.
  eexists. split; [reflexivity |]. split; [apply goals_stored_saveGoals |].
  split; [apply saveGoals_touches_only |].
  intros Hfresh. rewrite goals_stored_saveGoals.
  now rewrite (filter_fresh_id id gs Hfresh).
Qed.

Lemma X11_witness :
  exists s',
    deleteSavingsGoal "goal_1"
      {| session := None;
         items := {[ SAVINGS_GOALS_KEY :=
                       stringify (Arr [of_SavingsGoal (sample_goal "goal_1");
                                       of_SavingsGoal (sample_goal "goal_2");
                                       of_SavingsGoal (sample_goal "goal_1")]) ]} |}
    = Some s'
    /\ goals_stored [sample_goal "goal_2"] s'.
Proof.
  destruct (X11_deleteSavingsGoal_removes_the_id "goal_1"
              [sample_goal "goal_1"; sample_goal "goal_2"; sample_goal "goal_1"]
              {| session := None;
                 items := {[ SAVINGS_GOALS_KEY :=
                       stringify (Arr [of_SavingsGoal (sample_goal "goal_1");
                                       of_SavingsGoal (sample_goal "goal_2");
                                       of_SavingsGoal (sample_goal "goal_1")]) ]} |})
    as (s' & Hdel & Hstored & _); [reflexivity |].
  exists s'. split; [exact Hdel | exact Hstored].
Defined.

Lemma filter_other_id_fresh (id : string) (gs : list SavingsGoal.t) :
  Forall (fun g => SavingsGoal.id g <> id) gs ->
  List.filter (other_id id) (map (fun g => normalise (of_SavingsGoal g)) gs)
  = map (fun g => normalise (of_SavingsGoal g)) gs.
Proof.
  intros Hfresh. rewrite filter_other_id. f_equal.
  now apply filter_fresh_id.
Qed.

(** X12. [addSavingsGoal] appends the new goal, with the id
    [goal_<now>_<rand>], after the stored goals and returns it. When no
    stored goal has this id, [deleteSavingsGoal] of the id returned brings
    back the list of goals that was stored before the addition. *)
Theorem X12_addSavingsGoal_then_delete
        (now rand iso : string) (goal : NewGoal)
        (gs : list SavingsGoal.t) (s : Storage) :
  goals_stored gs s ->
  Forall (fun g => SavingsGoal.id g <> ("goal_" ++ now ++ "_" ++ rand)%string) gs ->
  exists s1 newGoal s2,
    addSavingsGoal now rand iso goal s = Some (s1, newGoal)
    /\ prop newGoal "id" = Some (Str ("goal_" ++ now ++ "_" ++ rand))
    /\ getSavingsGoals s1
       = Arr (map (fun g => normalise (of_SavingsGoal g)) gs ++ [normalise newGoal])
    /\ deleteSavingsGoal ("goal_" ++ now ++ "_" ++ rand) s1 = Some s2
    /\ goals_stored gs s2.
Proof.
  intros Hstored Hfresh. unfold addSavingsGoal. rewrite Hstored.
  cbn [as_array mbind option_bind]. eexists. eexists. eexists.
  split; [reflexivity |]. split; [reflexivity |].
  set (newGoal := Obj _).
  assert (Hget : getSavingsGoals
                   (saveGoals (push (map (fun g => normalise (of_SavingsGoal g)) gs) newGoal) s)
                 = Arr (map (fun g => normalise (of_SavingsGoal g)) gs ++ [normalise newGoal])).
  { rewrite getSavingsGoals_saveGoals. unfold push. rewrite map_app, map_map.
    cbn [map]. do 2 f_equal. apply map_ext. intros g. apply normalise_idempotent. }
  split; [exact Hget |].
  unfold deleteSavingsGoal. rewrite Hget. cbn [as_array mbind option_bind].
  rewrite existsb_app, goals_not_null. cbn [existsb]. 
  assert (Hnull : is_null (normalise newGoal) = false) by reflexivity.
  rewrite Hnull. cbn [orb]. rewrite List.filter_app, (filter_other_id_fresh _ _ Hfresh).
  assert (Hdrop : List.filter (other_id ("goal_" ++ now ++ "_" ++ rand)) [normalise newGoal] = []).
  { cbn [List.filter]. unfold other_id.
    assert (Hid : prop (normalise newGoal) "id" = Some (Str ("goal_" ++ now ++ "_" ++ rand)))
      by reflexivity.
    rewrite Hid. unfold str_eqb. now rewrite String.eqb_refl. }
  rewrite Hdrop, app_nil_r.
  split; [reflexivity |].
  unfold goals_stored.
  transitivity (getSavingsGoals (saveGoals (map (fun g => normalise (of_SavingsGoal g)) gs) s)).
  - unfold getSavingsGoals, saveGoals, notifyChange, setItem, getUserScopedKey, getActiveUserId.
    cbn [session items]. now rewrite !lookup_insert_eq.
  - apply goals_stored_saveGoals.
Qed.

Lemma X12_witness :
  exists s1 newGoal s2,
    addSavingsGoal "1700000000000" "k3j9x0q2z" "2023-11-14T22:13:20.000Z"
      {| name := "Laptop"; target_amount := 1200; current_amount := 0; deadline := None |}
      (sample_store None)
    = Some (s1, newGoal)
    /\ deleteSavingsGoal "goal_1700000000000_k3j9x0q2z" s1 = Some s2
    /\ goals_stored [] s2.
Proof.
  destruct (X12_addSavingsGoal_then_delete
              "1700000000000" "k3j9x0q2z" "2023-11-14T22:13:20.000Z"
              {| name := "Laptop"; target_amount := 1200; current_amount := 0;
                 deadline := None |} [] (sample_store None))
    as (s1 & newGoal & s2 & Hadd & _ & _ & Hdel & Hstored);
    [reflexivity | constructor |].
  exists s1, newGoal, s2. repeat split; assumption.
Defined.

(** *** Objects built by spreading *)

Section Dict.
Context {A : Type}.
Implicit Types (d : dict A) (k : string) (v : A).

Lemma str_eqb_true (a b : string) : str_eqb a b = true <-> a = b.
Proof. apply String.eqb_eq. Qed.

Lemma str_eqb_false (a b : string) : str_eqb a b = false <-> a <> b.
Proof. apply String.eqb_neq. Qed.

Lemma dict_get_set_same d k v : dict_get (dict_set d k v) k = Some v.
Proof.
  induction d as [| [k' v'] d IH]; cbn [dict_set dict_get].
  - unfold str_eqb. now rewrite String.eqb_refl.
  - destruct (str_eqb k' k) eqn:E; cbn [dict_get]; rewrite E; [reflexivity | exact IH].
Qed.

Lemma dict_get_set_other d k k' v :
  k <> k' -> dict_get (dict_set d k v) k' = dict_get d k'.
Proof.
  intros Hne.
  assert (E' : str_eqb k k' = false) by now apply str_eqb_false.
  induction d as [| [k0 v0] d IH]; cbn [dict_set dict_get].
  - now rewrite E'.
  - destruct (str_eqb k0 k) eqn:E; cbn [dict_get].
    + apply str_eqb_true in E. subst k0. now rewrite E'.
    + now rewrite IH.
Qed.

Lemma keys_dict_set d k v k' :
  In k' (map fst (dict_set d k v)) <-> k' = k \/ In k' (map fst d).
Proof.
  induction d as [| [k0 v0] d IH]; cbn [dict_set map fst In].
  - intuition.
  - destruct (str_eqb k0 k) eqn:E; cbn [map fst In].
    + apply str_eqb_true in E. subst k0. intuition.
    + rewrite IH. intuition.
Qed.

Lemma NoDup_dict_set d k v :
  List.NoDup (map fst d) -> List.NoDup (map fst (dict_set d k v)).
Proof.
  induction d as [| [k0 v0] d IH]; cbn [dict_set map fst]; intros Hnd.
  - constructor; [intros [] | constructor].
  - inversion Hnd as [| x l Hnotin Hnd' ]; subst.
    destruct (str_eqb k0 k) eqn:E; cbn [map fst].
    + constructor; assumption.
    + constructor; [| auto].
      rewrite keys_dict_set. intros [-> | Hin]; [| contradiction].
      apply str_eqb_false in E. congruence.
Qed.

Lemma dict_get_None d k : ~ In k (map fst d) -> dict_get d k = None.
Proof.
  induction d as [| [k0 v0] d IH]; cbn [dict_get map fst In]; [reflexivity |].
  intros Hnotin. destruct (str_eqb k0 k) eqn:E.
  - apply str_eqb_true in E. tauto.
  - apply IH. tauto.
Qed.

Lemma dict_get_In d k v :
  List.NoDup (map fst d) -> (dict_get d k = Some v <-> In (k, v) d).
Proof.
  induction d as [| [k0 v0] d IH]; cbn [dict_get map fst In]; intros Hnd.
  - split; [discriminate | tauto].
  - inversion Hnd as [| x l Hnotin Hnd']; subst.
    destruct (str_eqb k0 k) eqn:E.
    + apply str_eqb_true in E. subst k0. split.
      * intros H. injection H as ->. now left.
      * intros [H | H]; [now injection H as -> |].
        exfalso. apply Hnotin. apply (in_map fst) in H. exact H.
    + rewrite (IH Hnd'). split; [tauto |].
      intros [H | H]; [| exact H].
      injection H as -> ->. apply str_eqb_false in E. congruence.
Qed.

Lemma dict_get_Permutation d d' k :
  List.NoDup (map fst d) -> Permutation d d' -> dict_get d' k = dict_get d k.
Proof.
  intros Hnd Hperm.
  assert (Hnd' : List.NoDup (map fst d'))
    by (eapply Permutation_NoDup; [apply Permutation_map; exact Hperm | exact Hnd]).
  destruct (dict_get d k) as [v |] eqn:E.
  - apply (dict_get_In _ _ _ Hnd'). apply (Permutation_in _ Hperm).
    now apply (dict_get_In _ _ _ Hnd).
  - destruct (dict_get d' k) as [v' |] eqn:E'; [| reflexivity].
    apply (dict_get_In _ _ _ Hnd') in E'.
    apply (Permutation_in _ (Permutation_sym Hperm)) in E'.
    apply (dict_get_In _ _ _ Hnd) in E'. congruence.
Qed.

Lemma dict_get_app d d' k :
  dict_get (d ++ d') k
  = match dict_get d k with
    | Some v => Some v
    | None => dict_get d' k
    end.
Proof.
  induction d as [| [k0 v0] d IH]; [reflexivity |].
  cbn [app dict_get]. destruct (str_eqb k0 k); [reflexivity | exact IH].
Qed.

Lemma insert_index_Permutation (n : N) (kv : string * A) (l : list (N * (string * A))) :
  Permutation (insert_index n kv l) ((n, kv) :: l).
Proof.
  induction l as [| [n' kv'] l IH]; cbn [insert_index]; [reflexivity |].
  destruct (n <? n')%N; [reflexivity |].
  rewrite IH. apply perm_swap.
Qed.

Lemma index_entries_Permutation d (acc : list (N * (string * A))) :
  Permutation
    (map snd (fold_left (fun acc kv =>
                           match array_index (fst kv) with
                           | Some n => insert_index n kv acc
                           | None => acc
                           end) d acc))
    (map snd acc
       ++ List.filter (fun kv => match array_index (fst kv) with
                                 | Some _ => true
                                 | None => false
                                 end) d).
Proof.
  revert acc. induction d as [| kv d IH]; intros acc; cbn [fold_left List.filter].
  - now rewrite app_nil_r.
  - rewrite IH. destruct (array_index (fst kv)) as [n |]; [| reflexivity].
    rewrite (Permutation_map snd (insert_index_Permutation n kv acc)).
    cbn [map snd]. apply Permutation_middle.
Qed.

Lemma filter_split_Permutation (f : string * A -> bool) d :
  Permutation (List.filter f d ++ List.filter (fun kv => negb (f kv)) d) d.
Proof.
  induction d as [| kv d IH]; [reflexivity |].
  cbn [List.filter]. destruct (f kv); cbn [negb app].
  - now rewrite IH.
  - rewrite <- Permutation_middle. now rewrite IH.
Qed.

Lemma entries_Permutation d : Permutation (entries d) d.
Proof.
  unfold entries, index_entries.
  rewrite (index_entries_Permutation d []). cbn [map app].
  rewrite <- (filter_split_Permutation
                (fun kv => match array_index (fst kv) with
                           | Some _ => true
                           | None => false
                           end) d) at 3.
  apply Permutation_app_head.
  erewrite filter_ext; [reflexivity |].
  intros kv. cbn. now destruct (array_index (fst kv)).
Qed.

End Dict.

Lemma dict_get_fold_assign (l : list (string * option value))
      (acc : dict (option value)) (k : string) :
  dict_get (fold_left assign l acc) k
  = match dict_get (rev l) k with
    | Some v => Some v
    | None => dict_get acc k
    end.
Proof.
  revert acc. induction l as [| [k0 v0] l IH]; intros acc; [reflexivity |].
  cbn [fold_left rev]. rewrite IH, dict_get_app. unfold assign. cbn [fst snd dict_get].
  destruct (dict_get (rev l) k); [reflexivity |].
  destruct (str_eqb k0 k) eqn:E.
  - apply str_eqb_true in E. subst k0. apply dict_get_set_same.
  - apply str_eqb_false in E. now apply dict_get_set_other.
Qed.

Lemma NoDup_fold_assign (l : list (string * option value)) (acc : dict (option value)) :
  List.NoDup (map fst acc) -> List.NoDup (map fst (fold_left assign l acc)).
Proof.
  revert acc. induction l as [| kv l IH]; intros acc Hnd; [exact Hnd |].
  cbn [fold_left]. apply IH. now apply NoDup_dict_set.
Qed.

Lemma dict_get_defined (d : dict (option value)) (k : string) :
  List.NoDup (map fst d) ->
  dict_get (defined d) k
  = match dict_get d k with
    | Some ov => ov
    | None => None
    end.
Proof.
  unfold defined.
  induction d as [| [k0 ov] d IH]; [reflexivity |].
  cbn [map fst]. intros Hnd. inversion Hnd as [| x l Hnotin Hnd']; subst.
  cbn [omap list_omap fst snd option_map dict_get].
  destruct (str_eqb k0 k) eqn:E.
  - apply str_eqb_true in E. subst k0.
    destruct ov as [v |]; cbn [option_map dict_get].
    + unfold str_eqb. now rewrite String.eqb_refl.
    + apply dict_get_None. intros Hin. apply Hnotin.
      clear - Hin. induction d as [| [k1 [v1 |]] d IHd];
        cbn [omap list_omap fst snd option_map map In] in *; tauto.
  - destruct ov as [v |]; cbn [option_map dict_get]; [rewrite E |]; now apply IH.
Qed.

(** The properties of [{ ...target, ...updates }] as they are written: a
    property named in [updates] has the value given there, or is left out
    when that value is [undefined]; any other property is the one of
    [target]. *)
Lemma prop_spread (target : list (string * value))
      (updates : list (string * option value)) (k : string) :
  List.NoDup (map fst target) -> List.NoDup (map fst updates) ->
  dict_get (defined (spread target updates)) k
  = match dict_get updates k with
    | Some ov => ov
    | None => dict_get target k
    end.
Proof.
  intros Htarget Hupdates. unfold spread.
  set (target' := map (fun kv => (fst kv, Some (snd kv))) target).
  assert (Hnd : List.NoDup (map fst (fold_left assign (target' ++ updates) [])))
    by (apply NoDup_fold_assign; constructor).
  assert (Htarget' : List.NoDup (map fst target')).
  { unfold target'. rewrite map_map. cbn [fst]. exact Htarget. }
  rewrite dict_get_defined
    by (eapply Permutation_NoDup;
        [apply Permutation_map, Permutation_sym, entries_Permutation | exact Hnd]).
  rewrite (dict_get_Permutation _ _ k Hnd (Permutation_sym (entries_Permutation _))).
  rewrite dict_get_fold_assign, rev_app_distr, dict_get_app.
  rewrite (dict_get_Permutation _ _ k Hupdates (Permutation_rev _)).
  rewrite (dict_get_Permutation _ _ k Htarget' (Permutation_rev _)).
  cbn [dict_get].
  destruct (dict_get updates k) as [ov |]; [reflexivity |].
  unfold target'. clear. induction target as [| [k0 v0] target IH]; [reflexivity |].
  cbn [map fst snd dict_get]. destruct (str_eqb k0 k); [reflexivity | exact IH].
Qed.

(** *** Updating one record *)

Lemma findIndex_by_none (k x : string) (l : list value) :
  Forall (fun v => is_null v = false /\ prop v k <> Some (Str x)) l ->
  findIndex_by k x l = Some None.
Proof.
  induction 1 as [| v l [Hnull Hprop] _ IH]; [reflexivity |].
  cbn [findIndex_by]. rewrite IH. cbn [option_map].
  destruct v; try discriminate Hnull;
    (destruct (prop _ k) as [[| | | y | |] |]; try reflexivity;
     destruct (str_eqb y x) eqn:E; [| reflexivity];
     apply str_eqb_true in E; subst y; contradiction).
Qed.

Lemma findIndex_by_first (k x : string) (before after : list value) (u : value) :
  Forall (fun v => is_null v = false /\ prop v k <> Some (Str x)) before ->
  prop u k = Some (Str x) ->
  findIndex_by k x (before ++ u :: after) = Some (Some (List.length before)).
Proof.
  intros Hbefore Hu.
  induction Hbefore as [| v l [Hnull Hprop] _ IH].
  - cbn [app findIndex_by List.length]. rewrite Hu.
    unfold str_eqb. rewrite String.eqb_refl.
    destruct u; try reflexivity. discriminate Hu.
  - cbn [app findIndex_by List.length]. rewrite IH. cbn [option_map].
    destruct v; try discriminate Hnull;
      (destruct (prop _ k) as [[| | | y | |] |]; try reflexivity;
       destruct (str_eqb y x) eqn:E; [| reflexivity];
       apply str_eqb_true in E; subst y; contradiction).
Qed.

Lemma merge_at_middle (updates : list (string * option value))
      (before after : list value) (u : value) :
  merge_at (List.length before) updates (before ++ u :: after)
  = before ++ Obj (defined (spread (own_props u) updates)) :: after.
Proof.
  unfold merge_at. rewrite list_lookup_middle by reflexivity.
  replace (List.length before) with (List.length before + 0) by lia.
  now rewrite insert_app_r.
Qed.

Lemma distinct_keys_NoDup (keys : list string) :
  distinct_keys keys = true -> List.NoDup keys.
Proof.
  induction keys as [| k keys IH]; [constructor |].
  cbn [distinct_keys]. intros H. apply andb_true_iff in H. destruct H as [Hk Hrest].
  constructor; [| auto].
  intros Hin. apply negb_true_iff in Hk.
  assert (Hex : existsb (str_eqb k) keys = true).
  { apply existsb_exists. exists k. split; [exact Hin |]. now apply str_eqb_true. }
  congruence.
Qed.

Lemma keys_of_SavingsGoal (g : SavingsGoal.t) :
  List.NoDup (map fst (own_props (normalise (of_SavingsGoal g)))).
Proof. apply distinct_keys_NoDup. reflexivity. Qed.

Lemma keys_of_User (u : User.t) :
  List.NoDup (map fst (own_props (normalise (of_User u)))).
Proof.
  apply distinct_keys_NoDup.
  destruct u as [id email fullName [pw |] [demographic |] [goals |] createdAt];
    reflexivity.
Qed.

Lemma prop_merged (props : list (string * value))
      (updates : list (string * option value)) (k : string) :
  List.NoDup (map fst props) -> List.NoDup (map fst updates) ->
  normalise (Obj props) = Obj props ->
  prop (normalise (Obj (defined (spread props updates)))) k
  = match dict_get updates k with
    | Some (Some v) => Some (normalise v)
    | Some None => None
    | None => dict_get props k
    end.
Proof.
  intros Htarget Hupdates Hnorm.
  rewrite prop_normalise. cbn [prop]. rewrite (prop_spread _ _ k Htarget Hupdates).
  destruct (dict_get updates k) as [[v |] |]; try reflexivity.
  apply (f_equal (fun v => prop v k)) in Hnorm.
  rewrite prop_normalise in Hnorm. cbn [prop] in Hnorm. exact Hnorm.
Qed.

Lemma goals_without_id (id : string) (gs : list SavingsGoal.t) :
  Forall (fun g => SavingsGoal.id g <> id) gs ->
  Forall (fun v => is_null v = false /\ prop v "id" <> Some (Str id))
         (map (fun g => normalise (of_SavingsGoal g)) gs).
Proof.
  induction 1 as [| g gs Hg _ IH]; cbn [map]; constructor; [| exact IH].
  split; [reflexivity |]. rewrite id_of_SavingsGoal. congruence.
Qed.

Lemma users_without_id (id : string) (us : list User.t) :
  Forall (fun u => User.id u <> id) us ->
  Forall (fun v => is_null v = false /\ prop v "id" <> Some (Str id))
         (map (fun u => normalise (of_User u)) us).
Proof.
  induction 1 as [| u us Hu _ IH]; cbn [map]; constructor; [| exact IH].
  split; [| rewrite id_of_User; congruence].
  unfold of_User. now rewrite normalise_Obj.
Qed.

Lemma map_normalise_stored {A} (f : A -> value) (l : list A) :
  map normalise (map (fun a => normalise (f a)) l) = map (fun a => normalise (f a)) l.
Proof. rewrite map_map. apply map_ext. intros a. apply normalise_idempotent. Qed.

(** X13. [updateSavingsGoal(id, updates)] rewrites the first stored goal
    with this id and no other: the goals before and after it are as they
    were, the list keeps its length and order, and in the rewritten goal a
    property named in [updates] has the value given there (it is left out
    when that value is [undefined]) while every other property keeps the
    stored value. *)
Theorem X13_updateSavingsGoal_merges
        (id : string) (updates : list (string * option value))
        (before after : list SavingsGoal.t) (g : SavingsGoal.t) (s : Storage) :
  goals_stored (before ++ g :: after) s ->
  Forall (fun h => SavingsGoal.id h <> id) before ->
  SavingsGoal.id g = id ->
  List.NoDup (map fst updates) ->
  exists s' merged,
    updateSavingsGoal id updates s = Some s'
    /\ getSavingsGoals s'
       = Arr (map (fun h => normalise (of_SavingsGoal h)) before
                ++ merged :: map (fun h => normalise (of_SavingsGoal h)) after)
    /\ (forall k,
           prop merged k
           = match dict_get updates k with
             | Some (Some v) => Some (normalise v)
             | Some None => None
             | None => prop (normalise (of_SavingsGoal g)) k
             end)
    /\ touches_only (getUserScopedKey SAVINGS_GOALS_KEY s) s s'.
Proof.
  intros Hstored Hbefore Hid Hupdates.
  pose proof (keys_of_SavingsGoal g) as Hkeys.
  pose proof (normalise_idempotent (of_SavingsGoal g)) as Hnorm.
  pose proof (id_of_SavingsGoal g) as Hidg. rewrite Hid in Hidg.
  destruct (normalise (of_SavingsGoal g)) as [| | | | | props] eqn:Hprops;
    try discriminate Hidg.
  unfold updateSavingsGoal. rewrite Hstored, map_app. cbn [map as_array mbind option_bind].
  rewrite Hprops.
  rewrite (findIndex_by_first "id" id _ _ (Obj props) (goals_without_id id before Hbefore) Hidg).
  cbn [mbind option_bind]. rewrite merge_at_middle. cbn [own_props] in *.
  eexists. eexists. split; [reflexivity |]. split; [| split].
  - rewrite getSavingsGoals_saveGoals, map_app. cbn [map].
    rewrite !map_normalise_stored. reflexivity.
  - intros k. apply (prop_merged props updates k Hkeys Hupdates Hnorm).
  - apply saveGoals_touches_only.
Qed.

Lemma X13_witness :
  exists s' merged,
    updateSavingsGoal "goal_2" [("current_amount"%string, Some (Num 450))]
      {| session := None;
         items := {[ SAVINGS_GOALS_KEY :=
                       stringify (Arr [of_SavingsGoal (sample_goal "goal_1");
                                       of_SavingsGoal (sample_goal "goal_2")]) ]} |}
    = Some s'
    /\ getSavingsGoals s' = Arr [normalise (of_SavingsGoal (sample_goal "goal_1")); merged]
    /\ prop merged "current_amount" = Some (Num 450)
    /\ prop merged "name" = Some (Str "Laptop").
Proof.
  destruct (X13_updateSavingsGoal_merges "goal_2"
              [("current_amount"%string, Some (Num 450))]
              [sample_goal "goal_1"] [] (sample_goal "goal_2")
              {| session := None;
                 items := {[ SAVINGS_GOALS_KEY :=
                       stringify (Arr [of_SavingsGoal (sample_goal "goal_1");
                                       of_SavingsGoal (sample_goal "goal_2")]) ]} |})
    as (s' & merged & Hupd & Hget & Hprop & _).
  - reflexivity.
  - constructor; [discriminate | constructor].
  - reflexivity.
  - constructor; [intros [] | constructor].
  - exists s', merged. split; [exact Hupd |]. split; [exact Hget |].
    split; [exact (Hprop "current_amount"%string) | exact (Hprop "name"%string)].
Defined.

(** X14. [updateSavingsGoal] with an id that no stored goal has writes
    nothing: the store after the call is the store before it, so an update
    never creates a goal. *)
Theorem X14_updateSavingsGoal_unknown_id
        (id : string) (updates : list (string * option value))
        (gs : list SavingsGoal.t) (s : Storage) :
  goals_stored gs s ->
  Forall (fun g => SavingsGoal.id g <> id) gs ->
  updateSavingsGoal id updates s = Some s.
Proof.
  intros Hstored Hfresh. unfold updateSavingsGoal. rewrite Hstored.
  cbn [as_array mbind option_bind].
  now rewrite (findIndex_by_none "id" id _ (goals_without_id id gs Hfresh)).
Qed.

Lemma X14_witness :
  updateSavingsGoal "goal_9" [("name"%string, Some (Str "Car"))] (sample_store None)
  = Some (sample_store None).
Proof.
  apply (X14_updateSavingsGoal_unknown_id "goal_9" _ [] (sample_store None));
    [reflexivity | constructor].
Defined.

(** X15. [updateUser(updates)] rewrites the first record of the users list
    that has the active user id and no other record: the list keeps its
    length and order, a property named in [updates] gets the value given
    there and every other property of the record keeps its stored value.
    Nothing but the users entry is written. *)
Theorem X15_updateUser_merges
        (updates : list (string * option value))
        (before after : list User.t) (u : User.t) (s : Storage) :
  users_stored (before ++ u :: after) s ->
  getActiveUserId s = Some (User.id u) ->
  User.id u <> ""%string ->
  Forall (fun v => User.id v <> User.id u) before ->
  List.NoDup (map fst updates) ->
  exists s' merged,
    updateUser updates s = Some s'
    /\ getAllUsers s'
       = Arr (map (fun v => normalise (of_User v)) before
                ++ merged :: map (fun v => normalise (of_User v)) after)
    /\ (forall k,
           prop merged k
           = match dict_get updates k with
             | Some (Some v) => Some (normalise v)
             | Some None => None
             | None => prop (normalise (of_User u)) k
             end)
    /\ touches_only USERS_KEY s s'.
Proof.
  intros Hstored Hactive Hne Hbefore Hupdates.
  pose proof (keys_of_User u) as Hkeys.
  pose proof (normalise_idempotent (of_User u)) as Hnorm.
  pose proof (id_of_User u) as Hidu.
  destruct (normalise (of_User u)) as [| | | | | props] eqn:Hprops;
    try discriminate Hidu.
  apply truthy_str_true in Hne.
  unfold updateUser. rewrite Hactive, Hne, Hstored, map_app.
  cbn [negb map as_array mbind option_bind]. rewrite Hprops.
  rewrite (findIndex_by_first "id" (User.id u) _ _ (Obj props)
             (users_without_id (User.id u) before Hbefore) Hidu).
  cbn [mbind option_bind]. rewrite merge_at_middle. cbn [own_props] in *.
  eexists. eexists. split; [reflexivity |]. split; [| split].
  - rewrite getAllUsers_saveAllUsers, normalise_Arr, map_app. cbn [map].
    rewrite !map_normalise_stored. reflexivity.
  - intros k. apply (prop_merged props updates k Hkeys Hupdates Hnorm).
  - apply setItem_touches_only.
Qed.

Lemma X15_witness :
  exists s' merged,
    updateUser [("fullName"%string, Some (Str "Ann Lee"))]
      {| session := Some "user_1"%string;
         items := {[ USERS_KEY :=
                       stringify (Arr [of_User (sample_user "user_1" "a@example.com" None)]) ]} |}
    = Some s'
    /\ getAllUsers s' = Arr [merged]
    /\ prop merged "fullName" = Some (Str "Ann Lee")
    /\ prop merged "email" = Some (Str "a@example.com").
Proof.
  destruct (X15_updateUser_merges [("fullName"%string, Some (Str "Ann Lee"))]
              [] [] (sample_user "user_1" "a@example.com" None)
              {| session := Some "user_1"%string;
                 items := {[ USERS_KEY :=
                       stringify (Arr [of_User (sample_user "user_1" "a@example.com" None)]) ]} |})
    as (s' & merged & Hupd & Hget & Hprop & _).
  - reflexivity.
  - reflexivity.
  - discriminate.
  - constructor.
  - constructor; [intros [] | constructor].
  - exists s', merged. split; [exact Hupd |]. split; [exact Hget |].
    split; [exact (Hprop "fullName"%string) | exact (Hprop "email"%string)].
Defined.

(** X16. [updateUser] never creates a record. Without an open session it
    returns at once, whatever the users entry holds; with a session whose
    id no stored record has, it finds no index. In both cases the store is
    left as it was. *)
Theorem X16_updateUser_without_target
        (updates : list (string * option value)) (s : Storage) :
  (hasSession s = false -> updateUser updates s = Some s)
  /\ (forall (us : list User.t) (A : string),
         users_stored us s ->
         getActiveUserId s = Some A ->
         Forall (fun u => User.id u <> A) us ->
         updateUser updates s = Some s).
Proof.
  split.
  - unfold hasSession, updateUser.
    destruct (getActiveUserId s) as [A |]; [| reflexivity].
    now intros ->.
  - intros us A Hstored Hactive Hfresh. unfold updateUser.
    rewrite Hactive, Hstored. destruct (truthy_str A); [| reflexivity].
    cbn [negb as_array mbind option_bind].
    now rewrite (findIndex_by_none "id" A _ (users_without_id A us Hfresh)).
Qed.

Lemma X16_witness :
  updateUser [("fullName"%string, Some (Str "Ann Lee"))]
             (Dashboard.handleSignOut (sample_store (Some "user_1"%string)))
  = Some (Dashboard.handleSignOut (sample_store (Some "user_1"%string))).
Proof.
  apply (X16_updateUser_without_target [("fullName"%string, Some (Str "Ann Lee"))]
           (Dashboard.handleSignOut (sample_store (Some "user_1"%string)))).
  reflexivity.
Defined.

(** *** The transactions card *)

Import TransactionManager.

Lemma eqb_refl_not_nan (a : number) : is_nan a = false -> (a =? a)%float = true.
Proof. unfold is_nan. now destruct (a =? a)%float. Qed.

Lemma accepted_not_nan (a : number) : accepted_amount a -> is_nan a = false.
Proof. unfold accepted_amount. intros H. now apply orb_false_iff in H. Qed.

Lemma handleSubmit_accepts host formData editing fd fd' :
  handleSubmit host formData editing fd = Some fd' ->
  accepted_amount (parseFloat host (FormData.amount formData)).
Proof.
  unfold handleSubmit, accepted_amount.
  destruct (negb (truthy_str (FormData.amount formData))
            || negb (truthy_str (FormData.category formData))); [discriminate |].
  destruct (is_nan (parseFloat host (FormData.amount formData))
            || (parseFloat host (FormData.amount formData) <=? 0)%float);
    [discriminate | reflexivity].
Qed.

Lemma handleSubmit_new_income host formData fd fd' :
  FormData.type formData = income ->
  handleSubmit host formData None fd = Some fd' ->
  FinancialData.incomeHistory fd'
  = FinancialData.incomeHistory fd
      ++ [{| Income.date := FormData.date formData;
             Income.amount := parseFloat host (FormData.amount formData) |}]
  /\ FinancialData.totalBalance fd'
     = (FinancialData.totalBalance fd + parseFloat host (FormData.amount formData))%float
  /\ FinancialData.expenseHistory fd' = FinancialData.expenseHistory fd
  /\ FinancialData.expenseBreakdown fd' = FinancialData.expenseBreakdown fd.
Proof.
  intros Htype. unfold handleSubmit. rewrite Htype.
  destruct (negb (truthy_str (FormData.amount formData))
            || negb (truthy_str (FormData.category formData))); [discriminate |].
  destruct (is_nan (parseFloat host (FormData.amount formData))
            || (parseFloat host (FormData.amount formData) <=? 0)%float);
    [discriminate |].
  intros H. injection H as <-. cbn. auto.
Qed.

Lemma sameIncome_row (inc : Income.t) :
  is_nan (Income.amount inc) = false -> sameIncome (incomeRow inc) inc = true.
Proof.
  intros Hnan. unfold sameIncome, incomeRow, str_eqb.
  cbn [Transaction.date Transaction.amount].
  now rewrite String.eqb_refl, (eqb_refl_not_nan _ Hnan).
Qed.

(** X17. Deleting a row deletes every history entry equal to it, but
    corrects the balance once. After the same income (same date, same
    amount [a]) has been submitted twice, [handleDelete] of that row leaves
    neither of the two entries in the income history, so they no longer
    count in [monthlyIncome], while the balance is the earlier balance plus
    [a], plus [a], minus [a]. *)
Theorem X17_delete_removes_every_equal_entry
        host formData (fd fd1 fd2 : FinancialData.t) :
  FormData.type formData = income ->
  handleSubmit host formData None fd = Some fd1 ->
  handleSubmit host formData None fd1 = Some fd2 ->
  exists fd3,
    handleDelete true
      (incomeRow {| Income.date := FormData.date formData;
                    Income.amount := parseFloat host (FormData.amount formData) |})
      fd2
    = Some fd3
    /\ FinancialData.incomeHistory fd3
       = List.filter
           (fun inc =>
              negb (sameIncome
                      (incomeRow {| Income.date := FormData.date formData;
                                    Income.amount := parseFloat host (FormData.amount formData) |})
                      inc))
           (FinancialData.incomeHistory fd)
    /\ FinancialData.monthlyIncome fd3 = totalIncome (FinancialData.incomeHistory fd3)
    /\ FinancialData.totalBalance fd3
       = (FinancialData.totalBalance fd
            + parseFloat host (FormData.amount formData)
            + parseFloat host (FormData.amount formData)
            - parseFloat host (FormData.amount formData))%float.
Proof.
  intros Htype H1 H2.
  pose proof (accepted_not_nan _ (handleSubmit_accepts _ _ _ _ _ H1)) as Hnan.
  destruct (handleSubmit_new_income host formData fd fd1 Htype H1) as (Hi1 & Hb1 & _ & _).
  destruct (handleSubmit_new_income host formData fd1 fd2 Htype H2) as (Hi2 & Hb2 & _ & _).
  unfold handleDelete. cbn [negb incomeRow Transaction.type].
  eexists. split; [reflexivity |]. cbn [FinancialData.incomeHistory
    FinancialData.monthlyIncome FinancialData.totalBalance].
  split; [| split; [reflexivity |]].
  - rewrite Hi2, Hi1, !List.filter_app. cbn [List.filter].
    rewrite (sameIncome_row
               {| Income.date := FormData.date formData;
                  Income.amount := parseFloat host (FormData.amount formData) |} Hnan).
    cbn [negb]. now rewrite !app_nil_r.
  - now rewrite Hb2, Hb1.
Qed.

Lemma X17_witness :
  exists fd3,
    handleDelete true
      (incomeRow {| Income.date := "2024-03-01"; Income.amount := 250 |})
      {| FinancialData.totalBalance := 500;
         FinancialData.monthlyIncome := 500;
         FinancialData.monthlyExpenses := 0;
         FinancialData.expenseBreakdown := [];
         FinancialData.incomeHistory :=
           [{| Income.date := "2024-03-01"; Income.amount := 250 |};
            {| Income.date := "2024-03-01"; Income.amount := 250 |}];
         FinancialData.expenseHistory := [] |}
    = Some fd3
    /\ FinancialData.incomeHistory fd3 = []
    /\ FinancialData.totalBalance fd3 = 250%float.
Proof.
  destruct (X17_delete_removes_every_equal_entry host_250 (sample_form income)
              emptyFinancialData
              {| FinancialData.totalBalance := 250;
                 FinancialData.monthlyIncome := 250;
                 FinancialData.monthlyExpenses := 0;
                 FinancialData.expenseBreakdown := [];
                 FinancialData.incomeHistory :=
                   [{| Income.date := "2024-03-01"; Income.amount := 250 |}];
                 FinancialData.expenseHistory := [] |}
              {| FinancialData.totalBalance := 500;
                 FinancialData.monthlyIncome := 500;
                 FinancialData.monthlyExpenses := 0;
                 FinancialData.expenseBreakdown := [];
                 FinancialData.incomeHistory :=
                   [{| Income.date := "2024-03-01"; Income.amount := 250 |};
                    {| Income.date := "2024-03-01"; Income.amount := 250 |}];
                 FinancialData.expenseHistory := [] |})
    as (fd3 & Hdel & Hhist & _ & Hbal);
    [reflexivity | vm_compute; reflexivity | vm_compute; reflexivity |].
  exists fd3. split; [exact Hdel |]. split; [exact Hhist |].
  rewrite Hbal. vm_compute. reflexivity.
Defined.

Lemma Forall_filter_keep {A} (P : A -> Prop) (f : A -> bool) (l : list A) :
  Forall P l -> Forall P (List.filter f l).
Proof.
  induction 1 as [| x l Hx _ IH]; [constructor |].
  cbn [List.filter]. destruct (f x); [constructor |]; assumption.
Qed.

Lemma keys_alter (f : Expense.t -> Expense.t) (i : nat) (l : list Expense.t) :
  (forall e, entry_key (f e) = entry_key e) ->
  map entry_key (alter f i l) = map entry_key l.
Proof.
  intros Hf. revert i. induction l as [| e l IH]; intros [| i]; cbn; try reflexivity.
  - now rewrite Hf.
  - f_equal. apply IH.
Qed.

Lemma NoDup_keys_delete (i : nat) (l : list Expense.t) :
  List.NoDup (map entry_key l) -> List.NoDup (map entry_key (delete i l)).
Proof.
  intros Hnd. change (List.NoDup (entry_key <$> delete i l)).
  rewrite list_fmap_delete. apply NoDup_ListNoDup.
  eapply sublist_NoDup; [apply NoDup_ListNoDup; exact Hnd | apply sublist_delete].
Qed.

Lemma findIndex_None {A} (p : A -> bool) (l : list A) :
  findIndex p l = None -> Forall (fun x => p x = false) l.
Proof.
  induction l as [| x l IH]; [constructor |].
  cbn [findIndex]. destruct (p x) eqn:E; [discriminate |].
  destruct (findIndex p l); [discriminate |]. constructor; auto.
Qed.

Lemma NoDup_keys_filter (f : Expense.t -> bool) (l : list Expense.t) :
  List.NoDup (map entry_key l) -> List.NoDup (map entry_key (List.filter f l)).
Proof.
  induction l as [| e l IH]; [constructor |].
  cbn [map List.filter]. intros Hnd. inversion Hnd as [| x l' Hnotin Hnd']; subst.
  destruct (f e); [| auto].
  cbn [map]. constructor; [| auto].
  intros Hin. apply Hnotin. apply in_map_iff in Hin. destruct Hin as (e' & Hk & He').
  apply filter_In in He'. apply in_map_iff. exists e'. tauto.
Qed.

Lemma removeOld_consistent (et : Transaction.t)
      (incomes : list Income.t) (expenses : list Spent.t) (breakdown : list Expense.t) :
  List.NoDup (map entry_key breakdown) ->
  Forall (fun e => accepted_amount (Income.amount e)) incomes ->
  Forall (fun e => accepted_amount (Spent.amount e)) expenses ->
  List.NoDup (map entry_key (snd (removeOld et incomes expenses breakdown)))
  /\ Forall (fun e => accepted_amount (Income.amount e))
            (fst (fst (removeOld et incomes expenses breakdown)))
  /\ Forall (fun e => accepted_amount (Spent.amount e))
            (snd (fst (removeOld et incomes expenses breakdown))).
Proof.
  intros Hnd Hin Hex. unfold removeOld.
  destruct (Transaction.type et); cbn [fst snd].
  - split; [exact Hnd |]. split; [now apply Forall_filter_keep | exact Hex].
  - split; [| split; [exact Hin | now apply Forall_filter_keep]].
    destruct (findIndex _ breakdown) as [i |]; [| exact Hnd].
    assert (Halter : List.NoDup
                       (map entry_key (alter (subAmount (Transaction.amount et)) i breakdown))).
    { rewrite keys_alter; [exact Hnd | reflexivity]. }
    destruct (alter (subAmount (Transaction.amount et)) i breakdown !! i) as [e |];
      [| exact Halter].
    destruct (Expense.amount e <=? 0)%float; [| exact Halter].
    now apply NoDup_keys_delete.
Qed.

Lemma breakdown_added_consistent (category date : string) (amount : number)
      (breakdown : list Expense.t) :
  List.NoDup (map entry_key breakdown) ->
  List.NoDup
    (map entry_key
       match findIndex (fun exp => str_eqb (Expense.category exp) category
                                   && str_eqb (Expense.date exp) date) breakdown with
       | Some existingIndex => alter (addAmount amount) existingIndex breakdown
       | None => push breakdown {| Expense.category := category;
                                   Expense.amount := amount;
                                   Expense.date := date |}
       end).
Proof.
  intros Hnd.
  destruct (findIndex _ breakdown) as [i |] eqn:Hfind.
  - rewrite keys_alter; [exact Hnd | reflexivity].
  - apply findIndex_None in Hfind. unfold push. rewrite map_app. cbn [map].
    eapply Permutation_NoDup; [apply Permutation_cons_append |].
    constructor; [| exact Hnd].
    intros Hk. apply in_map_iff in Hk. destruct Hk as (e & Hkey & He).
    rewrite List.Forall_forall in Hfind.
    specialize (Hfind e He). cbv beta in Hfind.
    unfold entry_key in Hkey. cbn [Expense.category Expense.date] in Hkey.
    injection Hkey as Hc Hd. rewrite Hc, Hd in Hfind.
    unfold str_eqb in Hfind. rewrite !String.eqb_refl in Hfind. discriminate Hfind.
Qed.

Lemma handleSubmit_consistent host formData editing fd fd' :
  consistent fd -> handleSubmit host formData editing fd = Some fd' -> consistent fd'.
Proof.
  intros (Hnd & Hin & Hex) Hsubmit.
  pose proof (handleSubmit_accepts _ _ _ _ _ Hsubmit) as Hamount.
  unfold handleSubmit in Hsubmit.
  destruct (negb (truthy_str (FormData.amount formData))
            || negb (truthy_str (FormData.category formData))); [discriminate |].
  destruct (is_nan (parseFloat host (FormData.amount formData))
            || (parseFloat host (FormData.amount formData) <=? 0)%float);
    [discriminate |].
  assert (Hold :
            exists incomes expenses breakdown,
              match editing with
              | Some et =>
                  removeOld et (FinancialData.incomeHistory fd)
                            (FinancialData.expenseHistory fd)
                            (FinancialData.expenseBreakdown fd)
              | None =>
                  (FinancialData.incomeHistory fd, FinancialData.expenseHistory fd,
                   FinancialData.expenseBreakdown fd)
              end = (incomes, expenses, breakdown)
              /\ List.NoDup (map entry_key breakdown)
              /\ Forall (fun e => accepted_amount (Income.amount e)) incomes
              /\ Forall (fun e => accepted_amount (Spent.amount e)) expenses).
  { destruct editing as [et |].
    - destruct (removeOld_consistent et _ _ _ Hnd Hin Hex) as (H1 & H2 & H3).
      destruct (removeOld et _ _ _) as [[incomes expenses] breakdown].
      exists incomes, expenses, breakdown. auto.
    - do 3 eexists. split; [reflexivity |]. auto. }
  destruct Hold as (incomes & expenses & breakdown & Heq & Hnd' & Hin' & Hex').
  rewrite Heq in Hsubmit.
  destruct (FormData.type formData); injection Hsubmit as <-;
    unfold consistent, breakdown_keys;
    cbn [FinancialData.expenseBreakdown FinancialData.incomeHistory
         FinancialData.expenseHistory].
  - split; [exact Hnd' |]. split; [| exact Hex'].
    unfold push. apply Forall_app. split; [exact Hin' |]. now constructor.
  - split; [now apply breakdown_added_consistent |]. split; [exact Hin' |].
    unfold push. apply Forall_app. split; [exact Hex' |]. now constructor.
Qed.

Lemma handleDelete_consistent confirmed t fd fd' :
  consistent fd -> handleDelete confirmed t fd = Some fd' -> consistent fd'.
Proof.
  intros (Hnd & Hin & Hex). unfold handleDelete.
  destruct confirmed; [| discriminate]. cbn [negb].
  destruct (Transaction.type t); intros H; injection H as <-;
    unfold consistent, breakdown_keys;
    cbn [FinancialData.expenseBreakdown FinancialData.incomeHistory
         FinancialData.expenseHistory].
  - split; [exact Hnd |]. split; [now apply Forall_filter_keep | exact Hex].
  - split; [now apply NoDup_keys_filter |].
    split; [exact Hin | now apply Forall_filter_keep].
Qed.

(** X18. The transactions card keeps the financial data consistent: if no
    two breakdown entries share category and date and every amount in the
    two histories is one the form accepts (neither [NaN] nor at most
    zero), the same holds for the object saved by an accepted
    [handleSubmit], whether it adds or edits a transaction, and for the
    object saved by a confirmed [handleDelete]. The data of a new account
    is consistent. *)
Theorem X18_transactions_keep_consistency
        host formData editing confirmed t (fd fd' : FinancialData.t) :
  consistent fd ->
  handleSubmit host formData editing fd = Some fd'
  \/ handleDelete confirmed t fd = Some fd' ->
  consistent fd' /\ consistent emptyFinancialData.
Proof.
  intros Hfd Hstep. split.
  - destruct Hstep as [H | H];
      [eapply handleSubmit_consistent | eapply handleDelete_consistent]; eassumption.
  - repeat split; constructor.
Qed.

Lemma X18_witness :
  exists fd',
    handleSubmit host_250 (sample_form expense) None emptyFinancialData = Some fd'
    /\ consistent fd'.
Proof.
  eexists. split; [vm_compute; reflexivity |].
  apply (X18_transactions_keep_consistency host_250 (sample_form expense) None true
           (incomeRow {| Income.date := "2024-03-01"; Income.amount := 250 |})
           emptyFinancialData).
  - repeat split; constructor.
  - left. vm_compute. reflexivity.
Defined.

(** *** The knowledge base: entries that can never be the first match *)

Lemma includes_trans (s k k' : string) :
  includes s k = true -> includes k k' = true -> includes s k' = true.
Proof.
  rewrite !includes_spec. intros (a & b & ->) (a' & b' & ->).
  exists (a ++ a')%string, (b' ++ b)%string.
  now rewrite !append_assoc.
Qed.






(** *** What the dispatcher attaches to its answers *)

(** The attachments of a response of the rule-based service. *)
Lemma generateResponse_attachments host ctx userMessage history :
  AIResponse.suggestions (AIService.generateResponse host ctx userMessage history)
  = Some []
  /\ (AIResponse.budgetSummary (AIService.generateResponse host ctx userMessage history)
      = None
      \/ AIResponse.budgetSummary (AIService.generateResponse host ctx userMessage history)
         = Some (AIService.generateBudgetSummary host (financialData ctx))
         /\ (includes (trim (toLowerCase userMessage)) "budget"
             || includes (trim (toLowerCase userMessage)) "summary"
             || includes (trim (toLowerCase userMessage)) "overview") = true)
  /\ (AIResponse.insights (AIService.generateResponse host ctx userMessage history)
      = None
      \/ AIResponse.insights (AIService.generateResponse host ctx userMessage history)
         = Some (AIService.generateSpendingInsights (financialData ctx))
         /\ (includes (trim (toLowerCase userMessage)) "spending"
             || includes (trim (toLowerCase userMessage)) "expense"
             || includes (trim (toLowerCase userMessage)) "insight") = true).
Proof.
  unfold AIService.generateResponse.
  destruct (getDemographicTone (user ctx)) as [tone complexity].
  cbv zeta.
  match goal with
  | |- context [if ?q && ?own then _ else None] =>
      destruct q; cbn [andb]; [destruct own |]
  end.
  1: match goal with
     | |- context [if ?t && ?ok then Some _ else None] =>
         destruct t; cbn [andb]; [destruct ok |]
     end.
  all: cbn [AIResponse.suggestions AIResponse.budgetSummary AIResponse.insights].
  1: auto.
  all: match goal with
       | |- context [if ?t && ?a && ?b then _ else _] =>
           destruct t; cbn [andb]; [destruct a; cbn [andb]; [destruct b |] |]
       end.
  all: cbn [AIResponse.suggestions AIResponse.budgetSummary AIResponse.insights]; auto.
  all: split; [reflexivity |]; split.
  all: match goal with
       | |- context [if ?c then Some _ else None] => destruct c
       end; auto.
Qed.

(** X20. The insights card shows the insights of the rule-based service:
    whether or not the response to "spending insights" carries insights,
    the object that [loadInsights] hands to the card is the one
    [generateSpendingInsights] computes from the same financial data, so
    the copy of the computation in the component never gives anything
    else. *)
Theorem X20_insights_card_agrees_with_service host ctx :
  SpendingInsightsComponent.loadInsights host ctx
  = AIService.generateSpendingInsights (financialData ctx).
Proof.
  unfold SpendingInsightsComponent.loadInsights. cbv zeta.
  destruct (generateResponse_attachments host ctx "spending insights" [])
    as (_ & _ & [H | [H _]]); rewrite H; reflexivity.
Qed.

(** X21. The rule-based service never offers suggestions, attaches a
    budget summary only to an answer to a message that contains "budget",
    "summary" or "overview", and attaches insights only to an answer to a
    message that contains "spending", "expense" or "insight"; what it
    attaches is what [generateBudgetSummary] and [generateSpendingInsights]
    compute from the financial data of the context. *)
Theorem X21_attachments_follow_the_message host ctx userMessage history :
  AIResponse.suggestions (AIService.generateResponse host ctx userMessage history)
  = Some []
  /\ (AIResponse.budgetSummary (AIService.generateResponse host ctx userMessage history)
      = None
      \/ AIResponse.budgetSummary (AIService.generateResponse host ctx userMessage history)
         = Some (AIService.generateBudgetSummary host (financialData ctx))
         /\ (includes (trim (toLowerCase userMessage)) "budget"
             || includes (trim (toLowerCase userMessage)) "summary"
             || includes (trim (toLowerCase userMessage)) "overview") = true)
  /\ (AIResponse.insights (AIService.generateResponse host ctx userMessage history)
      = None
      \/ AIResponse.insights (AIService.generateResponse host ctx userMessage history)
         = Some (AIService.generateSpendingInsights (financialData ctx))
         /\ (includes (trim (toLowerCase userMessage)) "spending"
             || includes (trim (toLowerCase userMessage)) "expense"
             || includes (trim (toLowerCase userMessage)) "insight") = true).
Proof. apply generateResponse_attachments. Qed.

(** *** The general response *)

(** X22. In [generateGeneralResponse] the greeting test comes first and is
    a substring test: a message that contains "hi" anywhere ("this",
    "nothing", "thank you for this") gets exactly the answer given to
    "hi", whatever else it says and whatever the history. *)
Theorem X22_any_hi_is_a_greeting
        host userMessage user fd tone complexity history :
  includes (toLowerCase userMessage) "hi" = true ->
  AIService.generateGeneralResponse host userMessage user fd tone complexity history
  = AIService.generateGeneralResponse host "hi" user fd tone complexity [].
Proof.
  intros Hhi. unfold AIService.generateGeneralResponse. cbv zeta.
  rewrite Hhi.
  replace (includes (toLowerCase "hi") "hi") with true by reflexivity.
  rewrite !orb_true_r. cbn [orb]. reflexivity.
Qed.

Lemma X22_witness :
  AIService.generateGeneralResponse sample_host "Thank you for this" None
    (sample_data 2000 500) friendly moderate []
  = AIService.generateGeneralResponse sample_host "hi" None
      (sample_data 2000 500) friendly moderate [].
Proof.
  apply (X22_any_hi_is_a_greeting sample_host "Thank you for this"); reflexivity.
Defined.

(** *** Spending insights *)

(** X23. With two or three entries in the expense history, the three
    entries "before the last three" that [generateSpendingInsights]
    compares with do not exist: their average is 0, so whenever the recent
    average is positive the insights report that spending has increased by
    over 10% and recommend to review recent expenses, whatever the amounts
    are. *)
Theorem X23_short_history_reads_as_increase (fd : FinancialData.t) :
  (2 <= List.length (FinancialData.expenseHistory fd) <= 3)%nat ->
  gtb (AIService.sumAmounts (FinancialData.expenseHistory fd) / 3) 0 = true ->
  In "Your spending has increased by over 10% in recent months."%string
     (Insights.trends (AIService.generateSpendingInsights fd))
  /\ In "Review your recent expenses to identify areas where you can cut back."%string
        (Insights.recommendations (AIService.generateSpendingInsights fd)).
Proof.
  destruct fd as [balance income expenses breakdown incomes history].
  cbn [FinancialData.expenseHistory]. intros Hlen Hpositive.
  assert (Hrecent : slice_last 3 history = history).
  { unfold slice_last. replace (List.length history - 3)%nat with O by lia. reflexivity. }
  assert (Holder : slice_neg 6 3 history = []).
  { unfold slice_neg. replace (List.length history - 3 - (List.length history - 6))%nat
      with O by lia. reflexivity. }
  assert (Hmany : (1 <? List.length history)%nat = true) by (apply Nat.ltb_lt; lia).
  unfold AIService.generateSpendingInsights.
  cbn [FinancialData.expenseHistory FinancialData.monthlyIncome
       FinancialData.monthlyExpenses FinancialData.expenseBreakdown
       FinancialData.totalBalance].
  cbv zeta. rewrite Hmany, Hrecent, Holder.
  replace (AIService.sumAmounts [] / 3 * 1.1)%float with 0%float
    by (vm_compute; reflexivity).
  rewrite Hpositive.
  repeat match goal with
         | |- context [if ?c then _ else _] => destruct c
         | |- context [match ?o with Some _ => _ | None => _ end] => destruct o as [[? ?] |]
         end;
    cbn [Insights.trends Insights.recommendations]; unfold push;
    split; repeat (apply in_or_app; first [right; left; reflexivity | left]);
    try (left; reflexivity).
Qed.

Lemma X23_witness :
  In "Your spending has increased by over 10% in recent months."%string
     (Insights.trends
        (AIService.generateSpendingInsights
           {| FinancialData.totalBalance := 1000;
              FinancialData.monthlyIncome := 2000;
              FinancialData.monthlyExpenses := 30;
              FinancialData.expenseBreakdown := [];
              FinancialData.incomeHistory := [];
              FinancialData.expenseHistory :=
                [{| Spent.date := "2024-03-01"; Spent.amount := 20; Spent.category := "Food" |};
                 {| Spent.date := "2024-03-02"; Spent.amount := 10; Spent.category := "Food" |}] |})).
Proof.
  apply (X23_short_history_reads_as_increase
           {| FinancialData.totalBalance := 1000;
              FinancialData.monthlyIncome := 2000;
              FinancialData.monthlyExpenses := 30;
              FinancialData.expenseBreakdown := [];
              FinancialData.incomeHistory := [];
              FinancialData.expenseHistory :=
                [{| Spent.date := "2024-03-01"; Spent.amount := 20; Spent.category := "Food" |};
                 {| Spent.date := "2024-03-02"; Spent.amount := 10; Spent.category := "Food" |}] |}).
  - cbn. lia.
  - vm_compute. reflexivity.
Defined.

(** *** The adapter, whatever the network does *)




(** *** The chat panel *)




(** *** The settings page *)

(** X26. Settings are kept under one key for the whole browser. What
    [handleSave] stores is what the page loads afterwards, every field of
    the saved settings replacing the one of the initial state; it is loaded
    for whichever user is signed in, and [handleClearData] leaves it in the
    store. *)
Theorem X26_settings_are_shared_and_kept
        (saved : Settings.AppSettings) (s : Storage) (A B : string) :
  A <> ""%string -> B <> ""%string ->
  Settings.loadSettings (Settings.of_AppSettings Settings.initialSettings)
    (setActiveUser (Some B)
       (Settings.handleSave (Settings.of_AppSettings saved) (setActiveUser (Some A) s)))
  = Settings.of_AppSettings saved
  /\ items (Settings.handleClearData true
              (Settings.handleSave (Settings.of_AppSettings saved)
                                   (setActiveUser (Some A) s)))
       !! Settings.SETTINGS_KEY
     = Some (stringify (Settings.of_AppSettings saved)).
Proof.
  intros HA HB. apply truthy_str_true in HA. apply truthy_str_true in HB.
  split.
  - unfold Settings.loadSettings, Settings.handleSave, hasSession, getActiveUserId,
      setActiveUser, notifyChange, setItem.
    rewrite HA, HB. cbn [session items]. rewrite HB. cbn [negb].
    rewrite lookup_insert_eq.
    destruct saved as [theme [email push alerts reminders] currency language].
    destruct theme; reflexivity.
  - unfold Settings.handleClearData, Settings.handleSave, clearAll, getActiveUserId,
      setActiveUser, notifyChange, setItem, removeItem.
    rewrite HA. cbn [session items].
    rewrite lookup_delete_ne by discriminate.
    now rewrite lookup_insert_eq.
Qed.

Lemma X26_witness :
  Settings.loadSettings (Settings.of_AppSettings Settings.initialSettings)
    (setActiveUser (Some "bob"%string)
       (Settings.handleSave
          (Settings.of_AppSettings
             {| Settings.theme := Settings.dark;
                Settings.notifications :=
                  {| Settings.email := false; Settings.push := true;
                     Settings.budgetAlerts := true; Settings.goalReminders := false |};
                Settings.currency := "EUR";
                Settings.language := "de" |})
          (setActiveUser (Some "alice"%string) (sample_store None))))
  = Settings.of_AppSettings
      {| Settings.theme := Settings.dark;
         Settings.notifications :=
           {| Settings.email := false; Settings.push := true;
              Settings.budgetAlerts := true; Settings.goalReminders := false |};
         Settings.currency := "EUR";
         Settings.language := "de" |}.
Proof.
  apply (X26_settings_are_shared_and_kept _ (sample_store None) "alice" "bob");
    discriminate.
Defined.

(** X27. After [handleClearData] nobody can sign in and nobody is signed
    in: the users list read from the store is empty, so [handleSignIn] is
    refused for every email and password, and the store it leaves is the
    cleared one. *)
Theorem X27_nobody_signs_in_after_clearing
        (email password : string) (s : Storage) :
  getAllUsers (Settings.handleClearData true s) = Arr []
  /\ hasSession (Settings.handleClearData true s) = false
  /\ getCurrentUser (Settings.handleClearData true s) = Some None
  /\ handleSignIn email password (Settings.handleClearData true s)
     = Some (Settings.handleClearData true s, SignInFailed).
Proof.
  assert (Husers : getAllUsers (Settings.handleClearData true s) = Arr []).
  { unfold Settings.handleClearData, getAllUsers, clearAll, getActiveUserId,
      notifyChange, removeItem.
    cbn [session items]. now rewrite lookup_delete_eq. }
  split; [exact Husers |]. split; [reflexivity |]. split; [reflexivity |].
  unfold handleSignIn, getUserByEmail. rewrite Husers. reflexivity.
Qed.

(** *** The category breakdown *)

Lemma keys_dict_set_present {A} (d : dict A) (k : string) (v v' : A) :
  dict_get d k = Some v' -> map fst (dict_set d k v) = map fst d.
Proof.
  induction d as [| [k0 v0] d IH]; cbn [dict_get dict_set map fst]; [discriminate |].
  destruct (str_eqb k0 k) eqn:E; cbn [map fst]; [reflexivity |].
  intros H. now rewrite IH.
Qed.

Lemma keys_dict_set_absent {A} (d : dict A) (k : string) (v : A) :
  dict_get d k = None -> map fst (dict_set d k v) = (map fst d ++ [k])%list.
Proof.
  induction d as [| [k0 v0] d IH]; cbn [dict_get dict_set map fst app]; [reflexivity |].
  destruct (str_eqb k0 k) eqn:E; cbn [map fst]; [discriminate |].
  intros H. now rewrite IH.
Qed.

Lemma dict_get_Some_key {A} (d : dict A) (k : string) (v : A) :
  dict_get d k = Some v -> In k (map fst d).
Proof.
  induction d as [| [k0 v0] d IH]; cbn [dict_get map fst In]; [discriminate |].
  destruct (str_eqb k0 k) eqn:E; [apply str_eqb_true in E; auto | auto].
Qed.

(** One step of the aggregation: the keys stay as they are when the
    category is already there, and the category is added last otherwise. *)
Lemma keys_sumByCategory (acc : dict number) (expense : Expense.t) :
  map fst (sumByCategory acc expense)
  = match dict_get acc (Expense.category expense) with
    | Some _ => map fst acc
    | None => (map fst acc ++ [Expense.category expense])%list
    end.
Proof.
  unfold sumByCategory. cbv zeta.
  destruct (dict_get acc (Expense.category expense)) as [v |] eqn:Hget.
  - destruct (truthy_num v).
    + rewrite Hget. now apply (keys_dict_set_present _ _ _ v).
    + rewrite dict_get_set_same.
      rewrite (keys_dict_set_present _ _ _ 0%float) by apply dict_get_set_same.
      now apply (keys_dict_set_present _ _ _ v).
  - rewrite dict_get_set_same.
    rewrite (keys_dict_set_present _ _ _ 0%float) by apply dict_get_set_same.
    now apply keys_dict_set_absent.
Qed.

Lemma keys_fold_sumByCategory (l : list Expense.t) (acc : dict number) :
  List.NoDup (map fst acc) ->
  List.NoDup (map fst (fold_left sumByCategory l acc))
  /\ forall c, In c (map fst (fold_left sumByCategory l acc))
               <-> In c (map fst acc) \/ In c (map Expense.category l).
Proof.
  revert acc. induction l as [| e l IH]; intros acc Hnd; cbn [fold_left map In].
  - split; [exact Hnd | tauto].
  - assert (Hstep : List.NoDup (map fst (sumByCategory acc e))
                    /\ forall c, In c (map fst (sumByCategory acc e))
                                 <-> In c (map fst acc) \/ Expense.category e = c).
    { rewrite keys_sumByCategory.
      destruct (dict_get acc (Expense.category e)) as [v |] eqn:Hget.
      - split; [exact Hnd |]. intros c. split; [tauto |].
        intros [H | <-]; [exact H | now apply (dict_get_Some_key _ _ v)].
      - split.
        + eapply Permutation_NoDup; [apply Permutation_cons_append |].
          constructor; [| exact Hnd].
          intros Hin. apply in_map_iff in Hin. destruct Hin as ([k v] & Hk & Hin).
          cbn [fst] in Hk. subst k.
          apply (dict_get_In _ _ _ Hnd) in Hin. congruence.
        + intros c. rewrite in_app_iff. cbn [In]. tauto. }
    destruct Hstep as [Hnd' Hkeys].
    destruct (IH _ Hnd') as [Hnd'' Hkeys'']. split; [exact Hnd'' |].
    intros c. rewrite Hkeys'', Hkeys. tauto.
Qed.

(** X28. The category breakdown of a budget summary has one entry per
    category: its keys are pairwise distinct, and a name is a key exactly
    when some entry of [expenseBreakdown] has it as its category. (Names
    are ordinary category names, not names that every object inherits.) *)
Theorem X28_one_entry_per_category host (fd : FinancialData.t) :
  List.NoDup (map fst (BudgetSummary.categoryBreakdown
                         (AIService.generateBudgetSummary host fd)))
  /\ forall c,
      In c (map fst (BudgetSummary.categoryBreakdown
                       (AIService.generateBudgetSummary host fd)))
      <-> In c (map Expense.category (FinancialData.expenseBreakdown fd)).
Proof.
  unfold AIService.generateBudgetSummary. cbv zeta.
  cbn [BudgetSummary.categoryBreakdown].
  destruct (keys_fold_sumByCategory (FinancialData.expenseBreakdown fd) [])
    as [Hnd Hkeys]; [constructor |].
  split; [exact Hnd |]. intros c. rewrite Hkeys. cbn [map In]. tauto.
Qed.

(** *** The cleaned model text *)

Lemma rev_string_acc (acc s : string) :
  rev_string acc s = (rev_string "" s ++ acc)%string.
Proof.
  revert acc. induction s as [| c s IH]; intros acc; cbn [rev_string].
  - now rewrite append_nil.
  - rewrite (IH (String c acc)), (IH (String c "")).
    now rewrite append_assoc, append_cons, append_nil.
Qed.

Lemma hd_split_from (sep s cur : string) :
  hd ""%string (split_from sep s 0 cur)
  = (rev_string "" cur ++ before_first sep s)%string.
Proof.
  revert cur. induction s as [| c s IH]; intros cur; cbn [split_from before_first].
  - cbn [hd]. induction (rev_string "" cur) as [| d r IHr]; [reflexivity |].
    rewrite append_cons. now rewrite <- IHr.
  - destruct (startsWith (String c s) sep).
    + cbn [hd]. induction (rev_string "" cur) as [| d r IHr]; [reflexivity |].
      rewrite append_cons. now rewrite <- IHr.
    + rewrite IH. cbn [rev_string]. rewrite (rev_string_acc (String c "") cur).
      now rewrite append_assoc, append_cons, append_nil.
Qed.

Lemma before_first_prefix (sep s : string) :
  exists rest, s = (before_first sep s ++ rest)%string.
Proof.
  induction s as [| c s [rest IH]]; cbn [before_first].
  - exists ""%string. reflexivity.
  - destruct (startsWith (String c s) sep).
    + exists (String c s). reflexivity.
    + exists rest. rewrite append_cons. now rewrite <- IH.
Qed.

Lemma startsWith_empty (sep : string) :
  sep <> ""%string -> startsWith "" sep = false.
Proof. destruct sep; [contradiction | reflexivity]. Qed.

Lemma before_first_excludes (sep s : string) :
  sep <> ""%string -> includes (before_first sep s) sep = false.
Proof.
  intros Hsep. induction s as [| c s IH]; cbn [before_first].
  - cbn [includes]. now rewrite startsWith_empty.
  - destruct (startsWith (String c s) sep) eqn:Hstart.
    + cbn [includes]. now rewrite startsWith_empty.
    + cbn [includes]. rewrite IH, orb_false_r.
      destruct (startsWith (String c (before_first sep s)) sep) eqn:Hhere; [| reflexivity].
      apply startsWith_spec in Hhere. destruct Hhere as [r Hr].
      destruct (before_first_prefix sep s) as [rest Hrest].
      assert (Hs : startsWith (String c s) sep = true).
      { apply startsWith_spec. exists (r ++ rest)%string.
        rewrite Hrest at 1. rewrite <- append_cons, Hr. apply append_assoc. }
      congruence.
Qed.

Lemma trimStart_suffix (s : string) : exists a, s = (a ++ trimStart s)%string.
Proof.
  induction s as [| c s [a IH]]; cbn [trimStart].
  - exists ""%string. reflexivity.
  - destruct (is_space c).
    + exists (String c a). rewrite append_cons. now rewrite <- IH.
    + exists ""%string. reflexivity.
Qed.

Lemma trimEnd_prefix (s : string) : exists b, s = (trimEnd s ++ b)%string.
Proof.
  induction s as [| c s [b IH]]; cbn [trimEnd].
  - exists ""%string. reflexivity.
  - destruct (trimEnd s) as [| d t] eqn:Ht.
    + rewrite append_nil in IH. subst b. destruct (is_space c).
      * exists (String c s). reflexivity.
      * exists s. reflexivity.
    + exists b. rewrite append_cons. now rewrite <- IH.
Qed.

Lemma includes_trim (s : string) : includes s (trim s) = true.
Proof.
  apply includes_spec. unfold trim.
  destruct (trimStart_suffix s) as [a Ha].
  destruct (trimEnd_prefix (trimStart s)) as [b Hb].
  exists a, b. rewrite <- Hb. exact Ha.
Qed.

Lemma trim_excludes (s sep : string) :
  includes s sep = false -> includes (trim s) sep = false.
Proof.
  intros H. destruct (includes (trim s) sep) eqn:E; [| reflexivity].
  rewrite (includes_trans s (trim s) sep (includes_trim s) E) in H. discriminate H.
Qed.

Lemma trimEnd_cons (c : ascii) (s : string) :
  trimEnd (String c s)
  = match trimEnd s with
    | EmptyString => if is_space c then EmptyString else String c EmptyString
    | t => String c t
    end.
Proof. reflexivity. Qed.

Lemma trimEnd_idempotent (s : string) : trimEnd (trimEnd s) = trimEnd s.
Proof.
  induction s as [| c s IH]; [reflexivity |].
  rewrite trimEnd_cons. destruct (trimEnd s) as [| d t] eqn:Ht.
  - destruct (is_space c) eqn:Hc; [reflexivity |].
    rewrite trimEnd_cons. cbn [trimEnd]. now rewrite Hc.
  - rewrite trimEnd_cons, IH. reflexivity.
Qed.

(** A text that does not start with white space. *)
Lemma trimStart_head (s : string) :
  trimStart (trimStart s) = trimStart s.
Proof.
  induction s as [| c s IH]; [reflexivity |].
  cbn [trimStart]. destruct (is_space c) eqn:Hc; [exact IH |].
  cbn [trimStart]. now rewrite Hc.
Qed.

Lemma trimStart_trimEnd (s : string) :
  trimStart s = s -> trimStart (trimEnd s) = trimEnd s.
Proof.
  destruct s as [| c s]; [reflexivity |].
  cbn [trimStart]. destruct (is_space c) eqn:Hc.
  - intros H. exfalso.
    destruct (trimStart_suffix s) as [a Ha]. rewrite H in Ha.
    apply (f_equal String.length) in Ha. rewrite length_append in Ha.
    cbn [String.length] in Ha. lia.
  - intros _. rewrite trimEnd_cons.
    destruct (trimEnd s); rewrite ?Hc; cbn [trimStart]; now rewrite Hc.
Qed.

Lemma trim_trimmed (s : string) : trimmed (trim s).
Proof.
  unfold trimmed, trim.
  rewrite (trimStart_trimEnd (trimStart s) (trimStart_head s)).
  apply trimEnd_idempotent.
Qed.

Lemma afterMarker_trimmed (sep s : string) : trimmed s -> trimmed (afterMarker sep s).
Proof.
  intros Hs. unfold afterMarker.
  destruct (nth_error (split s sep) 1) as [piece |]; [| exact Hs].
  destruct (truthy_str (trim piece)); [apply trim_trimmed | exact Hs].
Qed.

(** X29. The text that [cleanResponse] returns never contains the marker
    "User:" (what follows the first one is cut off) and, for a non-empty
    input, has no white space at either end. *)
Theorem X29_cleaned_text_has_no_user_turn (aiResponse : string) :
  includes (cleanResponse aiResponse) "User:" = false
  /\ trimmed (cleanResponse aiResponse).
Proof.
  unfold cleanResponse.
  destruct (truthy_str aiResponse) eqn:Htruthy.
  - cbv zeta.
    set (stripped := trim (remove_all "<|end|>" _)).
    assert (H1 : trimmed stripped) by apply trim_trimmed.
    set (a1 := if includes stripped "Assistant Response:"
               then afterMarker "Assistant Response:" stripped else stripped).
    assert (H2 : trimmed a1)
      by (unfold a1; destruct (includes stripped _); [now apply afterMarker_trimmed | exact H1]).
    set (a2 := if includes a1 "FINOVA:" then afterMarker "FINOVA:" a1 else a1).
    assert (H3 : trimmed a2)
      by (unfold a2; destruct (includes a1 _); [now apply afterMarker_trimmed | exact H2]).
    destruct (includes a2 "User:") eqn:Huser.
    + split; [| apply trim_trimmed].
      apply trim_excludes. unfold split. rewrite hd_split_from.
      cbn [rev_string]. rewrite append_nil.
      apply before_first_excludes. discriminate.
    + split; [exact Huser | exact H3].
  - apply negb_false_iff in Htruthy. apply String.eqb_eq in Htruthy. subst aiResponse.
    split; reflexivity.
Qed.

(** *** The topic of a question *)

Lemma match_first_none (prefix : string) (articles : list string) (s : string) :
  includes (toLowerCase s) prefix = false ->
  AIService.match_first prefix articles s = None.
Proof.
  induction s as [| c s IH]; cbn [toLowerCase includes AIService.match_first];
    intros H; apply orb_false_iff in H; destruct H as [Hhere Hrest].
  - unfold AIService.match_here, AIService.after. cbn [toLowerCase]. now rewrite Hhere.
  - unfold AIService.match_here, AIService.after. cbn [toLowerCase]. rewrite Hhere.
    now apply IH.
Qed.

(** X30. [extractTopic] finds a topic only after one of the phrases
    "what is ", "what are ", "explain " and "tell me about ", each with its
    final space, in any letter case: for a message that contains none of
    them the topic is empty, and [generateFinancialExplanation] then gives
    the empty answer that makes the dispatcher fall back. *)
Theorem X30_no_phrase_no_topic (userMessage message : string)
        (tone : Tone) (complexity : Complexity) :
  includes (toLowerCase message) "what is " = false ->
  includes (toLowerCase message) "what are " = false ->
  includes (toLowerCase message) "explain " = false ->
  includes (toLowerCase message) "tell me about " = false ->
  AIService.extractTopic message = ""%string
  /\ AIService.generateFinancialExplanation userMessage message tone complexity
     = ""%string.
Proof.
  intros H1 H2 H3 H4.
  assert (Htopic : AIService.extractTopic message = ""%string).
  { unfold AIService.extractTopic. cbv zeta. cbn [AIService.first_some].
    now rewrite !match_first_none. }
  split; [exact Htopic |].
  unfold AIService.generateFinancialExplanation. cbv zeta. now rewrite Htopic.
Qed.

Lemma X30_witness :
  AIService.extractTopic "please explain" = ""%string
  /\ AIService.generateFinancialExplanation "Please explain" "please explain"
       friendly moderate
     = ""%string.
Proof.
  apply (X30_no_phrase_no_topic "Please explain" "please explain" friendly moderate);
    reflexivity.
Defined.
